(** * Budget planner: budget engine, analytics, goals and the text parser

  A shallow embedding of the TypeScript sources

    - [llm-parser.ts]       (parseNaturalLanguage and its stages),
    - [budget-engine.ts]    (BudgetEngine.calculateBudgetStatus, getPeriodRange,
                             checkBudgetAlerts),
    - [analytics-engine.ts] (AnalyticsEngine trends, summary, compareToLastMonth),
    - [goals-service.ts]    (GoalsService createGoal, addContribution, withdrawFromGoal,
                             over exact amounts, and over doubles in [Binary64];
                             updateGoal, deleteGoal),
    - [transaction-service.ts] (TransactionService getTransactions and the queries
                             built on it, normalizeCategory),
    - [storage.ts]          (the goal and category accessors of StorageManager,
                             getDefaultCategories),
    - [validator.ts]        (validateGoal, isValidDate, sanitizeString),

  together with the properties the specification states about them and
  further properties of the code.

  Modelling conventions.

  - Strings are sequences of ASCII characters ([string]).  [toLowerCase],
    [trim], [\s], [\w] and [\d] are the ASCII fragments of the JavaScript
    ones.
  - Money amounts of the ledger (transactions, budgets, goals) are exact
    rationals ([Q]); statements about them use [==].  The amount read by
    the text parser is a [number]: a finite rational kept exactly, the
    overflow value [Infinity], or [NaN] (what [parseFloat] returns when
    there is no digit).  Rounding of finite values to the nearest double
    is not modelled there.
  - The confidence score is computed with binary64 floats ([PrimFloat]),
    as the source does, and so is the balance of a goal in the module
    [Binary64], which embeds the goals service a second time, with
    doubles, for the statement about the balance that several additions
    leave.
  - A [Date] object is an instant in milliseconds since the epoch ([Z]);
    an ISO date string [YYYY-MM-DD] is the number of its calendar day
    since 1970-01-01.  The current instant, which the source reads with
    [new Date()], is an explicit argument.
  - The time zone of the host is an argument ([TimeZone.t]) of the budget
    engine and of the text parser, whose results depend on it: they read
    local calendar fields ([LocalTime]) beside UTC ones.  The analytics
    engine is embedded for a host at UTC, where the two coincide.
  - [date-fns] and the JavaScript built-ins are not part of the
    repository; their documented behaviour is written out in the modules
    [JsString], [Regex], [JsDate], [DateFns], [TimeZone] and
    [LocalTime].
  - Category names are assumed not to collide with inherited properties
    of plain objects (such as [constructor]). *)

From Stdlib Require Import ZArith QArith Qminmax Bool String Ascii List Lia.
From Stdlib Require Import Floats.PrimFloat Floats.SpecFloat Floats.FloatAxioms.
From Stdlib Require Import Sorting.Sorted Sorting.Permutation.
Import ListNotations.

Set Warnings "-inexact-float".

Local Open Scope Z_scope.
Local Open Scope string_scope.
Local Open Scope list_scope.

(* ====================================================================== *)
(** ** JavaScript strings (ASCII fragment)                                  *)
(* ====================================================================== *)

Module JsString.
Local Open Scope Z_scope.

Definition code (c : ascii) : N := N_of_ascii c.

Definition inRange (lo hi : N) (c : ascii) : bool :=
  (lo <=? code c)%N && (code c <=? hi)%N.

(** [\d] *)
Definition isDigit (c : ascii) : bool := inRange 48 57 c.
Definition isUpper (c : ascii) : bool := inRange 65 90 c.
Definition isLower (c : ascii) : bool := inRange 97 122 c.

(** [\w] is [[A-Za-z0-9_]]. *)
Definition isWord (c : ascii) : bool :=
  isDigit c || isUpper c || isLower c || (code c =? 95)%N.

(** [\s], and the characters removed by [trim]: TAB, LF, VT, FF, CR, SP. *)
Definition isSpace (c : ascii) : bool :=
  inRange 9 13 c || (code c =? 32)%N.

Definition toLowerChar (c : ascii) : ascii :=
  if isUpper c then ascii_of_N (code c + 32) else c.

Definition toUpperChar (c : ascii) : ascii :=
  if isLower c then ascii_of_N (code c - 32) else c.

Fixpoint toLowerCase (s : string) : string :=
  match s with
  | EmptyString => EmptyString
  | String c s' => String (toLowerChar c) (toLowerCase s')
  end.

Fixpoint trimStart (s : string) : string :=
  match s with
  | EmptyString => EmptyString
  | String c s' => if isSpace c then trimStart s' else s
  end.

(** [trimEnd] keeps a character when it is not white space or when
    something remains after it. *)
Fixpoint trimEnd (s : string) : string :=
  match s with
  | EmptyString => EmptyString
  | String c s' =>
      match trimEnd s' with
      | EmptyString => if isSpace c then EmptyString else String c EmptyString
      | t => String c t
      end
  end.

Definition trim (s : string) : string := trimEnd (trimStart s).

Fixpoint startsWith (s p : string) : bool :=
  match p, s with
  | EmptyString, _ => true
  | String _ _, EmptyString => false
  | String a p', String b s' => Ascii.eqb a b && startsWith s' p'
  end.

(** [s.includes(kw)]: [kw] occurs in [s] as a substring. *)
Fixpoint includes (s kw : string) : bool :=
  startsWith s kw ||
  match s with
  | EmptyString => false
  | String _ s' => includes s' kw
  end.

(** [s.replace(/,/g, '')] and the like: drop the characters satisfying [p]. *)
Fixpoint removeChars (p : ascii -> bool) (s : string) : string :=
  match s with
  | EmptyString => EmptyString
  | String c s' => if p c then removeChars p s' else String c (removeChars p s')
  end.

(** [s.charAt(0).toUpperCase() + s.slice(1)] *)
Definition capitalize (s : string) : string :=
  match s with
  | EmptyString => EmptyString
  | String c s' => String (toUpperChar c) s'
  end.

(** [l.indexOf(x)]: the first index holding [x], or [-1]. *)
Fixpoint indexOf (l : list string) (x : string) : Z :=
  match l with
  | [] => -1
  | y :: l' =>
      if String.eqb y x then 0
      else let i := indexOf l' x in if i <? 0 then -1 else i + 1
  end.

(** The double quote character, for messages that quote a name. *)
Definition dquote : string := String (ascii_of_N 34) EmptyString.

End JsString.

(* ====================================================================== *)
(** ** Regular expressions: a backtracking matcher                          *)
(* ====================================================================== *)

Module Regex.
Import JsString.

(** The fragment of JavaScript regular expressions that the sources use.
    [Star] is greedy, [Alt] prefers its left branch, [Group i] is the
    [i]-th capturing group and [WordB] is [\b]. *)
Inductive regex : Type :=
| Eps
| Chr (p : ascii -> bool)
| Seq (r1 r2 : regex)
| Alt (r1 r2 : regex)
| Star (r : regex)
| Group (i : nat) (r : regex)
| WordB
| Bol
| Eol.

Definition Opt (r : regex) : regex := Alt r Eps.
Definition Plus (r : regex) : regex := Seq r (Star r).

Fixpoint seqs (rs : list regex) : regex :=
  match rs with
  | [] => Eps
  | [r] => r
  | r :: rs' => Seq r (seqs rs')
  end.

Fixpoint alts (rs : list regex) : regex :=
  match rs with
  | [] => Chr (fun _ => false)
  | [r] => r
  | r :: rs' => Alt r (alts rs')
  end.

Definition chr (c : ascii) : regex := Chr (Ascii.eqb c).

(** A literal character under the [i] flag. *)
Definition chr_i (c : ascii) : regex :=
  Chr (fun x => Ascii.eqb (toLowerChar x) (toLowerChar c)).

Fixpoint lit (s : string) : regex :=
  match s with
  | EmptyString => Eps
  | String c EmptyString => chr c
  | String c s' => Seq (chr c) (lit s')
  end.

Fixpoint lit_i (s : string) : regex :=
  match s with
  | EmptyString => Eps
  | String c EmptyString => chr_i c
  | String c s' => Seq (chr_i c) (lit_i s')
  end.

Definition digit : regex := Chr isDigit.
Definition space : regex := Chr isSpace.
Definition word : regex := Chr isWord.

(** The matcher's position: the character just before it, the text still
    to read, the number of characters read so far and the number left. *)
Record pos : Type := mkPos {
  prev : option ascii;
  rest : string;
  offset : N;
  left : nat
}.

Definition step (c : ascii) (s' : string) (p : pos) : pos :=
  mkPos (Some c) s' (offset p + 1)%N (Nat.pred (left p)).

(** A capture is kept as the two positions around it. *)
Definition captures : Type := list (nat * (pos * pos)).

(** The text read between two positions of the same input. *)
Definition consumed (p p' : pos) : string :=
  substring 0 (N.to_nat (offset p' - offset p)) (rest p).

Fixpoint capture (i : nat) (cs : captures) : option string :=
  match cs with
  | [] => None
  | (j, (p, p')) :: cs' => if Nat.eqb i j then Some (consumed p p') else capture i cs'
  end.

Definition isWordOpt (o : option ascii) : bool :=
  match o with Some c => isWord c | None => false end.

Definition next (p : pos) : option ascii :=
  match rest p with EmptyString => None | String c _ => Some c end.

Definition atBoundary (p : pos) : bool :=
  xorb (isWordOpt (prev p)) (isWordOpt (next p)).

(** [rmatch r k p cs]: match [r] at [p], then continue with [k]; the
    first success in backtracking order is the result.  An iteration of
    [Star] that reads nothing is not repeated. *)
Fixpoint rmatch {A : Type} (r : regex) (k : pos -> captures -> option A)
         (p : pos) (cs : captures) {struct r} : option A :=
  match r with
  | Eps => k p cs
  | Chr f =>
      match rest p with
      | String c s' => if f c then k (step c s' p) cs else None
      | EmptyString => None
      end
  | Seq r1 r2 => rmatch r1 (rmatch r2 k) p cs
  | Alt r1 r2 =>
      match rmatch r1 k p cs with
      | Some x => Some x
      | None => rmatch r2 k p cs
      end
  | Star r1 =>
      (fix loop (fuel : nat) (p : pos) (cs : captures) {struct fuel} : option A :=
         match fuel with
         | O => k p cs
         | S fuel' =>
             match rmatch r1
                     (fun p' cs' =>
                        if (offset p <? offset p')%N
                        then loop fuel' p' cs' else None) p cs with
             | Some x => Some x
             | None => k p cs
             end
         end) (left p) p cs
  | Group i r1 =>
      rmatch r1 (fun p' cs' => k p' ((i, (p, p')) :: cs')) p cs
  | WordB => if atBoundary p then k p cs else None
  | Bol => match prev p with None => k p cs | Some _ => None end
  | Eol => match rest p with EmptyString => k p cs | String _ _ => None end
  end.

(** One match: the text before it, the matched text, its captures and the
    position after it. *)
Record found : Type := mkFound {
  before : string;
  matched : string;
  groups : captures;
  after : pos
}.

Definition matchAt (r : regex) (p : pos) : option found :=
  rmatch r (fun p' cs => Some (mkFound EmptyString (consumed p p') cs p')) p [].

Definition shift (c : ascii) (f : found) : found :=
  mkFound (String c (before f)) (matched f) (groups f) (after f).

(** Leftmost match at or after the position. *)
Fixpoint searchFrom (r : regex) (pv : option ascii) (s : string) (off : N)
         (len : nat) : option found :=
  match matchAt r (mkPos pv s off len) with
  | Some f => Some f
  | None =>
      match s with
      | EmptyString => None
      | String c s' =>
          option_map (shift c) (searchFrom r (Some c) s' (off + 1)%N (Nat.pred len))
      end
  end.

(** [s.match(r)] for a regular expression without the [g] flag. *)
Definition exec (r : regex) (s : string) : option found :=
  searchFrom r None s 0%N (String.length s).

(** [r.test(s)] *)
Definition test (r : regex) (s : string) : bool :=
  match exec r s with Some _ => true | None => false end.

(** [s.replace(r, by)] for a regular expression with the [g] flag.  After
    an empty match the scan moves one character on. *)
Fixpoint replaceFrom (fuel : nat) (r : regex) (by_ : string)
         (pv : option ascii) (s : string) : string :=
  match fuel with
  | O => s
  | S fuel' =>
      match searchFrom r pv s 0%N (String.length s) with
      | None => s
      | Some f =>
          match matched f with
          | EmptyString =>
              match rest (after f) with
              | EmptyString => before f ++ by_
              | String c s' =>
                  before f ++ by_ ++ String c (replaceFrom fuel' r by_ (Some c) s')
              end
          | String _ _ =>
              before f ++ by_
                ++ replaceFrom fuel' r by_ (prev (after f)) (rest (after f))
          end
      end
  end.

Definition replaceAll (r : regex) (by_ : string) (s : string) : string :=
  replaceFrom (S (String.length s)) r by_ None s.

End Regex.

(* ====================================================================== *)
(** ** Numbers read from text                                               *)
(* ====================================================================== *)

Module JsNumber.
Import JsString.

(** The values [parseFloat] can return on an unsigned decimal text: a
    finite value (kept exactly), [Infinity] when the text denotes a value
    that rounds beyond the largest double, and [NaN]. *)
Inductive number : Type :=
| Fin (q : Q)
| Infinity
| NaN.

Definition isNaN (n : number) : bool :=
  match n with NaN => true | _ => false end.

Definition Qltb (a b : Q) : bool := negb (Qle_bool b a).

(** [n > 0] *)
Definition gt0 (n : number) : bool :=
  match n with
  | Fin q => Qltb 0 q
  | Infinity => true
  | NaN => false
  end.

Definition isFinite (n : number) : bool :=
  match n with Fin _ => true | _ => false end.

(** Decimal texts at or above [2^1024 - 2^970] round to [Infinity]. *)
Definition overflowThreshold : Z := 2 ^ 1024 - 2 ^ 970.

Definition digitValue (c : ascii) : Z := Z.of_N (code c) - 48.

Fixpoint digitsFrom (acc : Z) (s : string) : Z :=
  match s with
  | EmptyString => acc
  | String c s' => digitsFrom (10 * acc + digitValue c) s'
  end.

(** Longest prefix of characters satisfying [p], and what follows it. *)
Fixpoint span (p : ascii -> bool) (s : string) : string * string :=
  match s with
  | EmptyString => (EmptyString, EmptyString)
  | String c s' =>
      if p c then let (a, b) := span p s' in (String c a, b)
      else (EmptyString, s)
  end.

Definition isEmpty (s : string) : bool :=
  match s with EmptyString => true | _ => false end.

(** [parseFloat] on unsigned decimal texts without exponent, which is all
    a capture of [[\d,]+(?:\.\d{2})?] with its commas removed can hold:
    leading white space is skipped, then the longest prefix of the form
    digits, optional point, digits is read; without any digit the result
    is [NaN]. *)
Definition parseFloat (s : string) : number :=
  let (ip, r) := span isDigit (trimStart s) in
  let fp := match r with
            | String "." r' => fst (span isDigit r')
            | _ => EmptyString
            end in
  if isEmpty ip && isEmpty fp then NaN
  else
    let scale := 10 ^ Z.of_nat (String.length fp) in
    let num := digitsFrom 0 ip * scale + digitsFrom 0 fp in
    let q := Qred (Qmake num (Z.to_pos scale)) in
    if Qle_bool (inject_Z overflowThreshold) q then Infinity else Fin q.

(** [parseInt] on a text of decimal digits (the captures [\d{1,2}],
    [\d{2,4}] and [\d{4}]). *)
Definition parseInt (s : string) : Z :=
  digitsFrom 0 (fst (span isDigit s)).

End JsNumber.

(* ====================================================================== *)
(** ** Dates                                                                *)
(* ====================================================================== *)

Module JsDate.
Local Open Scope Z_scope.

(** A [Date] is an instant, in milliseconds since 1970-01-01T00:00Z. *)
Definition Date : Type := Z.

(** An ISO date text [YYYY-MM-DD], as the number of its day. *)
Definition IsoDate : Type := Z.

Definition msPerDay : Z := 86400000.

(** Day number of a civil date of the proleptic Gregorian calendar; the
    month and the day may lie outside their ranges only as far as the
    callers below normalise them. *)
Definition daysFromCivil (y m d : Z) : Z :=
  let y' := if m <=? 2 then y - 1 else y in
  let era := y' / 400 in
  let yoe := y' mod 400 in
  let mp := (m + 9) mod 12 in
  let doy := (153 * mp + 2) / 5 + d - 1 in
  let doe := yoe * 365 + yoe / 4 - yoe / 100 + doy in
  era * 146097 + doe - 719468.

(** Civil date (year, month 1..12, day 1..31) of a day number. *)
Definition civilFromDays (z : Z) : Z * Z * Z :=
  let z' := z + 719468 in
  let era := z' / 146097 in
  let doe := z' mod 146097 in
  let yoe := (doe - doe / 1460 + doe / 36524 - doe / 146096) / 365 in
  let doy := doe - (365 * yoe + yoe / 4 - yoe / 100) in
  let mp := (5 * doy + 2) / 153 in
  let d := doy - (153 * mp + 2) / 5 + 1 in
  let m := if mp <? 10 then mp + 3 else mp - 9 in
  let y := yoe + era * 400 + (if m <=? 2 then 1 else 0) in
  (y, m, d).

(** The calendar fields of a time value and the methods built on them:
    those of a [Date] on a host at UTC.  On another host the same
    functions are applied to the local time value ([LocalTime]). *)
Definition dayOf (t : Date) : Z := t / msPerDay.
Definition timeOfDay (t : Date) : Z := t mod msPerDay.

Definition getFullYear (t : Date) : Z := fst (fst (civilFromDays (dayOf t))).
(** [getMonth] is zero-based. *)
Definition getMonth (t : Date) : Z := snd (fst (civilFromDays (dayOf t))) - 1.
Definition getDate (t : Date) : Z := snd (civilFromDays (dayOf t)).
(** [getDay]: 0 is Sunday; 1970-01-01 was a Thursday. *)
Definition getDay (t : Date) : Z := (dayOf t + 4) mod 7.

(** Midnight of day [day] of month index [monthIndex] of [year], where the
    month index and the day overflow into the neighbouring months and
    years. *)
Definition atMidnight (year monthIndex day : Z) : Date :=
  (daysFromCivil (year + monthIndex / 12) (monthIndex mod 12 + 1) 1 + (day - 1))
  * msPerDay.

(** [new Date(year, monthIndex, day)]: years 0..99 mean 1900..1999. *)
Definition newDate (year monthIndex day : Z) : Date :=
  let y := if (0 <=? year) && (year <=? 99) then 1900 + year else year in
  atMidnight y monthIndex day.

(** [new Date(iso)] for an ISO date text: midnight of that day. *)
Definition ofIso (d : IsoDate) : Date := d * msPerDay.

(** [t.setDate(k)]: day [k] of the month of [t], same time of day. *)
Definition setDate (t : Date) (k : Z) : Date :=
  atMidnight (getFullYear t) (getMonth t) k + timeOfDay t.

(** [t.toISOString().split('T')[0]] *)
Definition toIsoDate (t : Date) : IsoDate := dayOf t.

End JsDate.

(** [date-fns], with the default week start (Sunday). *)
Module DateFns.
Import JsDate.
Local Open Scope Z_scope.

Record Interval : Type := mkInterval { start : Date; end_ : Date }.

Definition startOfDay (t : Date) : Date := dayOf t * msPerDay.
Definition endOfDay (t : Date) : Date := startOfDay t + (msPerDay - 1).

Definition startOfWeek (t : Date) : Date := (dayOf t - getDay t) * msPerDay.
Definition endOfWeek (t : Date) : Date :=
  (dayOf t - getDay t + 6) * msPerDay + (msPerDay - 1).

Definition startOfMonth (t : Date) : Date :=
  atMidnight (getFullYear t) (getMonth t) 1.
Definition endOfMonth (t : Date) : Date :=
  atMidnight (getFullYear t) (getMonth t + 1) 1 - 1.

Definition startOfYear (t : Date) : Date := atMidnight (getFullYear t) 0 1.
Definition endOfYear (t : Date) : Date := atMidnight (getFullYear t + 1) 0 1 - 1.

(** [isWithinInterval(t, {start, end})]: both ends belong to the
    interval. *)
Definition isWithinInterval (t : Date) (i : Interval) : bool :=
  (start i <=? t) && (t <=? end_ i).

(** Number of days of the month with index [monthIndex] of [year]. *)
Definition daysInMonth (year monthIndex : Z) : Z :=
  (atMidnight year (monthIndex + 1) 1 - atMidnight year monthIndex 1) / msPerDay.

(** [addMonths(t, n)]: the same day of the month [n] months later,
    or the last day of that month when it is shorter; same time of day. *)
Definition addMonths (t : Date) (n : Z) : Date :=
  let y := getFullYear t in
  let mi := getMonth t + n in
  atMidnight y mi (Z.min (getDate t) (daysInMonth y mi)) + timeOfDay t.

Definition subMonths (t : Date) (n : Z) : Date := addMonths t (- n).

Definition addDays (t : Date) (n : Z) : Date := t + n * msPerDay.

(** Starts of [n] successive steps of [step] days from [t]. *)
Fixpoint stepsFrom (t : Date) (step : Z) (n : nat) : list Date :=
  match n with
  | O => []
  | S n' => t :: stepsFrom (addDays t step) step n'
  end.

(** [eachDayOfInterval], for an interval that does not end before it
    starts: the start of every day from the day of [start] to the day of
    [end], both included. *)
Definition eachDayOfInterval (i : Interval) : list Date :=
  stepsFrom (startOfDay (start i)) 1
            (Z.to_nat (dayOf (end_ i) - dayOf (start i) + 1)).

(** [eachWeekOfInterval], for such an interval: the start of every week
    from the week of [start] to the week of [end], both included. *)
Definition eachWeekOfInterval (i : Interval) : list Date :=
  stepsFrom (startOfWeek (start i)) 7
            (Z.to_nat ((dayOf (startOfWeek (end_ i))
                        - dayOf (startOfWeek (start i))) / 7 + 1)).

(** Absolute month index: twelve times the year plus the month index. *)
Definition monthNumber (t : Date) : Z := 12 * getFullYear t + getMonth t.

Fixpoint monthsFrom (mn : Z) (n : nat) : list Date :=
  match n with
  | O => []
  | S n' => atMidnight 0 mn 1 :: monthsFrom (mn + 1) n'
  end.

(** [eachMonthOfInterval], for such an interval: the start of every month
    from the month of [start] to the month of [end], both included. *)
Definition eachMonthOfInterval (i : Interval) : list Date :=
  monthsFrom (monthNumber (start i))
             (Z.to_nat (monthNumber (end_ i) - monthNumber (start i) + 1)).

End DateFns.

(** The time zone of the host, as ECMAScript reads it: the offset of local
    time from UTC, in milliseconds, in force at an instant
    ([LocalTZA(t, true)]) and at a local time value ([LocalTZA(t, false)]).
    The two agree except around a change of offset. *)
Module TimeZone.
Import JsDate.
Local Open Scope Z_scope.

Record t : Type := mk { offsetAt : Date -> Z; offsetOfLocal : Z -> Z }.

(** A zone that keeps one offset all year. *)
Definition fixed (offset : Z) : t := mk (fun _ => offset) (fun _ => offset).

Definition utc : t := fixed 0.

(** [LocalTime(t)] and [UTC(tLocal)] *)
Definition localTime (zone : t) (time : Date) : Z := time + offsetAt zone time.
Definition utcOf (zone : t) (tLocal : Z) : Date := tLocal - offsetOfLocal zone tLocal.

Definition msPerHour : Z := 3600000.

(** America/New_York around 2026: daylight time, four hours behind UTC,
    from 8 March 2026 at 07:00 UTC to 1 November 2026 at 06:00 UTC, and
    standard time, five hours behind, before and after.  A local time
    value that a change skips or repeats is read with the offset in force
    before that change. *)
Definition newYork : t :=
  mk (fun time =>
        if (atMidnight 2026 2 8 + 7 * msPerHour <=? time)
           && (time <? atMidnight 2026 10 1 + 6 * msPerHour)
        then -4 * msPerHour else -5 * msPerHour)
     (fun tLocal =>
        if (atMidnight 2026 2 8 + 3 * msPerHour <=? tLocal)
           && (tLocal <? atMidnight 2026 10 1 + 2 * msPerHour)
        then -4 * msPerHour else -5 * msPerHour).

End TimeZone.

(** The methods of [Date] and the functions of [date-fns] that work on
    local time: each reads the fields of the local time value with the
    function of [JsDate] or [DateFns], and returns the instant of the local
    time value it builds. *)
Module LocalTime.
Import JsDate TimeZone.
Local Open Scope Z_scope.

Section Host.

Variable zone : TimeZone.t.

Definition getFullYear (t : Date) : Z := JsDate.getFullYear (localTime zone t).
Definition getMonth (t : Date) : Z := JsDate.getMonth (localTime zone t).
Definition getDate (t : Date) : Z := JsDate.getDate (localTime zone t).

(** [t.setDate(k)] *)
Definition setDate (t : Date) (k : Z) : Date :=
  utcOf zone (JsDate.setDate (localTime zone t) k).

(** [new Date(year, monthIndex, day)]: midnight of that day, local time. *)
Definition newDate (year monthIndex day : Z) : Date :=
  utcOf zone (JsDate.newDate year monthIndex day).

(** The start or the end of a period in local time, as [date-fns] returns
    it: [f] gives it on the local time value. *)
Definition onLocal (f : Z -> Z) (t : Date) : Date := utcOf zone (f (localTime zone t)).

Definition startOfDay : Date -> Date := onLocal DateFns.startOfDay.
Definition endOfDay : Date -> Date := onLocal DateFns.endOfDay.
Definition startOfWeek : Date -> Date := onLocal DateFns.startOfWeek.
Definition endOfWeek : Date -> Date := onLocal DateFns.endOfWeek.
Definition startOfMonth : Date -> Date := onLocal DateFns.startOfMonth.
Definition endOfMonth : Date -> Date := onLocal DateFns.endOfMonth.
Definition startOfYear : Date -> Date := onLocal DateFns.startOfYear.
Definition endOfYear : Date -> Date := onLocal DateFns.endOfYear.

End Host.

End LocalTime.

(* ====================================================================== *)
(** ** types/index.ts                                                       *)
(* ====================================================================== *)

Module Types.
Import JsDate.

Inductive TransactionType : Type := expense | income.
Inductive BudgetPeriod : Type := daily | weekly | monthly | yearly.
Inductive GoalPriority : Type := low | medium | high.
Inductive BudgetLevel : Type := under | warning | exceeded.

Definition TransactionType_eqb (a b : TransactionType) : bool :=
  match a, b with
  | expense, expense | income, income => true
  | _, _ => false
  end.

(** The optional [recurringConfig] is left out: nothing below reads it. *)
Module Transaction.
Record t : Type := mk {
  id : string;
  type : TransactionType;
  amount : Q;
  category : string;
  description : string;
  date : IsoDate;
  tags : list string;
  isRecurring : bool;
  merchant : option string;
  notes : option string;
  createdAt : Date;
  updatedAt : Date
}.
End Transaction.

Module Budget.
Record t : Type := mk {
  id : string;
  name : string;
  category : string;
  limit : Q;
  spent : Q;
  period : BudgetPeriod;
  alertThreshold : Q;
  startDate : IsoDate;
  endDate : option IsoDate;
  isActive : bool;
  createdAt : Date;
  updatedAt : Date
}.
End Budget.

Module BudgetStatus.
Record t : Type := mk {
  budgetId : string;
  budgetName : string;
  category : string;
  limit : Q;
  spent : Q;
  remaining : Q;
  percentageUsed : Q;
  status : BudgetLevel
}.
End BudgetStatus.

Module GoalContribution.
Record t : Type := mk {
  id : string;
  amount : Q;
  date : IsoDate;
  note : option string
}.
End GoalContribution.

Module SavingsGoal.
Record t : Type := mk {
  id : string;
  name : string;
  description : option string;
  targetAmount : Q;
  currentAmount : Q;
  deadline : option string;
  priority : GoalPriority;
  contributions : list GoalContribution.t;
  isCompleted : bool;
  createdAt : Date;
  updatedAt : Date
}.
End SavingsGoal.

Module CategoryTotal.
Record t : Type := mk {
  category : string;
  total : Q;
  count : nat;
  percentage : Q
}.
End CategoryTotal.

Module SpendingSummary.
Record t : Type := mk {
  totalExpenses : Q;
  totalIncome : Q;
  netSavings : Q;
  expensesByCategory : list CategoryTotal.t;
  incomeByCategory : list CategoryTotal.t;
  period : IsoDate * IsoDate
}.
End SpendingSummary.

(** [date] is the formatted start of the bucket ([yyyy-MM-dd], or [yyyy-MM]
    for months), kept as the day it denotes. *)
Module TrendData.
Record t : Type := mk {
  date : IsoDate;
  expenses : Q;
  income : Q;
  netSavings : Q
}.
End TrendData.

Module ActionResult.
Record t (T : Type) : Type := mk {
  success : bool;
  data : option T;
  message : string;
  error : option string
}.
Arguments mk {T}.
Arguments success {T}.
Arguments data {T}.
Arguments message {T}.
Arguments error {T}.
End ActionResult.

(** The persisted document, without the categories, the insights and the
    configuration, which nothing below reads. *)
Module ClawhubData.
Record t : Type := mk {
  transactions : list Transaction.t;
  budgets : list Budget.t;
  goals : list SavingsGoal.t
}.
End ClawhubData.

End Types.

(* ====================================================================== *)
(** ** llm-parser.ts: the natural-language parser                           *)
(* ====================================================================== *)

Module LlmParser.
Import JsString Regex JsNumber JsDate Types.

Record ParsedTransaction : Type := mkParsed {
  type : TransactionType;
  amount : number;
  category : string;
  description : string;
  date : IsoDate;
  confidence : float;
  rawInput : string
}.

(** *** Type detection *)

Definition EXPENSE_KEYWORDS : list string :=
  ["spent"; "paid"; "bought"; "purchased"; "cost"; "charged";
   "expense"; "bill"; "payment"; "subscription"; "fee"].

Definition INCOME_KEYWORDS : list string :=
  ["received"; "earned"; "got"; "income"; "salary"; "wage";
   "payment from"; "refund"; "bonus"; "commission"; "dividend"].

Definition determineTransactionType (input : string) : option TransactionType :=
  let hasExpense := existsb (includes input) EXPENSE_KEYWORDS in
  let hasIncome := existsb (includes input) INCOME_KEYWORDS in
  if hasIncome && negb hasExpense then Some income
  else if hasExpense && negb hasIncome then Some expense
  else if hasExpense && hasIncome then Some expense
  else if includes input "from" then Some income
  else if includes input "on" || includes input "for" then Some expense
  else None.

(** *** Amount extraction *)

(** [([\d,]+(?:\.\d{2})?)] *)
Definition money : regex :=
  Group 1 (Seq (Plus (Chr (fun c => isDigit c || Ascii.eqb c ",")))
               (Opt (seqs [chr "."; digit; digit]))).

Definition patterns : list regex :=
  [ (* /\$\s*([\d,]+(?:\.\d{2})?)/ *)
    seqs [chr "$"; Star space; money];
    (* /([\d,]+(?:\.\d{2})?)\s*\$/ *)
    seqs [money; Star space; chr "$"];
    (* /([\d,]+(?:\.\d{2})?)\s*(?:dollars?|usd|bucks)/i *)
    seqs [money; Star space;
          alts [Seq (lit_i "dollar") (Opt (chr_i "s")); lit_i "usd"; lit_i "bucks"]];
    (* /(?:spent|paid|received|got|earned)\s*\$?\s*([\d,]+(?:\.\d{2})?)/i *)
    seqs [alts [lit_i "spent"; lit_i "paid"; lit_i "received"; lit_i "got";
                lit_i "earned"];
          Star space; Opt (chr "$"); Star space; money];
    (* /([\d,]+(?:\.\d{2})?)\s*(?:for|on)/i *)
    seqs [money; Star space; alts [lit_i "for"; lit_i "on"]] ].

(** [/(\d+(?:\.\d{2})?)/] *)
Definition anyNumberPattern : regex :=
  Group 1 (Seq (Plus digit) (Opt (seqs [chr "."; digit; digit]))).

(** [!isNaN(num) && num > 0] *)
Definition accepted (num : number) : bool := negb (isNaN num) && gt0 num.

(** One turn of the loop over [patterns]: the value returned from inside
    the loop, if any. *)
Definition tryPattern (input : string) (pattern : regex) : option number :=
  match exec pattern input with
  | Some m =>
      match capture 1 (groups m) with
      | Some g =>
          let cleaned := removeChars (Ascii.eqb ",") g in
          let num := parseFloat cleaned in
          if accepted num then Some num else None
      | None => None
      end
  | None => None
  end.

(** The fallback after the loop: any number. *)
Definition tryAnyNumber (input : string) : option number :=
  match exec anyNumberPattern input with
  | Some m =>
      match capture 1 (groups m) with
      | Some g =>
          let num := parseFloat g in
          if accepted num then Some num else None
      | None => None
      end
  | None => None
  end.

Fixpoint firstSome {A B : Type} (f : A -> option B) (l : list A) : option B :=
  match l with
  | [] => None
  | x :: l' => match f x with Some y => Some y | None => firstSome f l' end
  end.

Definition extractAmount (input : string) : option number :=
  match firstSome (tryPattern input) patterns with
  | Some num => Some num
  | None => tryAnyNumber input
  end.

(** *** Category extraction *)

Definition CATEGORY_KEYWORDS : list (string * list string) :=
  [ ("Food & Dining", ["food"; "groceries"; "grocery"; "restaurant"; "dinner";
                       "lunch"; "breakfast"; "coffee"; "meal"; "eating"; "snack"]);
    ("Transportation", ["uber"; "lyft"; "taxi"; "gas"; "fuel"; "bus"; "train";
                        "metro"; "parking"; "car"; "transport"; "ride"]);
    ("Shopping", ["shopping"; "clothes"; "clothing"; "amazon"; "store"; "mall";
                  "shoes"; "purchase"]);
    ("Bills & Utilities", ["bill"; "electricity"; "electric"; "water"; "internet";
                           "phone"; "utility"; "utilities"; "rent"; "mortgage"]);
    ("Entertainment", ["movie"; "netflix"; "spotify"; "gaming"; "concert";
                       "entertainment"; "show"; "theater"; "music"]);
    ("Health & Fitness", ["gym"; "health"; "medicine"; "doctor"; "pharmacy";
                          "fitness"; "workout"; "medical"; "hospital"]);
    ("Education", ["education"; "course"; "book"; "books"; "training"; "school";
                   "tuition"; "class"]);
    ("Subscriptions", ["subscription"; "monthly"; "premium"; "membership"; "annual"]);
    ("Salary", ["salary"; "wage"; "paycheck"; "pay"]);
    ("Freelance", ["freelance"; "gig"; "contract"; "client"; "project"]);
    ("Investments", ["dividend"; "interest"; "investment"; "stock"; "crypto"]) ].

Definition defaultCategory : string := "Other Expenses".

Fixpoint firstCategory (input : string) (table : list (string * list string))
  : option string :=
  match table with
  | [] => None
  | (cat, keywords) :: table' =>
      if existsb (includes input) keywords then Some cat
      else firstCategory input table'
  end.

Definition extractCategory (input : string) : string :=
  match firstCategory input CATEGORY_KEYWORDS with
  | Some cat => cat
  | None => defaultCategory
  end.

(** *** Date extraction *)

Definition formatDateISO (t : Date) : IsoDate := toIsoDate t.

Definition getMonthIndex (monthName : string) : Z :=
  let months := ["january"; "february"; "march"; "april"; "may"; "june";
                 "july"; "august"; "september"; "october"; "november";
                 "december"] in
  let shortMonths := ["jan"; "feb"; "mar"; "apr"; "may"; "jun";
                      "jul"; "aug"; "sep"; "oct"; "nov"; "dec"] in
  let lower := toLowerCase monthName in
  let index := indexOf months lower in
  if (index =? -1)%Z then indexOf shortMonths lower else index.

(** [/(?:on\s+)?(\w+)\s+(\d{1,2})(?:st|nd|rd|th)?(?:\s*,?\s*(\d{4}))?/i] *)
Definition monthPattern : regex :=
  seqs [Opt (Seq (lit_i "on") (Plus space));
        Group 1 (Plus word);
        Plus space;
        Group 2 (Seq digit (Opt digit));
        Opt (alts [lit_i "st"; lit_i "nd"; lit_i "rd"; lit_i "th"]);
        Opt (seqs [Star space; Opt (chr ","); Star space;
                   Group 3 (seqs [digit; digit; digit; digit])])].

(** [/(\d{1,2})[\/\-](\d{1,2})(?:[\/\-](\d{2,4}))?/] *)
Definition datePattern : regex :=
  let sep := Chr (fun c => Ascii.eqb c "/" || Ascii.eqb c "-") in
  seqs [Group 1 (Seq digit (Opt digit));
        sep;
        Group 2 (Seq digit (Opt digit));
        Opt (Seq sep (Group 3 (seqs [digit; digit; Opt (Seq digit (Opt digit))])))].

Definition text (o : option string) : string :=
  match o with Some s => s | None => EmptyString end.

Section Host.

(** The time zone of the host: [getFullYear], [getDate], [setDate] and
    [new Date(year, monthIndex, day)] work on local time, whereas
    [formatDateISO] reads the date in UTC. *)
Variable zone : TimeZone.t.

(** The numeric [MM/DD] branch and the final default of [extractDate]. *)
Definition extractNumericDate (today : Date) (input : string) : IsoDate :=
  match exec datePattern input with
  | Some dateMatch =>
      let month := (parseInt (text (capture 1 (groups dateMatch))) - 1)%Z in
      let day := parseInt (text (capture 2 (groups dateMatch))) in
      let year := match capture 3 (groups dateMatch) with
                  | Some y => parseInt y
                  | None => LocalTime.getFullYear zone today
                  end in
      let year := if (year <? 100)%Z then (year + 2000)%Z else year in
      formatDateISO (LocalTime.newDate zone year month day)
  | None => formatDateISO today
  end.

(** [today] is the value of [new Date()]. *)
Definition extractDate (today : Date) (input : string) : IsoDate :=
  if includes input "today" then formatDateISO today
  else if includes input "yesterday" then
    let yesterday :=
      LocalTime.setDate zone today (LocalTime.getDate zone today - 1) in
    formatDateISO yesterday
  else if includes input "last week" then
    let lastWeek :=
      LocalTime.setDate zone today (LocalTime.getDate zone today - 7) in
    formatDateISO lastWeek
  else
    match exec monthPattern input with
    | Some monthMatch =>
        let monthName := text (capture 1 (groups monthMatch)) in
        let day := parseInt (text (capture 2 (groups monthMatch))) in
        let year := match capture 3 (groups monthMatch) with
                    | Some y => parseInt y
                    | None => LocalTime.getFullYear zone today
                    end in
        let monthIndex := getMonthIndex monthName in
        if negb (monthIndex =? -1)%Z
        then formatDateISO (LocalTime.newDate zone year monthIndex day)
        else extractNumericDate today input
    | None => extractNumericDate today input
    end.

(** *** Description extraction *)

(** [/\b(spent|paid|received|got|earned|bought|for|on|at|from)\b/gi] *)
Definition stopWords : regex :=
  seqs [WordB;
        Group 1 (alts [lit_i "spent"; lit_i "paid"; lit_i "received"; lit_i "got";
                       lit_i "earned"; lit_i "bought"; lit_i "for"; lit_i "on";
                       lit_i "at"; lit_i "from"]);
        WordB].

(** [/\$[\d,.]+/g] *)
Definition dollarAmount : regex :=
  Seq (chr "$")
      (Plus (Chr (fun c => isDigit c || Ascii.eqb c "," || Ascii.eqb c "."))).

Definition extractDescription (input category : string) : string :=
  let desc := trim (replaceAll (Plus space) " "
                      (replaceAll dollarAmount ""
                         (replaceAll stopWords "" input))) in
  let desc := if isEmpty desc then desc else capitalize desc in
  if isEmpty desc then category else desc.

(** *** Confidence *)

(** [Math.min] on doubles. *)
Definition mathMin (a b : float) : float :=
  if is_nan a || is_nan b then nan
  else if PrimFloat.ltb b a then b
  else if PrimFloat.ltb a b then a
  else if get_sign a then a else b.

Definition someGt0 (amount : option number) : bool :=
  match amount with Some n => gt0 n | None => false end.

(** [now] is the value of [new Date()]. *)
Definition calculateConfidence (now : Date) (amount : option number)
           (category : string) (date : IsoDate) : float :=
  let confidence := 0.5%float in
  let confidence :=
    if someGt0 amount then (confidence + 0.2)%float else confidence in
  let confidence :=
    if negb (String.eqb category "Other Expenses")
    then (confidence + 0.2)%float else confidence in
  let confidence :=
    if negb (date =? formatDateISO now)%Z
    then (confidence + 0.1)%float else confidence in
  mathMin 1%float confidence.

(** *** The pipeline *)

Definition normalize (input : string) : string := trim (toLowerCase input).

(** [now] stands for every [new Date()] of one call. *)
Definition parseNaturalLanguage (now : Date) (input : string)
  : option ParsedTransaction :=
  let normalized := normalize input in
  match determineTransactionType normalized with
  | None => None
  | Some type =>
      match extractAmount normalized with
      | None => None
      | Some amount =>
          let category := extractCategory normalized in
          let date := extractDate now normalized in
          let description := extractDescription normalized category in
          Some (mkParsed type amount category description date
                  (calculateConfidence now (Some amount) category date) input)
      end
  end.

End Host.

End LlmParser.

(* ====================================================================== *)
(** ** JavaScript arrays and plain objects                                  *)
(* ====================================================================== *)

Module JsArray.
Import JsString JsNumber.
Local Open Scope Q_scope.

(** [l.findIndex(p)]; [None] stands for [-1]. *)
Fixpoint findIndex {A : Type} (p : A -> bool) (l : list A) : option nat :=
  match l with
  | [] => None
  | x :: l' => if p x then Some O else option_map S (findIndex p l')
  end.

(** [l[i] = x] for an index inside the array. *)
Fixpoint setAt {A : Type} (i : nat) (x : A) (l : list A) : list A :=
  match l, i with
  | [], _ => []
  | _ :: l', O => x :: l'
  | y :: l', S i' => y :: setAt i' x l'
  end.

(** [l.reduce((sum, x) => sum + f(x), 0)] *)
Definition sumOf {A : Type} (f : A -> Q) (l : list A) : Q :=
  fold_left (fun sum x => sum + f x) l 0.

(** One step of a stable insertion sort: [x] stood before every element of
    the sorted [l], and moves behind [y] only when [compareFn x y > 0]. *)
Fixpoint insertSorted {A : Type} (compareFn : A -> A -> Q) (x : A) (l : list A)
  : list A :=
  match l with
  | [] => [x]
  | y :: l' =>
      if Qltb 0 (compareFn x y) then y :: insertSorted compareFn x l'
      else x :: y :: l'
  end.

(** [l.sort(compareFn)]: the sort is stable. *)
Definition sort {A : Type} (compareFn : A -> A -> Q) (l : list A) : list A :=
  fold_right (insertSorted compareFn) [] l.

(** [l.slice(0, n)] *)
Definition slice0 {A : Type} (n : nat) (l : list A) : list A := firstn n l.

(** Iteration order of [new Set(l)]: first occurrences, in order. *)
Fixpoint setOf (seen l : list string) : list string :=
  match l with
  | [] => []
  | x :: l' =>
      if existsb (String.eqb x) seen then setOf seen l'
      else x :: setOf (x :: seen) l'
  end.

(** A key that is an array index: a canonical decimal numeral below
    [2^32 - 1]. *)
Fixpoint allDigits (s : string) : bool :=
  match s with
  | EmptyString => true
  | String c s' => isDigit c && allDigits s'
  end.

Definition arrayIndex (k : string) : option Z :=
  if isEmpty k || negb (allDigits k) then None
  else if startsWith k "0" && negb (String.eqb k "0") then None
  else if (parseInt k <? 2 ^ 32 - 1)%Z then Some (parseInt k) else None.

Fixpoint insertByIndex {V : Type} (i : Z) (e : string * V)
         (l : list (Z * (string * V))) : list (Z * (string * V)) :=
  match l with
  | [] => [(i, e)]
  | (j, e') :: l' =>
      if (i <? j)%Z then (i, e) :: (j, e') :: l'
      else (j, e') :: insertByIndex i e l'
  end.

Fixpoint indexEntries {V : Type} (m : list (string * V)) : list (Z * (string * V)) :=
  match m with
  | [] => []
  | (k, v) :: m' =>
      match arrayIndex k with
      | Some i => insertByIndex i (k, v) (indexEntries m')
      | None => indexEntries m'
      end
  end.

Definition isNamed {V : Type} (e : string * V) : bool :=
  match arrayIndex (fst e) with Some _ => false | None => true end.

(** [Object.entries(m)] for an object whose keys were created in the order
    of the list [m]: array-index keys first, in ascending order, then the
    other keys in creation order. *)
Definition entries {V : Type} (m : list (string * V)) : list (string * V) :=
  map snd (indexEntries m) ++ filter isNamed m.

End JsArray.

(* ====================================================================== *)
(** ** storage.ts: StorageManager (in-memory document)                      *)
(* ====================================================================== *)

Module Storage.
Import JsDate Types JsArray.

(** [Partial<SavingsGoal>] *)
Module GoalUpdates.
Record t : Type := mk {
  id : option string;
  name : option string;
  description : option string;
  targetAmount : option Q;
  currentAmount : option Q;
  deadline : option string;
  priority : option GoalPriority;
  contributions : option (list GoalContribution.t);
  isCompleted : option bool;
  createdAt : option Date;
  updatedAt : option Date
}.
Definition none : t := mk None None None None None None None None None None None.
End GoalUpdates.

Definition orElse {A : Type} (o : option A) (d : A) : A :=
  match o with Some x => x | None => d end.

Definition orKeep {A : Type} (o d : option A) : option A :=
  match o with Some x => Some x | None => d end.

Definition getTransactions (d : ClawhubData.t) : list Transaction.t :=
  ClawhubData.transactions d.

Definition getGoals (d : ClawhubData.t) : list SavingsGoal.t :=
  ClawhubData.goals d.

Definition hasId (id : string) (g : SavingsGoal.t) : bool :=
  String.eqb (SavingsGoal.id g) id.

Definition getGoalById (d : ClawhubData.t) (id : string) : option SavingsGoal.t :=
  find (hasId id) (ClawhubData.goals d).

Definition withGoals (d : ClawhubData.t) (gs : list SavingsGoal.t) : ClawhubData.t :=
  ClawhubData.mk (ClawhubData.transactions d) (ClawhubData.budgets d) gs.

Definition addGoal (d : ClawhubData.t) (goal : SavingsGoal.t)
  : ClawhubData.t * SavingsGoal.t :=
  (withGoals d (ClawhubData.goals d ++ [goal]), goal).

(** [{ ...goal, ...updates, updatedAt: now }] *)
Definition merge (now : Date) (g : SavingsGoal.t) (u : GoalUpdates.t) : SavingsGoal.t :=
  SavingsGoal.mk
    (orElse (GoalUpdates.id u) (SavingsGoal.id g))
    (orElse (GoalUpdates.name u) (SavingsGoal.name g))
    (orKeep (GoalUpdates.description u) (SavingsGoal.description g))
    (orElse (GoalUpdates.targetAmount u) (SavingsGoal.targetAmount g))
    (orElse (GoalUpdates.currentAmount u) (SavingsGoal.currentAmount g))
    (orKeep (GoalUpdates.deadline u) (SavingsGoal.deadline g))
    (orElse (GoalUpdates.priority u) (SavingsGoal.priority g))
    (orElse (GoalUpdates.contributions u) (SavingsGoal.contributions g))
    (orElse (GoalUpdates.isCompleted u) (SavingsGoal.isCompleted g))
    (orElse (GoalUpdates.createdAt u) (SavingsGoal.createdAt g))
    now.

Definition updateGoal (now : Date) (d : ClawhubData.t) (id : string)
           (updates : GoalUpdates.t) : ClawhubData.t * option SavingsGoal.t :=
  match findIndex (hasId id) (ClawhubData.goals d) with
  | None => (d, None)
  | Some index =>
      match nth_error (ClawhubData.goals d) index with
      | None => (d, None)
      | Some g =>
          let g' := merge now g updates in
          (withGoals d (setAt index g' (ClawhubData.goals d)), Some g')
      end
  end.

End Storage.

(* ====================================================================== *)
(** ** validator.ts                                                         *)
(* ====================================================================== *)

Module Validator.
Import JsString JsNumber Regex Types.
Local Open Scope Q_scope.

Record ValidationResult : Type := mkValidation {
  valid : bool;
  errors : list string
}.

(** [/^\d{4}-\d{2}-\d{2}$/] *)
Definition isoShape : regex :=
  seqs [Bol; digit; digit; digit; digit; chr "-"; digit; digit; chr "-";
        digit; digit; Eol].

(** A text of that shape is accepted by [new Date] when its month is 01..12
    and its day 01..31 (a day beyond the length of the month rolls over). *)
Definition isValidDate (dateString : string) : bool :=
  if negb (test isoShape dateString) then false
  else
    let month := parseInt (substring 5 2 dateString) in
    let day := parseInt (substring 8 2 dateString) in
    ((1 <=? month) && (month <=? 12) && (1 <=? day) && (day <=? 31))%Z.

(** The argument of [createGoal], which [validateGoal] receives. *)
Record GoalData : Type := mkGoalData {
  name : string;
  description : option string;
  targetAmount : Q;
  currentAmount : option Q;
  deadline : option string;
  priority : option GoalPriority
}.

Definition check (failed : bool) (msg : string) : list string :=
  if failed then [msg] else [].

(** The fields are typed here, so the [typeof] tests, the test for a
    missing target amount and the test of the priority against its three
    values, which cannot fail on a typed argument, leave no trace. *)
Definition validateGoal (data : GoalData) : ValidationResult :=
  let errors :=
    check (isEmpty (name data)) "Goal name is required"
    ++ check (Qle_bool (targetAmount data) 0) "Target amount must be a positive number"
    ++ check (match currentAmount data with
              | Some c => Qltb c 0
              | None => false
              end) "Current amount must be a non-negative number"
    ++ check (match deadline data with
              | Some dl => negb (isEmpty dl) && negb (isValidDate dl)
              | None => false
              end) "Invalid deadline format (use YYYY-MM-DD)" in
  mkValidation (match errors with [] => true | _ => false end) errors.

End Validator.

(* ====================================================================== *)
(** ** goals-service.ts: GoalsService                                       *)
(* ====================================================================== *)

Module GoalsService.
Import JsString JsNumber JsDate Types Storage Validator.
Local Open Scope Q_scope.
Local Open Scope string_scope.

Section WithNumberToString.

(** How a number is written inside a template literal. *)
Variable numberToString : Q -> string.

Definition failure {T : Type} (message error : string) : ActionResult.t T :=
  ActionResult.mk false None message (Some error).

Definition quoted (s : string) : string := dquote ++ s ++ dquote.

(** [x || 0] on a number. *)
Definition orZero (o : option Q) : Q :=
  match o with
  | Some x => if Qeq_bool x 0 then 0 else x
  | None => 0
  end.

(** [now] is [new Date()] and [uuid] the value of [uuidv4()]. *)
Definition createGoal (now : Date) (uuid : string) (d : ClawhubData.t)
           (data : GoalData) : ClawhubData.t * ActionResult.t SavingsGoal.t :=
  let validation := validateGoal data in
  if negb (valid validation) then
    (d, failure "Validation failed" (String.concat ", " (errors validation)))
  else
    let goal :=
      SavingsGoal.mk
        ("goal_" ++ substring 0 8 uuid)
        (name data)
        (description data)
        (targetAmount data)
        (orZero (currentAmount data))
        (deadline data)
        (orElse (priority data) medium)
        []
        false
        now
        now in
    let (d', _) := addGoal d goal in
    (d', ActionResult.mk true (Some goal)
           ("Goal " ++ quoted (SavingsGoal.name goal) ++ " created successfully")
           None).

Definition addContribution (now : Date) (uuid : string) (d : ClawhubData.t)
           (goalId : string) (amount : Q) (note : option string)
  : ClawhubData.t * ActionResult.t SavingsGoal.t :=
  match getGoalById d goalId with
  | None => (d, failure "Goal not found" ("No goal with ID: " ++ goalId))
  | Some goal =>
      if Qle_bool amount 0 then
        (d, failure "Invalid amount" "Contribution must be positive")
      else
        let contribution :=
          GoalContribution.mk ("contrib_" ++ substring 0 8 uuid) amount
                              (toIsoDate now) note in
        let newCurrentAmount := SavingsGoal.currentAmount goal + amount in
        let isCompleted :=
          Qle_bool (SavingsGoal.targetAmount goal) newCurrentAmount in
        let (d', updated) :=
          updateGoal now d goalId
            (GoalUpdates.mk None None None None (Some newCurrentAmount) None None
               (Some (SavingsGoal.contributions goal ++ [contribution])%list)
               (Some isCompleted) None None) in
        let message :=
          "Added $" ++ numberToString amount ++ " to "
            ++ quoted (SavingsGoal.name goal) in
        let message :=
          if isCompleted && negb (SavingsGoal.isCompleted goal)
          then message ++ " 🎉 Goal completed!" else message in
        (d', ActionResult.mk true updated message None)
  end.

Definition withdrawFromGoal (now : Date) (uuid : string) (d : ClawhubData.t)
           (goalId : string) (amount : Q) (note : option string)
  : ClawhubData.t * ActionResult.t SavingsGoal.t :=
  match getGoalById d goalId with
  | None => (d, failure "Goal not found" ("No goal with ID: " ++ goalId))
  | Some goal =>
      if Qle_bool amount 0 then
        (d, failure "Invalid amount" "Withdrawal must be positive")
      else if Qltb (SavingsGoal.currentAmount goal) amount then
        (d, failure "Insufficient funds"
              ("Only $" ++ numberToString (SavingsGoal.currentAmount goal)
                 ++ " available"))
      else
        let contribution :=
          GoalContribution.mk ("contrib_" ++ substring 0 8 uuid) (- amount)
            (toIsoDate now)
            (Some (match note with
                   | Some n => if isEmpty n then "Withdrawal" else "Withdrawal: " ++ n
                   | None => "Withdrawal"
                   end)) in
        let newCurrentAmount := SavingsGoal.currentAmount goal - amount in
        let (d', updated) :=
          updateGoal now d goalId
            (GoalUpdates.mk None None None None (Some newCurrentAmount) None None
               (Some (SavingsGoal.contributions goal ++ [contribution])%list)
               (Some false) None None) in
        (d', ActionResult.mk true updated
               ("Withdrew $" ++ numberToString amount ++ " from "
                  ++ quoted (SavingsGoal.name goal)) None)
  end.

End WithNumberToString.

End GoalsService.

(* ====================================================================== *)
(** ** The goals ledger in double arithmetic                                *)
(* ====================================================================== *)

(** [goals-service.ts], [validateGoal] and the goal accessors of
    [storage.ts] once more, with every amount the binary64 double that it
    is in the source, and the document reduced to its array of goals.  The
    modules above keep the amounts exact, which is all that one comparison
    or one sum of whole amounts needs; the balance left by several
    additions depends on their rounding, and is read here. *)
Module Binary64.
Import JsString JsNumber JsDate Types JsArray.
Local Open Scope string_scope.

Module GoalContribution.
Record t : Type := mk {
  id : string;
  amount : float;
  date : IsoDate;
  note : option string
}.
End GoalContribution.

Module SavingsGoal.
Record t : Type := mk {
  id : string;
  name : string;
  description : option string;
  targetAmount : float;
  currentAmount : float;
  deadline : option string;
  priority : GoalPriority;
  contributions : list GoalContribution.t;
  isCompleted : bool;
  createdAt : Date;
  updatedAt : Date
}.
End SavingsGoal.

(** [Partial<SavingsGoal>] *)
Module GoalUpdates.
Record t : Type := mk {
  id : option string;
  name : option string;
  description : option string;
  targetAmount : option float;
  currentAmount : option float;
  deadline : option string;
  priority : option GoalPriority;
  contributions : option (list GoalContribution.t);
  isCompleted : option bool;
  createdAt : option Date;
  updatedAt : option Date
}.
End GoalUpdates.

(** *** storage.ts *)

Definition hasId (id : string) (g : SavingsGoal.t) : bool :=
  String.eqb (SavingsGoal.id g) id.

Definition getGoalById (goals : list SavingsGoal.t) (id : string)
  : option SavingsGoal.t :=
  find (hasId id) goals.

Definition addGoal (goals : list SavingsGoal.t) (goal : SavingsGoal.t)
  : list SavingsGoal.t * SavingsGoal.t :=
  ((goals ++ [goal])%list, goal).

(** [{ ...goal, ...updates, updatedAt: now }] *)
Definition merge (now : Date) (g : SavingsGoal.t) (u : GoalUpdates.t) : SavingsGoal.t :=
  SavingsGoal.mk
    (Storage.orElse (GoalUpdates.id u) (SavingsGoal.id g))
    (Storage.orElse (GoalUpdates.name u) (SavingsGoal.name g))
    (Storage.orKeep (GoalUpdates.description u) (SavingsGoal.description g))
    (Storage.orElse (GoalUpdates.targetAmount u) (SavingsGoal.targetAmount g))
    (Storage.orElse (GoalUpdates.currentAmount u) (SavingsGoal.currentAmount g))
    (Storage.orKeep (GoalUpdates.deadline u) (SavingsGoal.deadline g))
    (Storage.orElse (GoalUpdates.priority u) (SavingsGoal.priority g))
    (Storage.orElse (GoalUpdates.contributions u) (SavingsGoal.contributions g))
    (Storage.orElse (GoalUpdates.isCompleted u) (SavingsGoal.isCompleted g))
    (Storage.orElse (GoalUpdates.createdAt u) (SavingsGoal.createdAt g))
    now.

Definition updateGoal (now : Date) (goals : list SavingsGoal.t) (id : string)
           (updates : GoalUpdates.t) : list SavingsGoal.t * option SavingsGoal.t :=
  match findIndex (hasId id) goals with
  | None => (goals, None)
  | Some index =>
      match nth_error goals index with
      | None => (goals, None)
      | Some g =>
          let g' := merge now g updates in
          (setAt index g' goals, Some g')
      end
  end.

(** *** validator.ts *)

(** The argument of [createGoal], which [validateGoal] receives. *)
Record GoalData : Type := mkGoalData {
  name : string;
  description : option string;
  targetAmount : float;
  currentAmount : option float;
  deadline : option string;
  priority : option GoalPriority
}.

(** The fields are typed, as in [Validator.validateGoal], so the [typeof]
    tests leave no trace; a [NaN] passes both comparisons. *)
Definition validateGoal (data : GoalData) : Validator.ValidationResult :=
  let errors :=
    (Validator.check (isEmpty (name data)) "Goal name is required"
     ++ Validator.check (PrimFloat.leb (targetAmount data) 0)
                        "Target amount must be a positive number"
     ++ Validator.check (match currentAmount data with
                         | Some c => PrimFloat.ltb c 0
                         | None => false
                         end) "Current amount must be a non-negative number"
     ++ Validator.check (match deadline data with
                         | Some dl => negb (isEmpty dl) && negb (Validator.isValidDate dl)
                         | None => false
                         end) "Invalid deadline format (use YYYY-MM-DD)")%list in
  Validator.mkValidation (match errors with [] => true | _ => false end) errors.

(** *** goals-service.ts *)

Section WithNumberToString.

(** How a number is written inside a template literal. *)
Variable numberToString : float -> string.

(** [x || 0] on a number: zero of either sign and [NaN] are falsy. *)
Definition orZero (o : option float) : float :=
  match o with
  | Some x => if is_zero x || is_nan x then 0%float else x
  | None => 0%float
  end.

(** [now] is [new Date()] and [uuid] the value of [uuidv4()]. *)
Definition createGoal (now : Date) (uuid : string) (goals : list SavingsGoal.t)
           (data : GoalData) : list SavingsGoal.t * ActionResult.t SavingsGoal.t :=
  let validation := validateGoal data in
  if negb (Validator.valid validation) then
    (goals, GoalsService.failure "Validation failed"
              (String.concat ", " (Validator.errors validation)))
  else
    let goal :=
      SavingsGoal.mk
        ("goal_" ++ substring 0 8 uuid)
        (name data)
        (description data)
        (targetAmount data)
        (orZero (currentAmount data))
        (deadline data)
        (Storage.orElse (priority data) medium)
        []
        false
        now
        now in
    let (goals', _) := addGoal goals goal in
    (goals', ActionResult.mk true (Some goal)
               ("Goal " ++ GoalsService.quoted (SavingsGoal.name goal)
                  ++ " created successfully")
               None).

Definition addContribution (now : Date) (uuid : string) (goals : list SavingsGoal.t)
           (goalId : string) (amount : float) (note : option string)
  : list SavingsGoal.t * ActionResult.t SavingsGoal.t :=
  match getGoalById goals goalId with
  | None => (goals, GoalsService.failure "Goal not found" ("No goal with ID: " ++ goalId))
  | Some goal =>
      if PrimFloat.leb amount 0 then
        (goals, GoalsService.failure "Invalid amount" "Contribution must be positive")
      else
        let contribution :=
          GoalContribution.mk ("contrib_" ++ substring 0 8 uuid) amount
                              (toIsoDate now) note in
        let newCurrentAmount := (SavingsGoal.currentAmount goal + amount)%float in
        let isCompleted :=
          PrimFloat.leb (SavingsGoal.targetAmount goal) newCurrentAmount in
        let (goals', updated) :=
          updateGoal now goals goalId
            (GoalUpdates.mk None None None None (Some newCurrentAmount) None None
               (Some (SavingsGoal.contributions goal ++ [contribution])%list)
               (Some isCompleted) None None) in
        let message :=
          "Added $" ++ numberToString amount ++ " to "
            ++ GoalsService.quoted (SavingsGoal.name goal) in
        let message :=
          if isCompleted && negb (SavingsGoal.isCompleted goal)
          then message ++ " 🎉 Goal completed!" else message in
        (goals', ActionResult.mk true updated message None)
  end.

Definition withdrawFromGoal (now : Date) (uuid : string) (goals : list SavingsGoal.t)
           (goalId : string) (amount : float) (note : option string)
  : list SavingsGoal.t * ActionResult.t SavingsGoal.t :=
  match getGoalById goals goalId with
  | None => (goals, GoalsService.failure "Goal not found" ("No goal with ID: " ++ goalId))
  | Some goal =>
      if PrimFloat.leb amount 0 then
        (goals, GoalsService.failure "Invalid amount" "Withdrawal must be positive")
      else if PrimFloat.ltb (SavingsGoal.currentAmount goal) amount then
        (goals, GoalsService.failure "Insufficient funds"
                  ("Only $" ++ numberToString (SavingsGoal.currentAmount goal)
                     ++ " available"))
      else
        let contribution :=
          GoalContribution.mk ("contrib_" ++ substring 0 8 uuid) (- amount)%float
            (toIsoDate now)
            (Some (match note with
                   | Some n => if isEmpty n then "Withdrawal" else "Withdrawal: " ++ n
                   | None => "Withdrawal"
                   end)) in
        let newCurrentAmount := (SavingsGoal.currentAmount goal - amount)%float in
        let (goals', updated) :=
          updateGoal now goals goalId
            (GoalUpdates.mk None None None None (Some newCurrentAmount) None None
               (Some (SavingsGoal.contributions goal ++ [contribution])%list)
               (Some false) None None) in
        (goals', ActionResult.mk true updated
                   ("Withdrew $" ++ numberToString amount ++ " from "
                      ++ GoalsService.quoted (SavingsGoal.name goal)) None)
  end.

End WithNumberToString.

End Binary64.

(* ====================================================================== *)
(** ** budget-engine.ts: BudgetEngine                                       *)
(* ====================================================================== *)

Module BudgetEngine.
Import JsString JsNumber JsDate DateFns Types Storage JsArray.
Local Open Scope Q_scope.

Section Host.

(** The time zone of the host: the window is cut in local time. *)
Variable zone : TimeZone.t.

(** [now] is the value of [new Date()]. *)
Definition getPeriodRange (now : Date) (period : BudgetPeriod) : Interval :=
  match period with
  | daily => mkInterval (LocalTime.startOfDay zone now) (LocalTime.endOfDay zone now)
  | weekly => mkInterval (LocalTime.startOfWeek zone now) (LocalTime.endOfWeek zone now)
  | monthly => mkInterval (LocalTime.startOfMonth zone now) (LocalTime.endOfMonth zone now)
  | yearly => mkInterval (LocalTime.startOfYear zone now) (LocalTime.endOfYear zone now)
  end.

(** The filter of [calculateBudgetStatus]; [new Date(t.date)], of a date
    without a time, is the midnight that starts that day in UTC. *)
Definition counts (budget : Budget.t) (range : Interval) (t : Transaction.t) : bool :=
  TransactionType_eqb (Transaction.type t) expense
  && String.eqb (toLowerCase (Transaction.category t))
                (toLowerCase (Budget.category budget))
  && isWithinInterval (ofIso (Transaction.date t)) range.

Definition calculateBudgetStatus (now : Date) (d : ClawhubData.t)
           (budget : Budget.t) : BudgetStatus.t :=
  let range := getPeriodRange now (Budget.period budget) in
  let transactions := filter (counts budget range) (getTransactions d) in
  let spent := fold_left (fun sum t => sum + Transaction.amount t) transactions 0 in
  let remaining := Qmax 0 (Budget.limit budget - spent) in
  let percentageUsed :=
    if Qltb 0 (Budget.limit budget)
    then (spent / Budget.limit budget) * 100 else 0 in
  let status :=
    if Qle_bool 100 percentageUsed then exceeded
    else if Qle_bool (Budget.alertThreshold budget * 100) percentageUsed then warning
    else under in
  BudgetStatus.mk (Budget.id budget) (Budget.name budget) (Budget.category budget)
                  (Budget.limit budget) spent remaining percentageUsed status.

End Host.

End BudgetEngine.

(* ====================================================================== *)
(** ** analytics-engine.ts: AnalyticsEngine                                 *)
(* ====================================================================== *)

Module AnalyticsEngine.
Import JsString JsNumber JsDate DateFns Types Storage JsArray.
Local Open Scope Q_scope.

Definition isExpense (t : Transaction.t) : bool :=
  TransactionType_eqb (Transaction.type t) expense.

Definition isIncome (t : Transaction.t) : bool :=
  TransactionType_eqb (Transaction.type t) income.

Definition getTransactionsInRange (d : ClawhubData.t) (range : Interval)
  : list Transaction.t :=
  filter (fun t => isWithinInterval (ofIso (Transaction.date t)) range)
         (getTransactions d).

Definition getCurrentMonthRange (now : Date) : Interval :=
  mkInterval (startOfMonth now) (endOfMonth now).

Definition getLastMonthRange (now : Date) : Interval :=
  let lastMonth := subMonths now 1 in
  mkInterval (startOfMonth lastMonth) (endOfMonth lastMonth).

(** One turn of the loop that fills [categoryMap]; the list keeps the keys
    in the order of their creation. *)
Fixpoint addToCategory (categoryMap : list (string * (Q * nat)))
         (cat : string) (amount : Q) : list (string * (Q * nat)) :=
  match categoryMap with
  | [] => [(cat, (0 + amount, S O))]
  | (k, (total, count)) :: m' =>
      if String.eqb k cat then (k, (total + amount, S count)) :: m'
      else (k, (total, count)) :: addToCategory m' cat amount
  end.

Definition byTotalDescending (a b : CategoryTotal.t) : Q :=
  CategoryTotal.total b - CategoryTotal.total a.

Definition calculateCategoryTotals (transactions : list Transaction.t) (total : Q)
  : list CategoryTotal.t :=
  let categoryMap :=
    fold_left (fun m t => addToCategory m (Transaction.category t)
                                        (Transaction.amount t))
              transactions [] in
  sort byTotalDescending
    (map (fun e : string * (Q * nat) =>
            let '(category, (tot, count)) := e in
            CategoryTotal.mk category tot count
              (if Qltb 0 total then (tot / total) * 100 else 0))
         (entries categoryMap)).

Definition getSpendingSummary (now : Date) (d : ClawhubData.t)
           (dateRange : option Interval) : SpendingSummary.t :=
  let range := orElse dateRange (getCurrentMonthRange now) in
  let transactions := getTransactionsInRange d range in
  let expenses := filter isExpense transactions in
  let income := filter isIncome transactions in
  let totalExpenses := sumOf Transaction.amount expenses in
  let totalIncome := sumOf Transaction.amount income in
  SpendingSummary.mk totalExpenses totalIncome (totalIncome - totalExpenses)
    (calculateCategoryTotals expenses totalExpenses)
    (calculateCategoryTotals income totalIncome)
    (toIsoDate (start range), toIsoDate (end_ range)).

(** *** Trends

    The spans ([days], [weeks], [months]) are counts, hence [nat]. *)

(** The record built for one bucket of a trend series. *)
Definition trendPoint (label : IsoDate) (bucket : list Transaction.t) : TrendData.t :=
  let expenses := sumOf Transaction.amount (filter isExpense bucket) in
  let income := sumOf Transaction.amount (filter isIncome bucket) in
  TrendData.mk label expenses income (income - expenses).

Definition getDailyTrends (now : Date) (d : ClawhubData.t) (days : nat)
  : list TrendData.t :=
  let end_ := now in
  let start := setDate now (getDate now - Z.of_nat days)%Z in
  let dates := eachDayOfInterval (mkInterval start end_) in
  let transactions := getTransactions d in
  map (fun date =>
         let dateStr := toIsoDate date in
         let dayTx := filter (fun t => (Transaction.date t =? dateStr)%Z) transactions in
         trendPoint dateStr dayTx)
      dates.

Definition getWeeklyTrends (now : Date) (d : ClawhubData.t) (weeks : nat)
  : list TrendData.t :=
  let end_ := now in
  let start := setDate now (getDate now - Z.of_nat weeks * 7)%Z in
  let weekStarts := eachWeekOfInterval (mkInterval start end_) in
  let transactions := getTransactions d in
  map (fun weekStart =>
         let weekEnd := endOfWeek weekStart in
         let weekInterval := mkInterval weekStart weekEnd in
         let weekTx :=
           filter (fun t => isWithinInterval (ofIso (Transaction.date t)) weekInterval)
                  transactions in
         trendPoint (toIsoDate weekStart) weekTx)
      weekStarts.

Definition getMonthlyTrends (now : Date) (d : ClawhubData.t) (months : nat)
  : list TrendData.t :=
  let end_ := now in
  let start := subMonths end_ (Z.of_nat months) in
  let monthStarts := eachMonthOfInterval (mkInterval start end_) in
  let transactions := getTransactions d in
  map (fun monthStart =>
         let monthEnd := endOfMonth monthStart in
         let monthInterval := mkInterval monthStart monthEnd in
         let monthTx :=
           filter (fun t => isWithinInterval (ofIso (Transaction.date t)) monthInterval)
                  transactions in
         trendPoint (toIsoDate monthStart) monthTx)
      monthStarts.

Module Change.
Record t : Type := mk { category : string; change : Q }.
End Change.

Module Comparison.
Record t : Type := mk {
  expenseChange : Q;
  incomeChange : Q;
  savingsChange : Q;
  topIncreases : list Change.t;
  topDecreases : list Change.t
}.
End Comparison.

(** [list.find(c => c.category === cat)?.total || 0] *)
Definition totalOf (l : list CategoryTotal.t) (cat : string) : Q :=
  match find (fun c => String.eqb (CategoryTotal.category c) cat) l with
  | Some c => if Qeq_bool (CategoryTotal.total c) 0 then 0 else CategoryTotal.total c
  | None => 0
  end.

Definition byChangeDescending (a b : Change.t) : Q :=
  Change.change b - Change.change a.

(** The category changes before they are sorted, in the iteration order of
    the set of categories. *)
Definition categoryChanges (currentMonth lastMonth : SpendingSummary.t)
  : list Change.t :=
  let allCategories :=
    setOf [] (map CategoryTotal.category (SpendingSummary.expensesByCategory currentMonth)
              ++ map CategoryTotal.category (SpendingSummary.expensesByCategory lastMonth)) in
  map (fun cat =>
         let current := totalOf (SpendingSummary.expensesByCategory currentMonth) cat in
         let last := totalOf (SpendingSummary.expensesByCategory lastMonth) cat in
         Change.mk cat (current - last))
      allCategories.

Definition compareToLastMonth (now : Date) (d : ClawhubData.t) : Comparison.t :=
  let currentMonth := getSpendingSummary now d (Some (getCurrentMonthRange now)) in
  let lastMonth := getSpendingSummary now d (Some (getLastMonthRange now)) in
  let expenseChange :=
    SpendingSummary.totalExpenses currentMonth - SpendingSummary.totalExpenses lastMonth in
  let incomeChange :=
    SpendingSummary.totalIncome currentMonth - SpendingSummary.totalIncome lastMonth in
  let savingsChange :=
    SpendingSummary.netSavings currentMonth - SpendingSummary.netSavings lastMonth in
  let changes := sort byChangeDescending (categoryChanges currentMonth lastMonth) in
  Comparison.mk expenseChange incomeChange savingsChange
    (slice0 3 (filter (fun c => Qltb 0 (Change.change c)) changes))
    (slice0 3 (filter (fun c => Qltb (Change.change c) 0) changes)).

End AnalyticsEngine.

(* ====================================================================== *)
(** ** More of the arrays                                                   *)
(* ====================================================================== *)

Module JsArrayOps.
Local Open Scope Z_scope.

(** [l.splice(index, 1)] for an index inside the array: what is left. *)
Fixpoint removeAt {A : Type} (index : nat) (l : list A) : list A :=
  match l, index with
  | [], _ => []
  | _ :: l', O => l'
  | x :: l', S i => x :: removeAt i l'
  end.

(** [l.slice(0, end)] for an integer [end]: a negative one counts from the
    end of the array. *)
Definition sliceTo {A : Type} (end_ : Z) (l : list A) : list A :=
  if end_ <? 0 then firstn (Z.to_nat (Z.of_nat (length l) + end_)) l
  else firstn (Z.to_nat end_) l.

End JsArrayOps.

(* ====================================================================== *)
(** ** types/index.ts: categories                                           *)
(* ====================================================================== *)

Module MoreTypes.
Import JsDate Types.

(** [TransactionType | 'both'] *)
Inductive CategoryType : Type := forExpense | forIncome | forBoth.

Module Category.
Record t : Type := mk {
  id : string;
  name : string;
  type : CategoryType;
  icon : option string;
  color : option string;
  parentId : option string;
  isDefault : bool;
  createdAt : Date
}.
End Category.

End MoreTypes.

(* ====================================================================== *)
(** ** storage.ts: more accessors of StorageManager                         *)
(* ====================================================================== *)

Module StorageManager.
Import JsString JsDate Types MoreTypes JsArray JsArrayOps Storage.

Definition withTransactions (d : ClawhubData.t) (ts : list Transaction.t)
  : ClawhubData.t :=
  ClawhubData.mk ts (ClawhubData.budgets d) (ClawhubData.goals d).

Definition getBudgets (d : ClawhubData.t) : list Budget.t := ClawhubData.budgets d.

Definition deleteGoal (d : ClawhubData.t) (id : string) : ClawhubData.t * bool :=
  match findIndex (hasId id) (ClawhubData.goals d) with
  | None => (d, false)
  | Some index => (withGoals d (removeAt index (ClawhubData.goals d)), true)
  end.

(** *** Categories: the [categories] array of the document *)

Definition getCategoryByName (categories : list Category.t) (name : string)
  : option Category.t :=
  find (fun c => String.eqb (toLowerCase (Category.name c)) (toLowerCase name))
       categories.

Definition deleteCategory (categories : list Category.t) (id : string)
  : list Category.t * bool :=
  match findIndex (fun c => String.eqb (Category.id c) id
                            && negb (Category.isDefault c)) categories with
  | None => (categories, false)
  | Some index => (removeAt index categories, true)
  end.

(** *** [getDefaultCategories]: the categories of a new document *)

Definition default (now : Date) (id name : string) (type : CategoryType)
           (icon color : string) : Category.t :=
  Category.mk id name type (Some icon) (Some color) None true now.

(** [now] is the value of [new Date()]. *)
Definition getDefaultCategories (now : Date) : list Category.t :=
  [ (* Expense categories *)
    default now "cat_food" "Food & Dining" forExpense "🍔" "#FF6B6B";
    default now "cat_transport" "Transportation" forExpense "🚗" "#4ECDC4";
    default now "cat_shopping" "Shopping" forExpense "🛍️" "#45B7D1";
    default now "cat_bills" "Bills & Utilities" forExpense "💡" "#96CEB4";
    default now "cat_entertainment" "Entertainment" forExpense "🎬" "#FFEAA7";
    default now "cat_health" "Health & Fitness" forExpense "💪" "#DDA0DD";
    default now "cat_education" "Education" forExpense "📚" "#98D8C8";
    default now "cat_personal" "Personal Care" forExpense "💄" "#F7DC6F";
    default now "cat_subscriptions" "Subscriptions" forExpense "📱" "#BB8FCE";
    default now "cat_other_exp" "Other Expenses" forExpense "📦" "#85C1E9";
    (* Income categories *)
    default now "cat_salary" "Salary" forIncome "💰" "#2ECC71";
    default now "cat_freelance" "Freelance" forIncome "💻" "#3498DB";
    default now "cat_investments" "Investments" forIncome "📈" "#9B59B6";
    default now "cat_gifts" "Gifts" forIncome "🎁" "#E74C3C";
    default now "cat_other_inc" "Other Income" forIncome "💵" "#1ABC9C" ].

End StorageManager.

(* ====================================================================== *)
(** ** validator.ts: sanitizeString                                         *)
(* ====================================================================== *)

Module Sanitizer.
Import JsString.

Definition isAngle (c : ascii) : bool := Ascii.eqb c "<" || Ascii.eqb c ">".

(** [str.trim().replace(/[<>]/g, '')] *)
Definition sanitizeString (str : string) : string := removeChars isAngle (trim str).

End Sanitizer.

(* ====================================================================== *)
(** ** goals-service.ts: updateGoal and deleteGoal                          *)
(* ====================================================================== *)

Module GoalsQueries.
Import JsString JsDate Types Storage StorageManager.
Local Open Scope string_scope.

Definition updateGoal (now : Date) (d : ClawhubData.t) (id : string)
           (updates : GoalUpdates.t) : ClawhubData.t * ActionResult.t SavingsGoal.t :=
  match getGoalById d id with
  | None => (d, GoalsService.failure "Goal not found" ("No goal with ID: " ++ id))
  | Some goal =>
      let (d', updated) := Storage.updateGoal now d id updates in
      (d', ActionResult.mk true updated "Goal updated successfully" None)
  end.

Definition deleteGoal (d : ClawhubData.t) (id : string)
  : ClawhubData.t * ActionResult.t unit :=
  let (d', result) := StorageManager.deleteGoal d id in
  if negb result then (d', GoalsService.failure "Failed to delete" "Goal not found")
  else (d', ActionResult.mk true None "Goal deleted successfully" None).

End GoalsQueries.

(* ====================================================================== *)
(** ** transaction-service.ts: the queries of TransactionService            *)
(* ====================================================================== *)

Module TransactionService.
Import JsString JsNumber JsDate Types MoreTypes.
Import JsArray JsArrayOps Storage StorageManager.
Local Open Scope Q_scope.
Local Open Scope string_scope.

(** [existing?.name || category] *)
Definition normalizeCategory (categories : list Category.t) (category : string)
  : string :=
  match getCategoryByName categories category with
  | Some existing =>
      if isEmpty (Category.name existing) then category else Category.name existing
  | None => category
  end.

(** The options of [getTransactions].  The two dates are date texts, kept
    as their days like the dates of the transactions; texts of the shape
    [YYYY-MM-DD] compare as their days do. *)
Module Options.
Record t : Type := mk {
  type : option TransactionType;
  category : option string;
  startDate : option IsoDate;
  endDate : option IsoDate;
  minAmount : option Q;
  maxAmount : option Q;
  tags : option (list string);
  search : option string;
  limit : option Z
}.
Definition none : t := mk None None None None None None None None None.
End Options.

(** An array variable of the method: the array it holds, and whether that
    array is the one the storage holds. *)
Definition Held (A : Type) : Type := (list A * bool)%type.

(** [if (cond) transactions = transactions.filter(p)]: a filter builds a
    new array. *)
Definition filterIf {A B : Type} (cond : option B) (p : B -> A -> bool)
           (held : Held A) : Held A :=
  match cond with
  | Some x => (filter (p x) (fst held), false)
  | None => held
  end.

(** A text option counts when it is not empty. *)
Definition nonEmpty (o : option string) : option string :=
  match o with
  | Some s => if isEmpty s then None else Some s
  | None => None
  end.

(** An array option counts when it holds something. *)
Definition nonEmptyList {A : Type} (o : option (list A)) : option (list A) :=
  match o with
  | Some [] => None
  | Some l => Some l
  | None => None
  end.

(** A number option counts when it is not zero. *)
Definition nonZero (o : option Z) : option Z :=
  match o with
  | Some 0%Z => None
  | Some n => Some n
  | None => None
  end.

Definition hasTagOf (tags : list string) (t : Transaction.t) : bool :=
  existsb (fun tag => existsb (String.eqb tag) tags) (Transaction.tags t).

Definition matchesSearch (search : string) (t : Transaction.t) : bool :=
  let searchLower := toLowerCase search in
  includes (toLowerCase (Transaction.description t)) searchLower
  || includes (toLowerCase (Transaction.category t)) searchLower
  || match Transaction.merchant t with
     | Some m => includes (toLowerCase m) searchLower
     | None => false
     end.

(** [(a, b) => new Date(b.date).getTime() - new Date(a.date).getTime()] *)
Definition byDateDescending (a b : Transaction.t) : Q :=
  inject_Z (ofIso (Transaction.date b) - ofIso (Transaction.date a)).

(** The array that [getTransactions] starts from is the stored one, and
    [sort] sorts in place: when no filter has replaced the array, the
    stored transactions are the ones sorted. *)
Definition getTransactions (d : ClawhubData.t) (options : option Options.t)
  : ClawhubData.t * list Transaction.t :=
  let o := orElse options Options.none in
  let transactions : Held Transaction.t := (Storage.getTransactions d, true) in
  let transactions :=
    filterIf (Options.type o)
             (fun ty t => TransactionType_eqb (Transaction.type t) ty) transactions in
  let transactions :=
    filterIf (nonEmpty (Options.category o))
             (fun c t => String.eqb (toLowerCase (Transaction.category t))
                                    (toLowerCase c)) transactions in
  let transactions :=
    filterIf (Options.startDate o)
             (fun s t => (s <=? Transaction.date t)%Z) transactions in
  let transactions :=
    filterIf (Options.endDate o)
             (fun e t => (Transaction.date t <=? e)%Z) transactions in
  let transactions :=
    filterIf (Options.minAmount o)
             (fun m t => Qle_bool m (Transaction.amount t)) transactions in
  let transactions :=
    filterIf (Options.maxAmount o)
             (fun m t => Qle_bool (Transaction.amount t) m) transactions in
  let transactions :=
    filterIf (nonEmptyList (Options.tags o)) hasTagOf transactions in
  let transactions :=
    filterIf (nonEmpty (Options.search o)) matchesSearch transactions in
  let sorted := sort byDateDescending (fst transactions) in
  let d' := if snd transactions then withTransactions d sorted else d in
  (d', match nonZero (Options.limit o) with
       | Some n => sliceTo n sorted
       | None => sorted
       end).

Definition getRecentTransactions (d : ClawhubData.t) (count : Z)
  : ClawhubData.t * list Transaction.t :=
  getTransactions d
    (Some (Options.mk None None None None None None None None (Some count))).

(** [{ ...options, type }] *)
Definition withType (options : option Options.t) (type : TransactionType)
  : Options.t :=
  let o := orElse options Options.none in
  Options.mk (Some type) (Options.category o) (Options.startDate o)
             (Options.endDate o) (Options.minAmount o) (Options.maxAmount o)
             (Options.tags o) (Options.search o) (Options.limit o).

Definition getExpenses (d : ClawhubData.t) (options : option Options.t)
  : ClawhubData.t * list Transaction.t :=
  getTransactions d (Some (withType options expense)).

Definition getIncome (d : ClawhubData.t) (options : option Options.t)
  : ClawhubData.t * list Transaction.t :=
  getTransactions d (Some (withType options income)).

End TransactionService.

(* ====================================================================== *)
(** ** budget-engine.ts: the alerts                                         *)
(* ====================================================================== *)

Module BudgetOperations.
Import JsString JsNumber JsDate Types JsArray.
Import Storage StorageManager BudgetEngine TransactionService.
Local Open Scope Q_scope.
Local Open Scope string_scope.

Module Alert.
Record t : Type := mk {
  budget : Budget.t;
  status : BudgetStatus.t;
  message : string
}.
End Alert.

Section Host.

(** The time zone of the host; how a number is written inside a template
    literal, and [x.toFixed(1)]. *)
Variable zone : TimeZone.t.
Variable numberToString : Q -> string.
Variable toFixed1 : Q -> string.

(** One turn of the loop of [checkBudgetAlerts]. *)
Definition alertFor (now : Date) (d : ClawhubData.t) (budget : Budget.t)
  : list Alert.t :=
  let status := calculateBudgetStatus zone now d budget in
  match BudgetStatus.status status with
  | exceeded =>
      [Alert.mk budget status
         ("ðŸ”´ EXCEEDED: " ++ GoalsService.quoted (Budget.name budget)
            ++ " budget exceeded by "
            ++ toFixed1 (BudgetStatus.percentageUsed status - 100) ++ "%")]
  | warning =>
      [Alert.mk budget status
         ("ðŸŸ¡ WARNING: " ++ GoalsService.quoted (Budget.name budget)
            ++ " budget at "
            ++ toFixed1 (BudgetStatus.percentageUsed status) ++ "% ("
            ++ numberToString (Budget.alertThreshold budget * 100)
            ++ "% threshold)")]
  | under => []
  end.

Definition checkBudgetAlerts (now : Date) (d : ClawhubData.t) : list Alert.t :=
  let budgets := filter Budget.isActive (getBudgets d) in
  fold_left (fun alerts budget => (alerts ++ alertFor now d budget)%list) budgets [].

End Host.

End BudgetOperations.

(* ====================================================================== *)
(** * Properties                                                            *)
(* ====================================================================== *)

(** ** The calendar *)

Module CalendarFacts.
Import JsDate DateFns.
Local Open Scope Z_scope.

(** The year of the era and the day of that year. *)
Lemma year_of_era doe :
  0 <= doe < 146097 ->
  let yoe := (doe - doe / 1460 + doe / 36524 - doe / 146096) / 365 in
  0 <= yoe <= 399
  /\ 365 * yoe + yoe / 4 - yoe / 100 <= doe
  /\ doe < 365 * (yoe + 1) + (yoe + 1) / 4 - (yoe + 1) / 100 + (yoe + 1) / 400.
Proof. intros H. cbv zeta. Z.div_mod_to_equations. lia. Qed.

(** The month of the year that starts in March, and the day of the month. *)
Lemma month_of_year doy :
  0 <= doy <= 365 ->
  let mp := (5 * doy + 2) / 153 in
  0 <= mp <= 11 /\ (153 * mp + 2) / 5 <= doy < (153 * (mp + 1) + 2) / 5.
Proof. intros H. cbv zeta. Z.div_mod_to_equations. lia. Qed.

(** Day of the era of the first day of month [mp] (March is 0) of year
    [yoe] of the era. *)
Definition eraDay (yoe mp : Z) : Z :=
  yoe * 365 + yoe / 4 - yoe / 100 + (153 * mp + 2) / 5.

(** [daysFromCivil] on a civil date given by its era, year of era and
    month counted from March. *)
Lemma days_of_shifted era yoe mp y m d :
  0 <= yoe <= 399 ->
  y - (if m <=? 2 then 1 else 0) = yoe + era * 400 ->
  (m + 9) mod 12 = mp ->
  daysFromCivil y m d = era * 146097 + eraDay yoe mp + (d - 1) - 719468.
Proof.
  intros Hyoe Hy Hm. unfold daysFromCivil, eraDay. cbv zeta. rewrite Hm.
  replace (if m <=? 2 then y - 1 else y) with (yoe + era * 400)
    by (destruct (m <=? 2); lia).
  rewrite Z.div_add, Z.mod_add, Z.div_small, Z.mod_small by lia.
  ring.
Qed.

(** The civil date of a day number, with the era, the year of the era and
    the month counted from March that it was read from. *)
Lemma civil_shape z :
  exists era yoe mp d,
    0 <= yoe <= 399 /\ 0 <= mp <= 11 /\ 1 <= d
    /\ z = era * 146097 + eraDay yoe mp + (d - 1) - 719468
    /\ eraDay yoe mp + (d - 1) < eraDay yoe (mp + 1)
    /\ eraDay yoe mp + (d - 1) < eraDay (yoe + 1) 0 + (yoe + 1) / 400
    /\ civilFromDays z
       = (yoe + era * 400 + (if mp <? 10 then 0 else 1),
          (if mp <? 10 then mp + 3 else mp - 9), d).
Proof.
  unfold civilFromDays. cbv zeta.
  set (doe := (z + 719468) mod 146097).
  set (era := (z + 719468) / 146097).
  assert (Hdoe : 0 <= doe < 146097) by (apply Z.mod_pos_bound; lia).
  assert (Hz : z + 719468 = 146097 * era + doe) by (apply Z.div_mod; lia).
  clearbody doe era.
  pose proof (year_of_era doe Hdoe) as Hyoe. cbv zeta in Hyoe.
  set (yoe := (doe - doe / 1460 + doe / 36524 - doe / 146096) / 365) in *.
  clearbody yoe.
  set (doy := doe - (365 * yoe + yoe / 4 - yoe / 100)) in *.
  assert (Hdoy : 0 <= doy <= 365) by (unfold doy; Z.div_mod_to_equations; lia).
  assert (Edoe : doe = 365 * yoe + yoe / 4 - yoe / 100 + doy) by (unfold doy; lia).
  clearbody doy.
  pose proof (month_of_year doy Hdoy) as Hmp. cbv zeta in Hmp.
  set (mp := (5 * doy + 2) / 153) in *.
  clearbody mp.
  exists era, yoe, mp, (doy - (153 * mp + 2) / 5 + 1).
  unfold eraDay.
  split; [lia|]. split; [lia|]. split; [lia|]. split; [lia|]. split; [lia|].
  split.
  - change ((153 * 0 + 2) / 5) with 0. lia.
  - destruct (Z.ltb_spec mp 10).
    + replace (mp + 3 <=? 2) with false by (symmetry; apply Z.leb_gt; lia).
      reflexivity.
    + replace (mp - 9 <=? 2) with true by (symmetry; apply Z.leb_le; lia).
      reflexivity.
Qed.

Ltac shifted era yoe mp :=
  rewrite (days_of_shifted era yoe mp);
  [ | lia | repeat match goal with
                   | |- context [if ?a <=? ?b then _ else _] =>
                       destruct (Z.leb_spec a b)
                   end; Z.div_mod_to_equations; lia
    | Z.div_mod_to_equations; lia ].

Lemma civil_facts z y m d :
  civilFromDays z = (y, m, d) ->
  daysFromCivil y m d = z /\ 1 <= m <= 12 /\ 1 <= d
  /\ z < daysFromCivil (y + m / 12) (m mod 12 + 1) 1
  /\ daysFromCivil y 1 1 <= z < daysFromCivil (y + 1) 1 1.
Proof.
  destruct (civil_shape z) as (era & yoe & mp & d0 & Hyoe & Hmp & Hd & Hz & Hm & Hy & ->).
  intros [= <- <- <-].
  assert (H306 : (153 * 10 + 2) / 5 = 306) by reflexivity.
  assert (H0 : (153 * 0 + 2) / 5 = 0) by reflexivity.
  unfold eraDay in *.
  destruct (Z.ltb_spec mp 10) as [L|G].
  - (* March to December *)
    split; [shifted era yoe mp; unfold eraDay; lia|].
    split; [lia|]. split; [lia|].
    split; [|split].
    + shifted era yoe (mp + 1). unfold eraDay. Z.div_mod_to_equations. lia.
    + destruct (Z.eq_dec yoe 0) as [->|N].
      * shifted (era - 1) 399 10. unfold eraDay.
        Z.div_mod_to_equations. lia.
      * shifted era (yoe - 1) 10. unfold eraDay.
        Z.div_mod_to_equations. lia.
    + shifted era yoe 10. unfold eraDay. Z.div_mod_to_equations. lia.
  - (* January and February *)
    split; [shifted era yoe mp; unfold eraDay; lia|].
    split; [lia|]. split; [lia|].
    split; [|split].
    + destruct (Z.eq_dec mp 10) as [->|N].
      * shifted era yoe 11. unfold eraDay. Z.div_mod_to_equations. lia.
      * destruct (Z.eq_dec yoe 399) as [->|N'].
        -- shifted (era + 1) 0 0. unfold eraDay.
           replace mp with 11 in * by lia. Z.div_mod_to_equations. lia.
        -- shifted era (yoe + 1) 0. unfold eraDay.
           replace mp with 11 in * by lia. Z.div_mod_to_equations. lia.
    + shifted era yoe 10. unfold eraDay. Z.div_mod_to_equations. lia.
    + destruct (Z.eq_dec yoe 399) as [->|N'].
      * shifted (era + 1) 0 10. unfold eraDay. Z.div_mod_to_equations. lia.
      * shifted era (yoe + 1) 10. unfold eraDay. Z.div_mod_to_equations. lia.
Qed.

Lemma days_day y m d k : daysFromCivil y m (d + k) = daysFromCivil y m d + k.
Proof. unfold daysFromCivil. cbv zeta. ring. Qed.

Lemma civil_roundtrip z :
  let '(y, m, d) := civilFromDays z in daysFromCivil y m d = z.
Proof.
  destruct (civilFromDays z) as [[y m] d] eqn:E.
  apply (civil_facts _ _ _ _ E).
Qed.

Lemma dayOf_mul_add a r : 0 <= r < msPerDay -> dayOf (a * msPerDay + r) = a.
Proof.
  intros Hr. unfold dayOf.
  rewrite Z.add_comm, Z.div_add by (unfold msPerDay; lia).
  rewrite Z.div_small by assumption. reflexivity.
Qed.

Lemma dayOf_mul a : dayOf (a * msPerDay) = a.
Proof. unfold dayOf. apply Z.div_mul. unfold msPerDay. lia. Qed.

Lemma timeOfDay_bound t : 0 <= timeOfDay t < msPerDay.
Proof. unfold timeOfDay. apply Z.mod_pos_bound. reflexivity. Qed.

Lemma day_decompose t : t = dayOf t * msPerDay + timeOfDay t.
Proof.
  unfold dayOf, timeOfDay. pose proof (Z.div_mod t msPerDay).
  unfold msPerDay in *. lia.
Qed.

(** The civil fields of an instant. *)
Lemma fields_of t :
  civilFromDays (dayOf t) = (getFullYear t, getMonth t + 1, getDate t).
Proof.
  unfold getFullYear, getMonth, getDate.
  destruct (civilFromDays (dayOf t)) as [[y m] d]. simpl. f_equal. f_equal. lia.
Qed.

Lemma getMonth_range t : 0 <= getMonth t <= 11.
Proof.
  pose proof (civil_facts _ _ _ _ (fields_of t)). lia.
Qed.

Lemma atMidnight_month y mi k : 0 <= mi <= 11 ->
  atMidnight y mi k = (daysFromCivil y (mi + 1) 1 + (k - 1)) * msPerDay.
Proof.
  intros H. unfold atMidnight.
  rewrite Z.div_small, Z.mod_small by lia.
  rewrite Z.add_0_r. reflexivity.
Qed.

(** [setDate] with the day of the month moved back by [n]: [n] days
    earlier, at the same time of day. *)
Lemma setDate_back t n :
  setDate t (getDate t - n) = t - n * msPerDay.
Proof.
  unfold setDate.
  rewrite atMidnight_month by apply getMonth_range.
  destruct (civil_facts _ _ _ _ (fields_of t)) as (R & _).
  replace (getDate t) with (1 + (getDate t - 1)) in R by ring.
  rewrite days_day in R.
  pose proof (day_decompose t).
  unfold msPerDay in *. lia.
Qed.

Lemma dayOf_back t n : dayOf (t - n * msPerDay) = dayOf t - n.
Proof.
  rewrite (day_decompose t) at 1.
  replace (dayOf t * msPerDay + timeOfDay t - n * msPerDay)
    with ((dayOf t - n) * msPerDay + timeOfDay t) by ring.
  apply dayOf_mul_add, timeOfDay_bound.
Qed.

Lemma getDay_back t k : getDay (t - (k * 7) * msPerDay) = getDay t.
Proof.
  unfold getDay. rewrite dayOf_back.
  replace (dayOf t - k * 7 + 4) with (dayOf t + 4 + (- k) * 7) by ring.
  apply Z.mod_add. lia.
Qed.

(** *** The windows contain the instant they are made from *)

Lemma day_window t : startOfDay t <= t <= endOfDay t.
Proof.
  unfold endOfDay, startOfDay.
  pose proof (day_decompose t). pose proof (timeOfDay_bound t).
  unfold msPerDay in *. lia.
Qed.

Lemma week_window t : startOfWeek t <= t <= endOfWeek t.
Proof.
  unfold startOfWeek, endOfWeek.
  pose proof (day_decompose t). pose proof (timeOfDay_bound t).
  assert (0 <= getDay t < 7) by (unfold getDay; apply Z.mod_pos_bound; lia).
  unfold msPerDay in *. lia.
Qed.

Lemma month_window t : startOfMonth t <= t <= endOfMonth t.
Proof.
  unfold startOfMonth, endOfMonth.
  rewrite atMidnight_month by apply getMonth_range.
  destruct (civil_facts _ _ _ _ (fields_of t)) as (R & Hm & Hd & Hn & _).
  replace (getDate t) with (1 + (getDate t - 1)) in R by ring.
  rewrite days_day in R.
  unfold atMidnight.
  pose proof (day_decompose t). pose proof (timeOfDay_bound t).
  unfold msPerDay in *. lia.
Qed.

Lemma year_window t : startOfYear t <= t <= endOfYear t.
Proof.
  unfold startOfYear, endOfYear, atMidnight.
  change (0 / 12) with 0. change (0 mod 12 + 1) with 1.
  rewrite !Z.add_0_r.
  destruct (civil_facts _ _ _ _ (fields_of t)) as (_ & _ & _ & _ & Hy).
  pose proof (day_decompose t). pose proof (timeOfDay_bound t).
  unfold msPerDay in *. lia.
Qed.

(** *** Months *)

(** First day of the month with absolute number [n] (twelve times the
    year plus the month index). *)
Definition monthStartDay (n : Z) : Z := daysFromCivil (n / 12) (n mod 12 + 1) 1.

Lemma atMidnight_monthStart y mi k :
  atMidnight y mi k = (monthStartDay (12 * y + mi) + (k - 1)) * msPerDay.
Proof.
  unfold atMidnight, monthStartDay.
  replace (12 * y + mi) with (mi + y * 12) by ring.
  rewrite Z.div_add, Z.mod_add by lia.
  replace (mi / 12 + y) with (y + mi / 12) by ring. reflexivity.
Qed.

(** Era and year of the era of the year [w] that starts in March. *)
Lemma era_split w : exists era yoe, 0 <= yoe <= 399 /\ w = yoe + era * 400.
Proof.
  exists (w / 400), (w mod 400).
  pose proof (Z.div_mod w 400). pose proof (Z.mod_pos_bound w 400). lia.
Qed.

Lemma monthStart_step n : monthStartDay n < monthStartDay (n + 1).
Proof.
  unfold monthStartDay.
  assert (Hn : n = 12 * (n / 12) + n mod 12) by (apply Z.div_mod; lia).
  assert (Hmi : 0 <= n mod 12 < 12) by (apply Z.mod_pos_bound; lia).
  set (Y := n / 12) in *. set (mi := n mod 12) in *. clearbody Y mi.
  destruct (Z.eq_dec mi 11) as [E11|N11].
  - (* December to January *)
    replace ((n + 1) / 12) with (Y + 1) by (Z.div_mod_to_equations; lia).
    replace ((n + 1) mod 12) with 0 by (Z.div_mod_to_equations; lia).
    destruct (era_split Y) as (era & yoe & Hyoe & HY).
    shifted era yoe 9. shifted era yoe 10.
    unfold eraDay. Z.div_mod_to_equations. lia.
  - replace ((n + 1) / 12) with Y by (Z.div_mod_to_equations; lia).
    replace ((n + 1) mod 12) with (mi + 1) by (Z.div_mod_to_equations; lia).
    destruct (Z.le_gt_cases 2 mi) as [G|L].
    + (* March to November *)
      destruct (era_split Y) as (era & yoe & Hyoe & HY).
      shifted era yoe (mi - 2). shifted era yoe (mi - 1).
      unfold eraDay. Z.div_mod_to_equations. lia.
    + destruct (era_split (Y - 1)) as (era & yoe & Hyoe & HY).
      destruct (Z.eq_dec mi 0) as [E0|N0].
      * (* January to February *)
        shifted era yoe 10. shifted era yoe 11.
        unfold eraDay. Z.div_mod_to_equations. lia.
      * (* February to March *)
        shifted era yoe 11.
        destruct (Z.eq_dec yoe 399) as [E|N].
        -- shifted (era + 1) 0 0. unfold eraDay. Z.div_mod_to_equations. lia.
        -- shifted era (yoe + 1) 0. unfold eraDay. Z.div_mod_to_equations. lia.
Qed.

Lemma monthStart_le a b : a <= b -> monthStartDay a <= monthStartDay b.
Proof.
  intros H. replace b with (a + Z.of_nat (Z.to_nat (b - a))) by lia.
  induction (Z.to_nat (b - a)) as [|n IH].
  - rewrite Z.add_0_r. lia.
  - pose proof (monthStart_step (a + Z.of_nat n)).
    replace (a + Z.of_nat (S n)) with (a + Z.of_nat n + 1) by lia. lia.
Qed.

Lemma month_unique a b z :
  monthStartDay a <= z < monthStartDay (a + 1) ->
  monthStartDay b <= z < monthStartDay (b + 1) -> a = b.
Proof.
  intros Ha Hb.
  destruct (Z.lt_trichotomy a b) as [L | [E | L]]; [|assumption|].
  - pose proof (monthStart_le (a + 1) b ltac:(lia)). lia.
  - pose proof (monthStart_le (b + 1) a ltac:(lia)). lia.
Qed.

Lemma monthNumber_spec t :
  monthStartDay (monthNumber t) <= dayOf t < monthStartDay (monthNumber t + 1).
Proof.
  unfold monthNumber, monthStartDay.
  destruct (civil_facts _ _ _ _ (fields_of t)) as (R & Hm & Hd & Hn & _).
  replace (getDate t) with (1 + (getDate t - 1)) in R by ring.
  rewrite days_day in R.
  replace (12 * getFullYear t + getMonth t) with (getMonth t + getFullYear t * 12) by ring.
  replace (getMonth t + getFullYear t * 12 + 1)
    with (getMonth t + 1 + getFullYear t * 12) by ring.
  rewrite !Z.div_add, !Z.mod_add by lia.
  rewrite (Z.div_small (getMonth t)), (Z.mod_small (getMonth t)) by lia.
  replace ((getMonth t + 1) / 12 + getFullYear t)
    with (getFullYear t + (getMonth t + 1) / 12) by ring.
  simpl. lia.
Qed.

Lemma monthNumber_addMonths t n : monthNumber (addMonths t n) = monthNumber t + n.
Proof.
  set (N := monthNumber t + n).
  apply (month_unique _ _ (dayOf (addMonths t n))); [apply monthNumber_spec|].
  unfold addMonths, daysInMonth.
  rewrite !atMidnight_monthStart.
  replace (12 * getFullYear t + (getMonth t + n)) with N by (unfold N, monthNumber; ring).
  replace (12 * getFullYear t + (getMonth t + n + 1)) with (N + 1)
    by (unfold N, monthNumber; ring).
  change (1 - 1) with 0. rewrite !Z.add_0_r, <- Z.mul_sub_distr_r.
  rewrite Z.div_mul by discriminate.
  rewrite dayOf_mul_add by apply timeOfDay_bound.
  pose proof (monthStart_step N).
  destruct (civil_facts _ _ _ _ (fields_of t)) as (_ & _ & Hd & _).
  lia.
Qed.

Lemma monthNumber_subMonths t n : monthNumber (subMonths t n) = monthNumber t - n.
Proof. unfold subMonths. rewrite monthNumber_addMonths. ring. Qed.

(** *** Lengths of the interval enumerations *)

Lemma stepsFrom_length t step n : length (stepsFrom t step n) = n.
Proof. revert t. induction n as [|n IH]; intros t; simpl; [|rewrite IH]; reflexivity. Qed.

Lemma monthsFrom_length mn n : length (monthsFrom mn n) = n.
Proof. revert mn. induction n as [|n IH]; intros mn; simpl; [|rewrite IH]; reflexivity. Qed.

Lemma eachDay_back_length t (n : nat) :
  length (eachDayOfInterval (mkInterval (setDate t (getDate t - Z.of_nat n)) t)) = S n.
Proof.
  unfold eachDayOfInterval. rewrite stepsFrom_length. simpl start. simpl end_.
  rewrite setDate_back, dayOf_back. lia.
Qed.

Lemma eachWeek_back_length t (n : nat) :
  length (eachWeekOfInterval
            (mkInterval (setDate t (getDate t - Z.of_nat n * 7)) t)) = S n.
Proof.
  unfold eachWeekOfInterval. rewrite stepsFrom_length. simpl start. simpl end_.
  rewrite setDate_back. unfold startOfWeek.
  rewrite !dayOf_mul, getDay_back, dayOf_back.
  replace (dayOf t - getDay t - (dayOf t - Z.of_nat n * 7 - getDay t))
    with (Z.of_nat n * 7) by ring.
  rewrite Z.div_mul by lia. lia.
Qed.

Lemma eachMonth_back_length t (n : nat) :
  length (eachMonthOfInterval (mkInterval (subMonths t (Z.of_nat n)) t)) = S n.
Proof.
  unfold eachMonthOfInterval. rewrite monthsFrom_length. simpl start. simpl end_.
  rewrite monthNumber_subMonths. lia.
Qed.

(** *** The calendar periods of a day *)

(** Two days of one week, from its Sunday to its Saturday; day 3, the
    fourth of January 1970, was a Sunday. *)
Definition sameWeek (a b : Z) : Prop :=
  exists sunday,
    (sunday - 3) mod 7 = 0
    /\ sunday <= a <= sunday + 6 /\ sunday <= b <= sunday + 6.

(** Two days of one month of one year, and of one year. *)
Definition sameMonth (a b : Z) : Prop :=
  fst (civilFromDays a) = fst (civilFromDays b).

Definition sameYear (a b : Z) : Prop :=
  fst (fst (civilFromDays a)) = fst (fst (civilFromDays b)).

Lemma day_window_iff n x :
  startOfDay n <= x <= endOfDay n <-> dayOf x = dayOf n.
Proof.
  unfold endOfDay, startOfDay.
  pose proof (day_decompose x). pose proof (timeOfDay_bound x).
  unfold msPerDay in *. lia.
Qed.

Lemma week_window_iff n x :
  startOfWeek n <= x <= endOfWeek n <-> sameWeek (dayOf x) (dayOf n).
Proof.
  unfold startOfWeek, endOfWeek, sameWeek, getDay.
  pose proof (day_decompose x) as Dx. pose proof (timeOfDay_bound x) as Bx.
  set (dx := dayOf x) in *. set (dn := dayOf n) in *. clearbody dx dn.
  set (r := timeOfDay x) in *. clearbody r.
  assert (Hm : 0 <= (dn + 4) mod 7 < 7) by (apply Z.mod_pos_bound; lia).
  split.
  - intros H. exists (dn - (dn + 4) mod 7).
    split; [Z.div_mod_to_equations; lia|].
    unfold msPerDay in *. lia.
  - intros (sunday & Hs & Ha & Hb).
    assert (E : (dn + 4) mod 7 = dn - sunday) by (Z.div_mod_to_equations; lia).
    rewrite E. unfold msPerDay in *. lia.
Qed.

Lemma monthNumber_fields a b :
  monthNumber a = monthNumber b
  <-> getFullYear a = getFullYear b /\ getMonth a = getMonth b.
Proof.
  unfold monthNumber.
  pose proof (getMonth_range a). pose proof (getMonth_range b). lia.
Qed.

Lemma sameMonth_fields a b :
  sameMonth (dayOf a) (dayOf b)
  <-> getFullYear a = getFullYear b /\ getMonth a = getMonth b.
Proof.
  unfold sameMonth. rewrite !fields_of. simpl. split.
  - intros [= -> E]. split; [reflexivity|lia].
  - intros [-> ->]. reflexivity.
Qed.

Lemma month_window_iff n x :
  startOfMonth n <= x <= endOfMonth n <-> sameMonth (dayOf x) (dayOf n).
Proof.
  rewrite sameMonth_fields, <- monthNumber_fields.
  unfold startOfMonth, endOfMonth. rewrite !atMidnight_monthStart.
  fold (monthNumber n).
  replace (12 * getFullYear n + (getMonth n + 1)) with (monthNumber n + 1)
    by (unfold monthNumber; ring).
  change (1 - 1) with 0. rewrite !Z.add_0_r.
  pose proof (monthNumber_spec x) as Sx.
  pose proof (day_decompose x) as Dx. pose proof (timeOfDay_bound x) as Bx.
  split.
  - intros H. apply (month_unique _ _ (dayOf x)); [exact Sx|].
    unfold msPerDay in *. lia.
  - intros E. rewrite <- E. unfold msPerDay in *. lia.
Qed.

Lemma sameYear_fields a b :
  sameYear (dayOf a) (dayOf b) <-> getFullYear a = getFullYear b.
Proof. unfold sameYear. rewrite !fields_of. simpl. reflexivity. Qed.

Lemma year_window_iff n x :
  startOfYear n <= x <= endOfYear n <-> sameYear (dayOf x) (dayOf n).
Proof.
  rewrite sameYear_fields.
  unfold startOfYear, endOfYear. rewrite !atMidnight_monthStart.
  change (1 - 1) with 0.
  pose proof (monthNumber_spec x) as Sx.
  pose proof (day_decompose x) as Dx. pose proof (timeOfDay_bound x) as Bx.
  pose proof (getMonth_range x) as Mx.
  set (y := getFullYear n) in *. clearbody y.
  unfold monthNumber in Sx.
  split.
  - intros H.
    destruct (Z.lt_trichotomy (getFullYear x) y) as [L | [E | L]]; [|assumption|].
    + pose proof (monthStart_le (12 * getFullYear x + getMonth x + 1) (12 * y + 0)
                                ltac:(lia)).
      unfold msPerDay in *. lia.
    + pose proof (monthStart_le (12 * (y + 1) + 0) (12 * getFullYear x + getMonth x)
                                ltac:(lia)).
      unfold msPerDay in *. lia.
  - intros E. rewrite E in Sx.
    pose proof (monthStart_le (12 * y + 0) (12 * y + getMonth x) ltac:(lia)).
    pose proof (monthStart_le (12 * y + getMonth x + 1) (12 * (y + 1) + 0) ltac:(lia)).
    unfold msPerDay in *. lia.
Qed.

(** *** Local time *)

Lemma local_setDate_back zone t n :
  LocalTime.setDate zone t (LocalTime.getDate zone t - n)
  = TimeZone.utcOf zone (TimeZone.localTime zone t - n * msPerDay).
Proof.
  unfold LocalTime.setDate, LocalTime.getDate. rewrite setDate_back. reflexivity.
Qed.

(** The day on which a host at a fixed offset sees the midnight that
    starts a day in UTC: that day east of Greenwich, the day before west
    of it. *)
Lemma day_seen_east offset day :
  0 <= offset < msPerDay -> dayOf (ofIso day + offset) = day.
Proof. intros H. unfold ofIso. apply dayOf_mul_add. exact H. Qed.

Lemma day_seen_west offset day :
  - msPerDay <= offset < 0 -> dayOf (ofIso day + offset) = day - 1.
Proof.
  intros H. unfold ofIso.
  replace (day * msPerDay + offset) with ((day - 1) * msPerDay + (offset + msPerDay))
    by ring.
  apply dayOf_mul_add. lia.
Qed.

End CalendarFacts.

(** ** The natural-language parser *)

Module ParserFacts.
Import JsString Regex JsNumber JsDate Types LlmParser CalendarFacts.

(** *** Amount extraction *)

Lemma existsb_map_eq {A B : Type} (f : A -> B) (p : B -> bool) (l : list A) :
  existsb p (map f l) = existsb (fun x => p (f x)) l.
Proof. induction l as [|x l IH]; simpl; [|rewrite IH]; reflexivity. Qed.

Lemma firstSome_some {A B : Type} (f : A -> option B) (l : list A) (y : B) :
  firstSome f l = Some y -> exists x, In x l /\ f x = Some y.
Proof.
  induction l as [|x l IH]; simpl; [discriminate|].
  destruct (f x) as [y'|] eqn:E.
  - intros [= <-]. exists x. auto.
  - intros H. destruct (IH H) as (x' & Hin & Hx'). exists x'. auto.
Qed.

Lemma firstSome_none {A B : Type} (f : A -> option B) (l : list A) :
  firstSome f l = None <-> forall x, In x l -> f x = None.
Proof.
  induction l as [|x l IH]; simpl.
  - split; [intros _ x []|reflexivity].
  - destruct (f x) as [y|] eqn:E.
    + split; [discriminate|]. intros H. rewrite <- E. apply H. auto.
    + rewrite IH. split.
      * intros H x' [<-|Hin]; auto.
      * intros H x' Hin. apply H. auto.
Qed.

Lemma tryPattern_accepted input p n :
  tryPattern input p = Some n -> accepted n = true.
Proof.
  unfold tryPattern.
  destruct (exec p input) as [m|]; [|discriminate].
  destruct (capture 1 (groups m)) as [g|]; [|discriminate].
  destruct (accepted _) eqn:E; [|discriminate].
  intros [= <-]. exact E.
Qed.

Lemma tryAnyNumber_accepted input n :
  tryAnyNumber input = Some n -> accepted n = true.
Proof.
  unfold tryAnyNumber.
  destruct (exec anyNumberPattern input) as [m|]; [|discriminate].
  destruct (capture 1 (groups m)) as [g|]; [|discriminate].
  destruct (accepted _) eqn:E; [|discriminate].
  intros [= <-]. exact E.
Qed.

Lemma extractAmount_accepted input n :
  extractAmount input = Some n -> accepted n = true.
Proof.
  unfold extractAmount.
  destruct (firstSome (tryPattern input) patterns) as [num|] eqn:E.
  - intros [= <-]. apply firstSome_some in E as (p & _ & Hp).
    exact (tryPattern_accepted _ _ _ Hp).
  - apply tryAnyNumber_accepted.
Qed.

Lemma accepted_gt0 n : accepted n = gt0 n.
Proof. destruct n; reflexivity. Qed.

(** *** Type detection *)

(** Every signal of the type stage: the keywords and the weaker words. *)
Definition typeSignals : list string :=
  EXPENSE_KEYWORDS ++ INCOME_KEYWORDS ++ ["from"; "on"; "for"].

Lemma determineTransactionType_none input :
  determineTransactionType input = None <->
  existsb (includes input) typeSignals = false.
Proof.
  unfold determineTransactionType, typeSignals.
  rewrite !existsb_app.
  destruct (existsb (includes input) EXPENSE_KEYWORDS),
           (existsb (includes input) INCOME_KEYWORDS); simpl;
    try (split; discriminate).
  destruct (includes input "from"); simpl; [split; discriminate|].
  destruct (includes input "on"); simpl; [split; discriminate|].
  destruct (includes input "for"); simpl; split; congruence.
Qed.

(** *** The value each amount pattern reads *)

(** The number a pattern reads from its first match, before it is tested:
    [commas] tells whether commas are removed first. *)
Definition readAmount (commas : bool) (pattern : regex) (input : string)
  : option number :=
  match exec pattern input with
  | Some m =>
      match capture 1 (groups m) with
      | Some g => Some (parseFloat (if commas then removeChars (Ascii.eqb ",") g else g))
      | None => None
      end
  | None => None
  end.

(** The numbers read by the five patterns and by the bare-number fallback. *)
Definition candidates (input : string) : list (option number) :=
  map (fun p => readAmount true p input) patterns
  ++ [readAmount false anyNumberPattern input].

Definition positive (o : option number) : bool :=
  match o with Some n => gt0 n | None => false end.

Definition positiveFinite (o : option number) : bool :=
  match o with Some n => isFinite n && gt0 n | None => false end.

Lemma tryPattern_read input p :
  tryPattern input p = None <-> positive (readAmount true p input) = false.
Proof.
  unfold tryPattern, readAmount.
  destruct (exec p input) as [m|]; [|simpl; tauto].
  destruct (capture 1 (groups m)) as [g|]; [|simpl; tauto].
  simpl. rewrite accepted_gt0. destruct (gt0 _); split; congruence.
Qed.

Lemma tryAnyNumber_read input :
  tryAnyNumber input = None <-> positive (readAmount false anyNumberPattern input) = false.
Proof.
  unfold tryAnyNumber, readAmount.
  destruct (exec anyNumberPattern input) as [m|]; [|simpl; tauto].
  destruct (capture 1 (groups m)) as [g|]; [|simpl; tauto].
  simpl. rewrite accepted_gt0. destruct (gt0 _); split; congruence.
Qed.

Lemma extractAmount_none input :
  extractAmount input = None <-> existsb positive (candidates input) = false.
Proof.
  unfold extractAmount, candidates.
  rewrite existsb_app, orb_false_iff. simpl existsb at 2. rewrite orb_false_r.
  rewrite <- tryAnyNumber_read.
  destruct (firstSome (tryPattern input) patterns) as [num|] eqn:E.
  - split; [discriminate|]. intros [H _]. exfalso.
    apply firstSome_some in E as (p & Hin & Hp).
    assert (Hp' : tryPattern input p <> None) by congruence.
    apply Hp'. apply tryPattern_read.
    rewrite existsb_map_eq in H.
    destruct (positive (readAmount true p input)) eqn:P; [|reflexivity].
    assert (existsb (fun p => positive (readAmount true p input)) patterns = true)
      by (apply existsb_exists; eauto).
    congruence.
  - rewrite firstSome_none in E.
    split; [intros H; split; [|exact H]|intros [_ H]; exact H].
    rewrite existsb_map_eq.
    destruct (existsb _ patterns) eqn:X; [|reflexivity].
    apply existsb_exists in X as (p & Hin & Hp).
    apply E in Hin. apply tryPattern_read in Hin. congruence.
Qed.

(** *** Category and date fallbacks *)

Definition noCategoryKeyword (s : string) : bool :=
  forallb (fun e : string * list string => negb (existsb (includes s) (snd e)))
          CATEGORY_KEYWORDS.

Lemma firstCategory_none s table :
  forallb (fun e : string * list string => negb (existsb (includes s) (snd e))) table = true ->
  firstCategory s table = None.
Proof.
  induction table as [|[cat kws] table IH]; simpl; [reflexivity|].
  intros H. apply andb_true_iff in H as [H1 H2].
  apply negb_true_iff in H1. rewrite H1. auto.
Qed.

Lemma extractCategory_default s :
  noCategoryKeyword s = true -> extractCategory s = "Other Expenses".
Proof.
  intros H. unfold extractCategory.
  rewrite (firstCategory_none _ _ H). reflexivity.
Qed.

Definition noDateExpression (s : string) : bool :=
  negb (includes s "today") && negb (includes s "yesterday")
  && negb (includes s "last week")
  && negb (test monthPattern s) && negb (test datePattern s).

Lemma extractDate_default zone now s :
  noDateExpression s = true -> extractDate zone now s = toIsoDate now.
Proof.
  unfold noDateExpression, extractDate, extractNumericDate, test.
  intros H. repeat (apply andb_true_iff in H as [H ?]).
  repeat match goal with h : negb _ = true |- _ => apply negb_true_iff in h end.
  rewrite H, H3, H2.
  destruct (exec monthPattern s); [discriminate|].
  destruct (exec datePattern s); [discriminate|]. reflexivity.
Qed.

(** *** The pipeline rejects exactly on the type and the amount *)

Definition typeFails (s : string) : bool := negb (existsb (includes s) typeSignals).
Definition amountFails (s : string) : bool := negb (existsb positive (candidates s)).
Definition amountFailsFinite (s : string) : bool :=
  negb (existsb positiveFinite (candidates s)).

Lemma parse_none zone now input :
  parseNaturalLanguage zone now input = None <->
  typeFails (normalize input) || amountFails (normalize input) = true.
Proof.
  unfold parseNaturalLanguage, typeFails, amountFails.
  rewrite orb_true_iff, !negb_true_iff.
  rewrite <- determineTransactionType_none, <- extractAmount_none.
  destruct (determineTransactionType (normalize input)) as [ty|].
  - destruct (extractAmount (normalize input)) as [a|].
    + split; [discriminate|]. intros [H|H]; discriminate.
    + split; auto.
  - split; auto.
Qed.

Lemma parse_some zone now input r :
  parseNaturalLanguage zone now input = Some r ->
  determineTransactionType (normalize input) = Some (type r)
  /\ extractAmount (normalize input) = Some (amount r)
  /\ category r = extractCategory (normalize input)
  /\ date r = extractDate zone now (normalize input)
  /\ confidence r = calculateConfidence now (Some (amount r)) (category r) (date r).
Proof.
  unfold parseNaturalLanguage.
  destruct (determineTransactionType (normalize input)) as [ty|]; [|discriminate].
  destruct (extractAmount (normalize input)) as [a|]; [|discriminate].
  intros [= <-]. simpl. auto.
Qed.

(** A numeral of 310 digits, beyond the range of doubles. *)
Definition hugeInput : string :=
  "spent $1000000000000000000000000000000000000000000000000000000000000000000000000000000000000000000000000000000000000000000000000000000000000000000000000000000000000000000000000000000000000000000000000000000000000000000000000000000000000000000000000000000000000000000000000000000000000000000000000000000000000000000000".

(** C7, as stated, fails: no pattern reads a positive finite value from
    [hugeInput], and yet the pipeline returns a result, with the amount
    [Infinity]. *)
Lemma C7_counterexample_huge_amount :
  typeFails (normalize hugeInput) || amountFailsFinite (normalize hugeInput) = true
  /\ exists r, parseNaturalLanguage TimeZone.utc 0 hugeInput = Some r
               /\ amount r = Infinity.
Proof.
  split; [vm_compute; reflexivity|].
  eexists. split; [vm_compute; reflexivity|reflexivity].
Qed.

(** C7, amended: the pipeline returns no result exactly when the type stage
    finds no signal or no pattern and no bare number reads a positive
    value ([Infinity] included); a result carries the category and the
    date of their stages, which fall back to "Other Expenses" and to the
    current date. *)
Theorem C7_rejects_only_on_type_or_amount
        (zone : TimeZone.t) (now : Date) (input : string) :
  (parseNaturalLanguage zone now input = None <->
   typeFails (normalize input) || amountFails (normalize input) = true)
  /\ (forall r, parseNaturalLanguage zone now input = Some r ->
        category r = extractCategory (normalize input)
        /\ date r = extractDate zone now (normalize input))
  /\ (noCategoryKeyword (normalize input) = true ->
      extractCategory (normalize input) = "Other Expenses")
  /\ (noDateExpression (normalize input) = true ->
      extractDate zone now (normalize input) = toIsoDate now).
Proof.
  split; [apply parse_none|].
  split; [intros r H; apply parse_some in H; tauto|].
  split; [apply extractCategory_default|apply extractDate_default].
Qed.

(** *** Confidence *)

Lemma confidence_values now amount cat date :
  someGt0 amount = true ->
  let c := calculateConfidence now amount cat date in
  (PrimFloat.leb 0.7 c = true /\ PrimFloat.leb c 1 = true).
Proof.
  intros H. unfold calculateConfidence. rewrite H.
  destruct (negb (cat =? "Other Expenses")%string), (negb (date =? formatDateISO now)%Z);
    vm_compute; split; reflexivity.
Qed.

(** C10: a result of the parser has a positive amount and a confidence
    between 0.7 and 1.0. *)
Theorem C10_confidence_at_least_07
        (zone : TimeZone.t) (now : Date) (input : string) (r : ParsedTransaction) :
  parseNaturalLanguage zone now input = Some r ->
  gt0 (amount r) = true
  /\ PrimFloat.leb 0.7 (confidence r) = true
  /\ PrimFloat.leb (confidence r) 1 = true.
Proof.
  intros H. apply parse_some in H as (_ & Ha & _ & _ & Hc).
  apply extractAmount_accepted in Ha. rewrite accepted_gt0 in Ha.
  split; [exact Ha|]. rewrite Hc.
  apply confidence_values. exact Ha.
Qed.

Lemma C10_witness_coffee :
  exists r, parseNaturalLanguage TimeZone.utc 0 "coffee 5 bucks" = Some r
            /\ gt0 (amount r) = true
            /\ PrimFloat.leb 0.7 (confidence r) = true
            /\ PrimFloat.leb (confidence r) 1 = true.
Proof.
  eexists. split; [vm_compute; reflexivity|].
  apply (C10_confidence_at_least_07 TimeZone.utc 0 "coffee 5 bucks").
  vm_compute. reflexivity.
Defined.

(** *** The grocery example *)









End ParserFacts.

(** ** The budget engine *)

Module BudgetFacts.
Import JsString JsNumber JsDate DateFns Types Storage JsArray BudgetEngine.
Import CalendarFacts.
Local Open Scope Q_scope.

Lemma Qltb_lt (a b : Q) : Qltb a b = true <-> a < b.
Proof.
  unfold Qltb. rewrite negb_true_iff. split.
  - intros H. apply Qnot_le_lt. intros L. apply Qle_bool_iff in L. congruence.
  - intros H. destruct (Qle_bool b a) eqn:E; [|reflexivity].
    apply Qle_bool_iff in E. exfalso. exact (Qlt_not_le _ _ H E).
Qed.

Lemma Qltb_ge (a b : Q) : Qltb a b = false <-> b <= a.
Proof.
  unfold Qltb. rewrite negb_false_iff. apply Qle_bool_iff.
Qed.

Lemma Qle_bool_lt (a b : Q) : Qle_bool a b = false <-> b < a.
Proof.
  split.
  - intros H. apply Qnot_le_lt. intros L. apply Qle_bool_iff in L. congruence.
  - intros H. destruct (Qle_bool a b) eqn:E; [|reflexivity].
    apply Qle_bool_iff in E. exfalso. exact (Qlt_not_le _ _ H E).
Qed.

(** C1: the status record of every budget: the percentage with its guard,
    the three levels, and the remaining amount, which is never negative. *)
Theorem C1_status_contract
        (zone : TimeZone.t) (now : Date) (d : ClawhubData.t) (b : Budget.t) :
  let st := calculateBudgetStatus zone now d b in
  let spent := BudgetStatus.spent st in
  let percentageUsed := BudgetStatus.percentageUsed st in
  (0 < Budget.limit b -> percentageUsed = spent / Budget.limit b * 100)
  /\ (Budget.limit b <= 0 -> percentageUsed = 0)
  /\ (BudgetStatus.status st = exceeded <-> 100 <= percentageUsed)
  /\ (BudgetStatus.status st = warning <->
      Budget.alertThreshold b * 100 <= percentageUsed /\ percentageUsed < 100)
  /\ (BudgetStatus.status st = under <->
      percentageUsed < 100 /\ percentageUsed < Budget.alertThreshold b * 100)
  /\ BudgetStatus.remaining st = Qmax 0 (Budget.limit b - spent)
  /\ 0 <= BudgetStatus.remaining st.
Proof.
  cbv zeta. unfold calculateBudgetStatus. cbv zeta. simpl.
  set (spent := fold_left _ _ 0).
  set (pct := if Qltb 0 (Budget.limit b) then _ else _).
  split; [|split].
  - intros H. unfold pct. apply Qltb_lt in H. rewrite H. reflexivity.
  - intros H. unfold pct. apply Qltb_ge in H. rewrite H. reflexivity.
  - destruct (Qle_bool 100 pct) eqn:E100.
    + apply Qle_bool_iff in E100.
      repeat split; try discriminate; try (intros; exact E100); try reflexivity.
      * intros [_ H]. exfalso. exact (Qlt_not_le _ _ H E100).
      * intros [H _]. exfalso. exact (Qlt_not_le _ _ H E100).
      * apply Q.le_max_l.
    + apply Qle_bool_lt in E100.
      destruct (Qle_bool (Budget.alertThreshold b * 100) pct) eqn:Ethr.
      * apply Qle_bool_iff in Ethr.
        repeat split; try discriminate; try assumption; try reflexivity.
        -- intros H. exfalso. exact (Qlt_not_le _ _ E100 H).
        -- intros [_ H]. exfalso. exact (Qlt_not_le _ _ H Ethr).
        -- apply Q.le_max_l.
      * apply Qle_bool_lt in Ethr.
        repeat split; try discriminate; try assumption; try reflexivity.
        -- intros H. exfalso. exact (Qlt_not_le _ _ E100 H).
        -- intros [H _]. exfalso. exact (Qlt_not_le _ _ Ethr H).
        -- apply Q.le_max_l.
Qed.

(** *** The spent total *)

(** Sum of the amounts of the transactions that satisfy [keep]. *)
Fixpoint totalWhere (keep : Transaction.t -> bool) (l : list Transaction.t) : Q :=
  match l with
  | [] => 0
  | t :: l' => (if keep t then Transaction.amount t else 0) + totalWhere keep l'
  end.

Lemma fold_sum_shift (l : list Transaction.t) (a : Q) :
  fold_left (fun sum t => sum + Transaction.amount t) l a
  == a + fold_left (fun sum t => sum + Transaction.amount t) l 0.
Proof.
  revert a. induction l as [|t l IH]; intros a; simpl.
  - ring.
  - rewrite IH, (IH (0 + Transaction.amount t)). ring.
Qed.

Lemma fold_filter_total keep (l : list Transaction.t) :
  fold_left (fun sum t => sum + Transaction.amount t) (filter keep l) 0
  == totalWhere keep l.
Proof.
  induction l as [|t l IH]; simpl; [reflexivity|].
  destruct (keep t); simpl.
  - rewrite fold_sum_shift, IH. ring.
  - rewrite IH. ring.
Qed.

(** *** Letter case *)

(** The same character, or the same letter in its two cases: the capitals
    have the codes 65 to 90 and the small letters stand 32 further. *)
Definition sameLetter (a b : ascii) : Prop :=
  (N_of_ascii a = N_of_ascii b
   \/ (65 <= N_of_ascii a <= 90 /\ N_of_ascii b = N_of_ascii a + 32)
   \/ (65 <= N_of_ascii b <= 90 /\ N_of_ascii a = N_of_ascii b + 32))%N.

(** Texts that agree character by character up to the case of the
    letters. *)
Inductive sameLetters : string -> string -> Prop :=
| sameLetters_empty : sameLetters EmptyString EmptyString
| sameLetters_more a b s s' :
    sameLetter a b -> sameLetters s s' -> sameLetters (String a s) (String b s').

Lemma toLowerChar_code c :
  N_of_ascii (toLowerChar c)
  = (if (65 <=? N_of_ascii c) && (N_of_ascii c <=? 90)
     then N_of_ascii c + 32 else N_of_ascii c)%N.
Proof.
  unfold toLowerChar, isUpper, inRange, code.
  destruct ((65 <=? N_of_ascii c)%N && (N_of_ascii c <=? 90)%N) eqn:E; [|reflexivity].
  apply N_ascii_embedding. apply andb_true_iff in E as [_ E].
  apply N.leb_le in E. lia.
Qed.

Lemma N_of_ascii_inj a b : N_of_ascii a = N_of_ascii b -> a = b.
Proof.
  intros H. rewrite <- (ascii_N_embedding a), <- (ascii_N_embedding b), H.
  reflexivity.
Qed.

Lemma toLowerChar_same a b : toLowerChar a = toLowerChar b <-> sameLetter a b.
Proof.
  unfold sameLetter. split.
  - intros H. apply (f_equal N_of_ascii) in H. rewrite !toLowerChar_code in H.
    destruct (N.leb_spec 65 (N_of_ascii a)), (N.leb_spec (N_of_ascii a) 90),
             (N.leb_spec 65 (N_of_ascii b)), (N.leb_spec (N_of_ascii b) 90);
      simpl in H; lia.
  - intros H. apply N_of_ascii_inj. rewrite !toLowerChar_code.
    destruct (N.leb_spec 65 (N_of_ascii a)), (N.leb_spec (N_of_ascii a) 90),
             (N.leb_spec 65 (N_of_ascii b)), (N.leb_spec (N_of_ascii b) 90);
      simpl; lia.
Qed.

Lemma toLowerCase_same s s' : toLowerCase s = toLowerCase s' <-> sameLetters s s'.
Proof.
  revert s'. induction s as [|a s IH]; intros [|b s']; simpl.
  - split; [constructor|reflexivity].
  - split; [discriminate|inversion 1].
  - split; [discriminate|inversion 1].
  - split.
    + intros [= Hc Hs]. constructor; [apply toLowerChar_same|apply IH]; assumption.
    + inversion 1; subst. f_equal; [apply toLowerChar_same|apply IH]; assumption.
Qed.

(** *** The window *)

(** Two days of one calendar day, week, month or year. *)
Definition samePeriod (p : BudgetPeriod) (a b : Z) : Prop :=
  match p with
  | daily => a = b
  | weekly => sameWeek a b
  | monthly => sameMonth a b
  | yearly => sameYear a b
  end.

(** On a host that keeps one offset, the instants of the window are those
    of the local calendar period of the current instant. *)
Lemma window_fixed offset now p x :
  (start (getPeriodRange (TimeZone.fixed offset) now p) <= x
   <= end_ (getPeriodRange (TimeZone.fixed offset) now p))%Z
  <-> samePeriod p (dayOf (x + offset)%Z) (dayOf (now + offset)%Z).
Proof.
  destruct p; cbn [getPeriodRange start end_ samePeriod];
    unfold LocalTime.startOfDay, LocalTime.endOfDay, LocalTime.startOfWeek,
      LocalTime.endOfWeek, LocalTime.startOfMonth, LocalTime.endOfMonth,
      LocalTime.startOfYear, LocalTime.endOfYear,
      LocalTime.onLocal, TimeZone.utcOf, TimeZone.localTime, TimeZone.fixed;
    cbn [TimeZone.offsetAt TimeZone.offsetOfLocal].
  - rewrite <- day_window_iff. split; intros; lia.
  - rewrite <- week_window_iff. split; intros; lia.
  - rewrite <- month_window_iff. split; intros; lia.
  - rewrite <- year_window_iff. split; intros; lia.
Qed.

Lemma counts_fixed offset now b t :
  counts b (getPeriodRange (TimeZone.fixed offset) now (Budget.period b)) t = true
  <-> Transaction.type t = expense
      /\ sameLetters (Transaction.category t) (Budget.category b)
      /\ samePeriod (Budget.period b)
                    (dayOf (ofIso (Transaction.date t) + offset)%Z) (dayOf (now + offset)%Z).
Proof.
  unfold counts, isWithinInterval.
  rewrite !andb_true_iff, String.eqb_eq, Z.leb_le, Z.leb_le.
  rewrite toLowerCase_same, <- window_fixed.
  destruct (Transaction.type t); simpl; intuition congruence.
Qed.

(** *** The scenario *)

(** Noon of 2 November 2026, UTC: seven in the morning in New York. *)
Definition novemberNoon : Date := 1793620800000%Z.

Definition food (amount : Q) (day : IsoDate) : Transaction.t :=
  Transaction.mk "tx" expense amount "Food & Dining" "food" day [] false None None 0%Z 0%Z.

Definition foodBudget : Budget.t :=
  Budget.mk "budget" "Food" "Food & Dining" 500 0 monthly (8 # 10) 0%Z None true 0%Z 0%Z.

(** The first and the last day of November 2026. *)
Definition novemberFirst : IsoDate := 20758%Z.
Definition novemberLast : IsoDate := 20787%Z.

Definition novemberLedger : ClawhubData.t :=
  ClawhubData.mk [food 200 novemberFirst; food 250 novemberLast] [] [].

(** C2, evaluated where the code departs from it.  On every host the spent
    total is the sum of the amounts of the transactions that the filter
    keeps.  On a host that keeps one offset at or east of Greenwich the
    filter keeps exactly the expenses of the budget's category (letter
    case ignored) whose date lies in the calendar day, week, month or year
    of the current local day, and the scenario of 200 and 250 in the
    current month against a limit of 500 gives 450, 90 percent and a
    warning.  West of Greenwich the filter keeps the expenses whose date is
    the day after a day of that period: in New York, on 2 November 2026,
    the expense of 200 dated 1 November is left out, and the scenario on
    the first and the last day of the month gives 250, 50 percent and no
    warning. *)
Theorem C2_spent_is_sum_in_window :
  (forall (zone : TimeZone.t) (now : Date) (d : ClawhubData.t) (b : Budget.t),
      BudgetStatus.spent (calculateBudgetStatus zone now d b)
      == totalWhere (counts b (getPeriodRange zone now (Budget.period b)))
                    (ClawhubData.transactions d))
  /\ (forall (offset : Z) (now : Date) (b : Budget.t) (t : Transaction.t),
        (0 <= offset < msPerDay)%Z ->
        (counts b (getPeriodRange (TimeZone.fixed offset) now (Budget.period b)) t = true
         <-> Transaction.type t = expense
             /\ sameLetters (Transaction.category t) (Budget.category b)
             /\ samePeriod (Budget.period b) (Transaction.date t)
                           (dayOf (now + offset)%Z)))
  /\ (forall (offset : Z) (now : Date) (b : Budget.t) (t : Transaction.t),
        (- msPerDay <= offset < 0)%Z ->
        (counts b (getPeriodRange (TimeZone.fixed offset) now (Budget.period b)) t = true
         <-> Transaction.type t = expense
             /\ sameLetters (Transaction.category t) (Budget.category b)
             /\ samePeriod (Budget.period b) (Transaction.date t - 1)%Z
                           (dayOf (now + offset)%Z)))
  /\ (forall (offset : Z) (now : Date) (t1 t2 : Transaction.t) (b : Budget.t) bs gs,
        (0 <= offset < msPerDay)%Z ->
        Transaction.type t1 = expense -> Transaction.type t2 = expense ->
        Transaction.amount t1 = 200 -> Transaction.amount t2 = 250 ->
        Transaction.category t1 = "Food & Dining" ->
        Transaction.category t2 = "Food & Dining" ->
        sameMonth (Transaction.date t1) (dayOf (now + offset)%Z) ->
        sameMonth (Transaction.date t2) (dayOf (now + offset)%Z) ->
        Budget.category b = "Food & Dining" -> Budget.limit b = 500 ->
        Budget.period b = monthly -> Budget.alertThreshold b = 8 # 10 ->
        let st := calculateBudgetStatus (TimeZone.fixed offset) now
                                        (ClawhubData.mk [t1; t2] bs gs) b in
        BudgetStatus.spent st == 450
        /\ BudgetStatus.percentageUsed st == 90
        /\ BudgetStatus.status st = warning)
  /\ (let st := calculateBudgetStatus TimeZone.utc novemberNoon novemberLedger
                                      foodBudget in
      BudgetStatus.spent st == 450
      /\ BudgetStatus.percentageUsed st == 90
      /\ BudgetStatus.status st = warning)
  /\ (let today := dayOf (TimeZone.localTime TimeZone.newYork novemberNoon) in
      let range := getPeriodRange TimeZone.newYork novemberNoon monthly in
      let st := calculateBudgetStatus TimeZone.newYork novemberNoon novemberLedger
                                      foodBudget in
      sameMonth novemberFirst today
      /\ sameMonth novemberLast today
      /\ counts foodBudget range (food 200 novemberFirst) = false
      /\ counts foodBudget range (food 250 novemberLast) = true
      /\ BudgetStatus.spent st == 250
      /\ BudgetStatus.percentageUsed st == 50
      /\ BudgetStatus.status st = under).
Proof.
  split; [|split; [|split; [|split; [|split]]]].
  - intros zone now d b.
    unfold calculateBudgetStatus. cbv zeta. simpl BudgetStatus.spent.
    apply fold_filter_total.
  - intros offset now b t H.
    rewrite counts_fixed, (day_seen_east offset _ H). reflexivity.
  - intros offset now b t H.
    rewrite counts_fixed, (day_seen_west offset _ H). reflexivity.
  - intros offset now t1 t2 b bs gs H Ty1 Ty2 A1 A2 C1 C2 W1 W2 Cb Lb Pb Tb.
    assert (K1 : counts b (getPeriodRange (TimeZone.fixed offset) now monthly) t1 = true).
    { rewrite <- Pb. apply counts_fixed.
      rewrite (day_seen_east offset _ H), Pb, C1, Cb.
      split; [assumption|]. split; [apply toLowerCase_same; reflexivity|assumption]. }
    assert (K2 : counts b (getPeriodRange (TimeZone.fixed offset) now monthly) t2 = true).
    { rewrite <- Pb. apply counts_fixed.
      rewrite (day_seen_east offset _ H), Pb, C2, Cb.
      split; [assumption|]. split; [apply toLowerCase_same; reflexivity|assumption]. }
    cbv zeta. unfold calculateBudgetStatus. cbv zeta.
    unfold getTransactions. simpl ClawhubData.transactions.
    rewrite Pb. unfold filter. rewrite K1, K2. unfold fold_left.
    rewrite A1, A2, Lb, Tb.
    split; [reflexivity|]. split; reflexivity.
  - cbv zeta. split; [|split]; vm_compute; reflexivity.
  - cbv zeta. split; [|split; [|split; [|split; [|split; [|split]]]]];
      vm_compute; reflexivity.
Qed.

End BudgetFacts.

(** ** The goals service *)

Module GoalsFacts.
Import JsString JsNumber JsDate Types Storage JsArray Validator GoalsService.
Import BudgetFacts.
Local Open Scope Q_scope.

(** *** Arrays *)

Lemma find_findIndex {A : Type} (p : A -> bool) (l : list A) (x : A) :
  find p l = Some x ->
  exists i, findIndex p l = Some i /\ nth_error l i = Some x.
Proof.
  induction l as [|y l IH]; simpl; [discriminate|].
  destruct (p y).
  - intros [= <-]. exists O. auto.
  - intros H. destruct (IH H) as (i & Hi & Hn). exists (S i).
    rewrite Hi. auto.
Qed.

Lemma nth_error_setAt_same {A : Type} (l : list A) i (x y : A) :
  nth_error l i = Some y -> nth_error (setAt i x l) i = Some x.
Proof.
  revert i. induction l as [|z l IH]; intros [|i]; simpl; try discriminate; auto.
Qed.

Lemma nth_error_setAt_other {A : Type} (l : list A) i j (x : A) :
  i <> j -> nth_error (setAt i x l) j = nth_error l j.
Proof.
  revert i j. induction l as [|z l IH]; intros [|i] [|j] H; simpl; auto;
    try congruence.
Qed.

Lemma setAt_length {A : Type} (l : list A) i (x : A) :
  length (setAt i x l) = length l.
Proof.
  revert i. induction l as [|z l IH]; intros [|i]; simpl; auto.
Qed.

Section WithNumberToString.

Variable show : Q -> string.

(** *** One operation *)

(** A successful contribution or withdrawal rewrites the goal it read, at
    the place where it stands. *)
Lemma updateGoal_found now d id u g :
  getGoalById d id = Some g ->
  exists i, nth_error (ClawhubData.goals d) i = Some g
    /\ updateGoal now d id u
       = (withGoals d (setAt i (merge now g u) (ClawhubData.goals d)),
          Some (merge now g u)).
Proof.
  unfold getGoalById, updateGoal. intros H.
  apply find_findIndex in H as (i & Hi & Hn).
  exists i. rewrite Hi, Hn. auto.
Qed.

Lemma addContribution_spec now uuid d goalId amount note g :
  getGoalById d goalId = Some g ->
  (amount <= 0 ->
   addContribution show now uuid d goalId amount note
   = (d, failure "Invalid amount" "Contribution must be positive"))
  /\ (0 < amount ->
      exists i g' r,
        addContribution show now uuid d goalId amount note
        = (withGoals d (setAt i g' (ClawhubData.goals d)), r)
        /\ nth_error (ClawhubData.goals d) i = Some g
        /\ ActionResult.success r = true /\ ActionResult.data r = Some g'
        /\ SavingsGoal.currentAmount g' = SavingsGoal.currentAmount g + amount
        /\ SavingsGoal.contributions g'
           = SavingsGoal.contributions g
               ++ [GoalContribution.mk ("contrib_" ++ substring 0 8 uuid)%string
                                       amount (toIsoDate now) note]
        /\ SavingsGoal.targetAmount g' = SavingsGoal.targetAmount g
        /\ SavingsGoal.isCompleted g'
           = Qle_bool (SavingsGoal.targetAmount g') (SavingsGoal.currentAmount g')).
Proof.
  intros Hg. unfold addContribution. rewrite Hg. split.
  - intros H. apply Qle_bool_iff in H. rewrite H. reflexivity.
  - intros H. apply Qle_bool_lt in H. rewrite H.
    match goal with |- context [updateGoal now d goalId ?u] =>
      destruct (updateGoal_found now d goalId u g Hg) as (i & Hn & ->) end.
    eexists i, _, _. split; [reflexivity|]. simpl. auto 10.
Qed.

Lemma withdrawFromGoal_spec now uuid d goalId amount note g :
  getGoalById d goalId = Some g ->
  (amount <= 0 ->
   withdrawFromGoal show now uuid d goalId amount note
   = (d, failure "Invalid amount" "Withdrawal must be positive"))
  /\ (0 < amount -> SavingsGoal.currentAmount g < amount ->
      withdrawFromGoal show now uuid d goalId amount note
      = (d, failure "Insufficient funds"
              ("Only $" ++ show (SavingsGoal.currentAmount g) ++ " available")%string))
  /\ (0 < amount -> amount <= SavingsGoal.currentAmount g ->
      exists i g' r c,
        withdrawFromGoal show now uuid d goalId amount note
        = (withGoals d (setAt i g' (ClawhubData.goals d)), r)
        /\ nth_error (ClawhubData.goals d) i = Some g
        /\ ActionResult.success r = true /\ ActionResult.data r = Some g'
        /\ SavingsGoal.currentAmount g' = SavingsGoal.currentAmount g - amount
        /\ SavingsGoal.contributions g' = SavingsGoal.contributions g ++ [c]
        /\ GoalContribution.amount c = - amount
        /\ SavingsGoal.targetAmount g' = SavingsGoal.targetAmount g
        /\ SavingsGoal.isCompleted g' = false).
Proof.
  intros Hg. unfold withdrawFromGoal. rewrite Hg. split; [|split].
  - intros H. apply Qle_bool_iff in H. rewrite H. reflexivity.
  - intros H L. apply Qle_bool_lt in H. rewrite H.
    apply Qltb_lt in L. rewrite L. reflexivity.
  - intros H L. apply Qle_bool_lt in H. rewrite H.
    apply Qltb_ge in L. rewrite L.
    match goal with |- context [updateGoal now d goalId ?u] =>
      destruct (updateGoal_found now d goalId u g Hg) as (i & Hn & ->) end.
    eexists i, _, _, _. split; [reflexivity|]. simpl. auto 10.
Qed.

(** *** Sequences of operations *)

Inductive GoalOp : Type :=
| Create (data : GoalData)
| Contribute (goalId : string) (amount : Q) (note : option string)
| Withdraw (goalId : string) (amount : Q) (note : option string).

(** One call: the instant and the identifier it draws, and the operation. *)
Record Step : Type := mkStep { at_ : Date; uuid : string; op : GoalOp }.

Definition step (d : ClawhubData.t) (s : Step) : ClawhubData.t :=
  fst (match op s with
       | Create data => createGoal (at_ s) (uuid s) d data
       | Contribute goalId amount note =>
           addContribution show (at_ s) (uuid s) d goalId amount note
       | Withdraw goalId amount note =>
           withdrawFromGoal show (at_ s) (uuid s) d goalId amount note
       end).

Definition run (d : ClawhubData.t) (steps : list Step) : ClawhubData.t :=
  fold_left step steps d.

(** C9: a withdrawal above the current amount fails and leaves the whole
    document, hence the goal, as it was; when the current amount is not
    negative the failure is the one for insufficient funds. *)
Theorem C9_overdraw_rejected
        (now : Date) (u : string) (d : ClawhubData.t) (goalId : string)
        (amount : Q) (note : option string) (g : SavingsGoal.t) :
  getGoalById d goalId = Some g ->
  SavingsGoal.currentAmount g < amount ->
  let result := withdrawFromGoal show now u d goalId amount note in
  fst result = d
  /\ getGoalById (fst result) goalId = Some g
  /\ ActionResult.success (snd result) = false
  /\ ActionResult.data (snd result) = None
  /\ (0 <= SavingsGoal.currentAmount g ->
      ActionResult.message (snd result) = "Insufficient funds"
      /\ ActionResult.error (snd result)
         = Some ("Only $" ++ show (SavingsGoal.currentAmount g) ++ " available")%string).
Proof.
  intros Hg Hover. cbv zeta.
  destruct (withdrawFromGoal_spec now u d goalId amount note g Hg) as (Hneg & Hrej & _).
  destruct (Qlt_le_dec 0 amount) as [L|L].
  - rewrite (Hrej L Hover). simpl. repeat split; auto.
  - rewrite (Hneg L). simpl.
    split; [reflexivity|]. split; [assumption|].
    split; [reflexivity|]. split; [reflexivity|].
    intros P. exfalso.
    apply (Qlt_irrefl 0), (Qle_lt_trans _ _ _ P), (Qlt_le_trans _ _ _ Hover L).
Qed.

End WithNumberToString.

(** *** Concrete runs *)

Definition blank (q : Q) : string := "".

Definition emptyData : ClawhubData.t := ClawhubData.mk [] [] [].

Definition carGoal (opening : option Q) : GoalData :=
  mkGoalData "Car" None 1000 opening None None.

Definition carId : string := "goal_0a1b2c3d".

Definition withCar (opening : option Q) : ClawhubData.t :=
  fst (createGoal 0%Z "0a1b2c3d-0000" emptyData (carGoal opening)).

Definition contribute (amount : Q) : Step :=
  mkStep 0%Z "11111111-0000" (Contribute carId amount None).

Definition withdraw (amount : Q) : Step :=
  mkStep 0%Z "22222222-0000" (Withdraw carId amount None).

Lemma C9_witness_car :
  let result := withdrawFromGoal blank 0%Z "22222222-0000" (withCar (Some 900))
                                 carId 1000 None in
  fst result = withCar (Some 900)
  /\ getGoalById (fst result) carId
     = Some (SavingsGoal.mk carId "Car" None 1000 900 None medium [] false 0%Z 0%Z)
  /\ ActionResult.success (snd result) = false
  /\ ActionResult.data (snd result) = None
  /\ (0 <= 900 ->
      ActionResult.message (snd result) = "Insufficient funds"
      /\ ActionResult.error (snd result) = Some "Only $ available").
Proof.
  apply (C9_overdraw_rejected blank 0%Z "22222222-0000" (withCar (Some 900)) carId
           1000 None
           (SavingsGoal.mk carId "Car" None 1000 900 None medium [] false 0%Z 0%Z)).
  - reflexivity.
  - reflexivity.
Defined.

(** C5, evaluated where the code departs from it.  A successful
    contribution sets the flag to the comparison of the new amount with the
    target, and the scenario of the specification holds: 150 added to 900
    of 1000 gives 1050 and a completed goal.  A successful withdrawal sets
    the flag to false whatever remains: a goal of target 1000 that holds
    1500 and from which 100 is withdrawn holds 1400, still at or above the
    target, and is marked not completed.  A goal created with its target
    already saved is likewise created not completed. *)
Theorem C5_withdrawal_clears_completion :
  (forall show now u d goalId amount note g,
      getGoalById d goalId = Some g -> 0 < amount ->
      exists g',
        ActionResult.data (snd (addContribution show now u d goalId amount note))
        = Some g'
        /\ SavingsGoal.currentAmount g' = SavingsGoal.currentAmount g + amount
        /\ (SavingsGoal.isCompleted g' = true
            <-> SavingsGoal.targetAmount g' <= SavingsGoal.currentAmount g'))
  /\ (forall show now u d goalId amount note g,
        getGoalById d goalId = Some g ->
        0 < amount -> amount <= SavingsGoal.currentAmount g ->
        exists g',
          ActionResult.data (snd (withdrawFromGoal show now u d goalId amount note))
          = Some g'
          /\ SavingsGoal.currentAmount g' = SavingsGoal.currentAmount g - amount
          /\ SavingsGoal.isCompleted g' = false)
  /\ (exists g,
        getGoalById (run blank (withCar (Some 900)) [contribute 150]) carId = Some g
        /\ SavingsGoal.currentAmount g == 1050
        /\ SavingsGoal.isCompleted g = true)
  /\ (exists g,
        getGoalById (withCar (Some 1000)) carId = Some g
        /\ SavingsGoal.targetAmount g <= SavingsGoal.currentAmount g
        /\ SavingsGoal.isCompleted g = false)
  /\ (exists g,
        getGoalById (run blank (withCar None) [contribute 1500; withdraw 100]) carId
        = Some g
        /\ SavingsGoal.currentAmount g == 1400
        /\ SavingsGoal.targetAmount g == 1000
        /\ SavingsGoal.targetAmount g <= SavingsGoal.currentAmount g
        /\ SavingsGoal.isCompleted g = false).
Proof.
  split; [|split; [|split; [|split]]].
  - intros show now u d goalId amount note g Hg Hpos.
    destruct (addContribution_spec show now u d goalId amount note g Hg) as [_ H].
    destruct (H Hpos) as (i & g' & r & -> & _ & _ & Hd & Hc & _ & _ & Hf).
    exists g'. simpl. split; [assumption|]. split; [assumption|].
    rewrite Hf. apply Qle_bool_iff.
  - intros show now u d goalId amount note g Hg Hpos Hle.
    destruct (withdrawFromGoal_spec show now u d goalId amount note g Hg) as (_ & _ & H).
    destruct (H Hpos Hle) as (i & g' & r & c & -> & _ & _ & Hd & Hc & _ & _ & _ & Hf).
    exists g'. simpl. auto.
  - eexists. split; [vm_compute; reflexivity|]. split; reflexivity.
  - eexists. split; [vm_compute; reflexivity|]. split; [discriminate|reflexivity].
  - eexists. split; [vm_compute; reflexivity|].
    split; [reflexivity|]. split; [reflexivity|]. split; [discriminate|reflexivity].
Qed.

End GoalsFacts.

(** ** The goals ledger in double arithmetic *)

Module LedgerFacts.
Import JsString JsNumber JsDate Types JsArray Binary64.

(** *** Doubles *)

Lemma SFsub_add_opp prec emax x y :
  SFsub prec emax x y = SFadd prec emax x (SFopp y).
Proof.
  destruct x as [sx|sx| |sx mx ex], y as [sy|sy| |sy my ey]; simpl;
    try reflexivity; destruct sy; reflexivity.
Qed.

(** Taking a double away is adding its opposite: the two round alike. *)
Lemma sub_add_opp (x y : float) : (x - y = x + - y)%float.
Proof.
  apply Prim2SF_inj.
  rewrite sub_spec, add_spec, opp_spec. apply SFsub_add_opp.
Qed.

(** *** The ledger *)

(** The amounts of the ledger, oldest first. *)
Definition ledger (g : SavingsGoal.t) : list float :=
  map GoalContribution.amount (SavingsGoal.contributions g).

(** [amounts.reduce((sum, x) => sum + x, from)]: the amounts added one by
    one, each sum rounded. *)
Definition addedTo (from : float) (amounts : list float) : float :=
  fold_left PrimFloat.add amounts from.

(** Signed sum of the entries of the contributions ledger. *)
Definition ledgerSum (g : SavingsGoal.t) : float := addedTo 0 (ledger g).

Lemma addedTo_snoc from amounts x :
  addedTo from (amounts ++ [x]) = (addedTo from amounts + x)%float.
Proof. unfold addedTo. rewrite fold_left_app. reflexivity. Qed.

Section WithNumberToString.

Variable show : float -> string.

(** *** One operation *)

Lemma updateGoal_rewrites now goals id u g :
  getGoalById goals id = Some g ->
  exists i, nth_error goals i = Some g
    /\ updateGoal now goals id u = (setAt i (merge now g u) goals, Some (merge now g u)).
Proof.
  unfold getGoalById, updateGoal. intros H.
  apply GoalsFacts.find_findIndex in H as (i & Hi & Hn).
  exists i. rewrite Hi, Hn. auto.
Qed.

(** A contribution that is not rejected adds its amount to the balance
    and to the ledger. *)
Lemma addContribution_adds now uuid goals goalId amount note g :
  getGoalById goals goalId = Some g ->
  (PrimFloat.leb amount 0 = true ->
   fst (addContribution show now uuid goals goalId amount note) = goals)
  /\ (PrimFloat.leb amount 0 = false ->
      exists i g',
        fst (addContribution show now uuid goals goalId amount note) = setAt i g' goals
        /\ nth_error goals i = Some g
        /\ SavingsGoal.currentAmount g' = (SavingsGoal.currentAmount g + amount)%float
        /\ ledger g' = ledger g ++ [amount]).
Proof.
  intros Hg. unfold addContribution. rewrite Hg. split; intros H; rewrite H.
  - reflexivity.
  - match goal with |- context [updateGoal now goals goalId ?u] =>
      destruct (updateGoal_rewrites now goals goalId u g Hg) as (i & Hn & ->) end.
    exists i. eexists. split; [reflexivity|]. split; [assumption|].
    split; [reflexivity|]. unfold ledger. simpl. rewrite map_app. reflexivity.
Qed.

(** A withdrawal that is not rejected takes its amount from the balance
    and adds the opposite amount to the ledger. *)
Lemma withdrawFromGoal_takes now uuid goals goalId amount note g :
  getGoalById goals goalId = Some g ->
  (PrimFloat.leb amount 0 || PrimFloat.ltb (SavingsGoal.currentAmount g) amount = true ->
   fst (withdrawFromGoal show now uuid goals goalId amount note) = goals)
  /\ (PrimFloat.leb amount 0 || PrimFloat.ltb (SavingsGoal.currentAmount g) amount = false ->
      exists i g',
        fst (withdrawFromGoal show now uuid goals goalId amount note) = setAt i g' goals
        /\ nth_error goals i = Some g
        /\ SavingsGoal.currentAmount g' = (SavingsGoal.currentAmount g - amount)%float
        /\ ledger g' = ledger g ++ [(- amount)%float]).
Proof.
  intros Hg. unfold withdrawFromGoal. rewrite Hg. split; intros H.
  - destruct (PrimFloat.leb amount 0); [reflexivity|].
    simpl in H. rewrite H. reflexivity.
  - apply orb_false_iff in H as [H1 H2]. rewrite H1, H2.
    match goal with |- context [updateGoal now goals goalId ?u] =>
      destruct (updateGoal_rewrites now goals goalId u g Hg) as (i & Hn & ->) end.
    exists i. eexists. split; [reflexivity|]. split; [assumption|].
    split; [reflexivity|]. unfold ledger. simpl. rewrite map_app. reflexivity.
Qed.

(** *** Sequences of operations *)

Inductive Operation : Type :=
| Creation (data : GoalData)
| Contribution (goalId : string) (amount : float) (note : option string)
| Withdrawal (goalId : string) (amount : float) (note : option string).

(** One call: the instant and the identifier it draws, and the operation. *)
Record Call : Type := mkCall { instant : Date; drawn : string; operation : Operation }.

Definition call (goals : list SavingsGoal.t) (s : Call) : list SavingsGoal.t :=
  fst (match operation s with
       | Creation data => createGoal (instant s) (drawn s) goals data
       | Contribution goalId amount note =>
           addContribution show (instant s) (drawn s) goals goalId amount note
       | Withdrawal goalId amount note =>
           withdrawFromGoal show (instant s) (drawn s) goals goalId amount note
       end).

Definition replay (goals : list SavingsGoal.t) (calls : list Call) : list SavingsGoal.t :=
  fold_left call calls goals.

(** The balance is what the ledger adds to [from]. *)
Definition balanced (from : float) (g : SavingsGoal.t) : Prop :=
  SavingsGoal.currentAmount g = addedTo from (ledger g).

(** What an operation keeps of the goal at a given place. *)
Definition kept (g g' : SavingsGoal.t) : Prop :=
  forall from, balanced from g -> balanced from g'.

Lemma kept_refl g : kept g g.
Proof. intros from H. exact H. Qed.

Lemma setAt_kept (l : list SavingsGoal.t) i0 g0 g0' i g :
  nth_error l i0 = Some g0 -> kept g0 g0' ->
  nth_error l i = Some g ->
  exists g', nth_error (setAt i0 g0' l) i = Some g' /\ kept g g'.
Proof.
  intros H0 K H. destruct (Nat.eq_dec i0 i) as [E|Hne].
  - subst i. exists g0'.
    rewrite (GoalsFacts.nth_error_setAt_same l i0 g0' g0 H0).
    replace g with g0 by congruence. auto.
  - exists g. rewrite GoalsFacts.nth_error_setAt_other by assumption.
    split; [assumption|apply kept_refl].
Qed.

Lemma createGoal_goals now u goals data :
  let '(goals', r) := createGoal now u goals data in
  (ActionResult.success r = false /\ goals' = goals)
  \/ (exists g, ActionResult.success r = true /\ ActionResult.data r = Some g
               /\ goals' = goals ++ [g]
               /\ SavingsGoal.currentAmount g = orZero (currentAmount data)
               /\ SavingsGoal.contributions g = []).
Proof.
  unfold createGoal. destruct (Validator.valid (validateGoal data)); simpl.
  - right. eexists. repeat split.
  - left. auto.
Qed.

Lemma call_kept goals s i g :
  nth_error goals i = Some g ->
  exists g', nth_error (call goals s) i = Some g' /\ kept g g'.
Proof.
  intros H. unfold call.
  destruct (operation s) as [data|goalId amount note|goalId amount note].
  - pose proof (createGoal_goals (instant s) (drawn s) goals data) as C.
    destruct (createGoal (instant s) (drawn s) goals data) as [goals' r].
    destruct C as [[_ ->]|(g0 & _ & _ & -> & _)]; simpl.
    + exists g. split; [assumption|apply kept_refl].
    + exists g. split; [|apply kept_refl].
      rewrite nth_error_app1; [assumption|].
      apply nth_error_Some. congruence.
  - destruct (getGoalById goals goalId) as [g0|] eqn:Hg.
    + destruct (addContribution_adds (instant s) (drawn s) goals goalId amount note g0 Hg)
        as [Hno Hyes].
      destruct (PrimFloat.leb amount 0) eqn:L.
      * rewrite (Hno eq_refl). exists g. split; [assumption|apply kept_refl].
      * destruct (Hyes eq_refl) as (i0 & g0' & -> & Hn & Hc & Hl).
        apply (setAt_kept _ _ _ _ _ _ Hn); [|assumption].
        intros from B. unfold balanced in *.
        rewrite Hc, Hl, addedTo_snoc, B. reflexivity.
    + unfold addContribution. rewrite Hg. simpl.
      exists g. split; [assumption|apply kept_refl].
  - destruct (getGoalById goals goalId) as [g0|] eqn:Hg.
    + destruct (withdrawFromGoal_takes (instant s) (drawn s) goals goalId amount note g0 Hg)
        as [Hno Hyes].
      destruct (PrimFloat.leb amount 0
                || PrimFloat.ltb (SavingsGoal.currentAmount g0) amount) eqn:L.
      * rewrite (Hno eq_refl). exists g. split; [assumption|apply kept_refl].
      * destruct (Hyes eq_refl) as (i0 & g0' & -> & Hn & Hc & Hl).
        apply (setAt_kept _ _ _ _ _ _ Hn); [|assumption].
        intros from B. unfold balanced in *.
        rewrite Hc, Hl, addedTo_snoc, B. apply sub_add_opp.
    + unfold withdrawFromGoal. rewrite Hg. simpl.
      exists g. split; [assumption|apply kept_refl].
Qed.

Lemma replay_kept calls : forall goals i g,
  nth_error goals i = Some g ->
  exists g', nth_error (replay goals calls) i = Some g' /\ kept g g'.
Proof.
  induction calls as [|s calls IH]; intros goals i g H; simpl.
  - exists g. split; [assumption|apply kept_refl].
  - destruct (call_kept goals s i g H) as (g1 & H1 & K1).
    destruct (IH _ _ _ H1) as (g2 & H2 & K2).
    exists g2. split; [assumption|]. intros from B. apply K2, K1, B.
Qed.

Lemma created_balanced now u goals data goals' r calls :
  createGoal now u goals data = (goals', r) ->
  ActionResult.success r = true ->
  exists g,
    nth_error (replay goals' calls) (length goals) = Some g
    /\ balanced (orZero (currentAmount data)) g.
Proof.
  intros E S.
  pose proof (createGoal_goals now u goals data) as C. rewrite E in C.
  destruct C as [[F _]|(g0 & _ & _ & Hg & Hc & Hl)]; [congruence|].
  assert (H0 : nth_error goals' (length goals) = Some g0).
  { rewrite Hg, nth_error_app2, Nat.sub_diag by lia. reflexivity. }
  destruct (replay_kept calls _ _ _ H0) as (g & Hn & K).
  exists g. split; [assumption|]. apply K.
  unfold balanced, ledger. rewrite Hc, Hl. reflexivity.
Qed.

End WithNumberToString.

(** *** Concrete runs *)

Definition unwritten (x : float) : string := "".

Definition tripGoal (opening : option float) : GoalData :=
  mkGoalData "Trip" None 1000 opening None None.

Definition tripId : string := "goal_0a1b2c3d".

Definition withTrip (opening : option float) : list SavingsGoal.t :=
  fst (createGoal 0%Z "0a1b2c3d-0000" [] (tripGoal opening)).

Definition payIn (amount : float) : Call :=
  mkCall 0%Z "11111111-0000" (Contribution tripId amount None).

Definition takeOut (amount : float) : Call :=
  mkCall 0%Z "22222222-0000" (Withdrawal tripId amount None).

(** C4, as stated, fails: a goal created with 900 already saved and an
    empty ledger holds 1050 after a contribution of 150, while its ledger
    sums to 150. *)
Lemma C4_counterexample_opening_balance :
  exists g,
    nth_error (replay unwritten (withTrip (Some 900%float)) [payIn 150]) 0 = Some g
    /\ SavingsGoal.currentAmount g = 1050%float
    /\ ledgerSum g = 150%float
    /\ PrimFloat.eqb (SavingsGoal.currentAmount g) (ledgerSum g) = false.
Proof.
  eexists. split; [vm_compute; reflexivity|].
  split; [reflexivity|]. split; vm_compute; reflexivity.
Qed.

(** C4, amended: a goal created with the opening amount [c0] (zero when
    none is given) has, after any further goal operations, the current
    amount that is left by adding to [c0] the amounts of its ledger one by
    one, oldest first, each sum rounded to a double; without an opening
    amount that is the sum of the ledger taken the same way.  The order
    and the rounding count: with 0.1 at the opening, 0.2 and 0.3
    contributed, the current amount is 0.6000000000000001, whereas the
    ledger sums to 0.5 and 0.1 + 0.5 is 0.6. *)
Theorem C4_balance_is_opening_plus_ledger :
  (forall (show : float -> string) (now : Date) (u : string)
          (goals goals' : list SavingsGoal.t) (data : GoalData)
          (r : ActionResult.t SavingsGoal.t) (calls : list Call),
      createGoal now u goals data = (goals', r) ->
      ActionResult.success r = true ->
      exists g,
        nth_error (replay show goals' calls) (length goals) = Some g
        /\ SavingsGoal.currentAmount g = addedTo (orZero (currentAmount data)) (ledger g)
        /\ (currentAmount data = None -> SavingsGoal.currentAmount g = ledgerSum g))
  /\ (exists g,
        nth_error (replay unwritten (withTrip (Some 0.1%float)) [payIn 0.2; payIn 0.3]) 0
        = Some g
        /\ ledger g = [0.2; 0.3]%float
        /\ SavingsGoal.currentAmount g = ((0.1 + 0.2) + 0.3)%float
        /\ SavingsGoal.currentAmount g = 0x1.3333333333334p-1%float
        /\ ledgerSum g = 0.5%float
        /\ (0.1 + ledgerSum g)%float = 0x1.3333333333333p-1%float
        /\ PrimFloat.eqb (SavingsGoal.currentAmount g) (0.1 + ledgerSum g) = false).
Proof.
  split.
  - intros show now u goals goals' data r calls E S.
    destruct (created_balanced show now u goals data goals' r calls E S) as (g & Hn & B).
    exists g. split; [assumption|]. split; [exact B|].
    intros N. rewrite N in B. exact B.
  - eexists. split; [vm_compute; reflexivity|].
    repeat (split; [vm_compute; reflexivity|]). vm_compute. reflexivity.
Qed.

Lemma C4_witness_trip :
  exists g,
    nth_error (replay unwritten (withTrip (Some 900%float)) [payIn 150; takeOut 50])
              (length (@nil SavingsGoal.t)) = Some g
    /\ SavingsGoal.currentAmount g
       = addedTo (orZero (currentAmount (tripGoal (Some 900%float)))) (ledger g)
    /\ (currentAmount (tripGoal (Some 900%float)) = None ->
        SavingsGoal.currentAmount g = ledgerSum g).
Proof.
  apply (proj1 C4_balance_is_opening_plus_ledger unwritten 0%Z "0a1b2c3d-0000" []
           (withTrip (Some 900%float)) (tripGoal (Some 900%float))
           (snd (createGoal 0%Z "0a1b2c3d-0000" [] (tripGoal (Some 900%float))))).
  - reflexivity.
  - reflexivity.
Defined.

End LedgerFacts.

(** ** Sorting *)

Module SortFacts.
Import JsNumber JsArray BudgetFacts.
Local Open Scope Q_scope.

Section ByKey.

Context {A : Type}.
Variable key : A -> Q.

(** The comparator [(a, b) => key(b) - key(a)]: descending keys. *)
Definition descending (a b : A) : Q := key b - key a.

Lemma moves_behind x y : Qltb 0 (descending x y) = true <-> key x < key y.
Proof.
  unfold descending. rewrite Qltb_lt. split; intros H.
  - apply (Qplus_lt_l _ _ (- key x)). setoid_replace (key x + - key x) with 0 by ring.
    exact H.
  - apply (Qplus_lt_l _ _ (- key x)) in H.
    setoid_replace (key x + - key x) with 0 in H by ring. exact H.
Qed.

Lemma stays_before x y : Qltb 0 (descending x y) = false <-> key y <= key x.
Proof.
  split; intros H.
  - apply Qnot_lt_le. intros L. apply moves_behind in L. congruence.
  - destruct (Qltb 0 (descending x y)) eqn:E; [|reflexivity].
    apply moves_behind in E. exfalso. exact (Qlt_not_le _ _ E H).
Qed.

Lemma insertSorted_perm x l : Permutation (insertSorted descending x l) (x :: l).
Proof.
  induction l as [|y l IH]; simpl; [reflexivity|].
  destruct (Qltb 0 (descending x y)); [|reflexivity].
  rewrite IH. apply perm_swap.
Qed.

Lemma sort_perm l : Permutation (sort descending l) l.
Proof.
  induction l as [|x l IH]; simpl; [reflexivity|].
  rewrite insertSorted_perm. constructor. exact IH.
Qed.

(** No element is followed by one with a larger key. *)
Definition nonIncreasing (l : list A) : Prop :=
  StronglySorted (fun a b => key b <= key a) l.

Lemma insertSorted_sorted x l :
  nonIncreasing l -> nonIncreasing (insertSorted descending x l).
Proof.
  unfold nonIncreasing. induction l as [|y l IH]; intros H; simpl.
  - repeat constructor.
  - inversion H as [|? ? Hl Hy]; subst.
    destruct (Qltb 0 (descending x y)) eqn:E.
    + apply moves_behind in E. constructor; [apply IH; assumption|].
      apply Forall_forall. intros z Hz.
      apply (Permutation_in _ (insertSorted_perm x l)) in Hz.
      destruct Hz as [<-|Hz]; [apply Qlt_le_weak; assumption|].
      rewrite Forall_forall in Hy. auto.
    + apply stays_before in E. constructor; [assumption|].
      constructor; [assumption|].
      apply Forall_forall. intros z Hz. rewrite Forall_forall in Hy.
      apply (Qle_trans _ (key y)); auto.
Qed.

Lemma sort_sorted l : nonIncreasing (sort descending l).
Proof.
  induction l as [|x l IH]; simpl; [constructor|].
  apply insertSorted_sorted. exact IH.
Qed.

(** The sort is stable: the elements of any one key keep their order. *)
Lemma insertSorted_stable v x l :
  filter (fun a => Qeq_bool (key a) v) (insertSorted descending x l)
  = filter (fun a => Qeq_bool (key a) v) (x :: l).
Proof.
  induction l as [|y l IH]; [reflexivity|].
  simpl insertSorted. destruct (Qltb 0 (descending x y)) eqn:E; [|reflexivity].
  apply moves_behind in E.
  simpl filter in *. rewrite IH.
  destruct (Qeq_bool (key x) v) eqn:Ex; [|reflexivity].
  destruct (Qeq_bool (key y) v) eqn:Ey; [|reflexivity].
  apply Qeq_bool_iff in Ex, Ey. exfalso.
  rewrite Ex, Ey in E. exact (Qlt_irrefl _ E).
Qed.

Lemma sort_stable v l :
  filter (fun a => Qeq_bool (key a) v) (sort descending l)
  = filter (fun a => Qeq_bool (key a) v) l.
Proof.
  induction l as [|x l IH]; [reflexivity|].
  simpl sort. rewrite insertSorted_stable. simpl. rewrite IH. reflexivity.
Qed.

Lemma filter_sorted p l : nonIncreasing l -> nonIncreasing (filter p l).
Proof.
  unfold nonIncreasing. induction l as [|x l IH]; intros H; simpl; [constructor|].
  inversion H as [|? ? Hl Hx]; subst.
  destruct (p x); [|auto].
  constructor; [auto|].
  apply Forall_forall. intros z Hz. apply filter_In in Hz as [Hz _].
  rewrite Forall_forall in Hx. auto.
Qed.

(** In a sorted list the first [n] elements have keys at least as large
    as those of the rest. *)
Lemma firstn_above_rest n l a b :
  nonIncreasing l -> In a (firstn n l) -> In b (skipn n l) -> key b <= key a.
Proof.
  unfold nonIncreasing. revert l. induction n as [|n IH]; intros l H Ha Hb.
  - destruct Ha.
  - destruct l as [|x l]; [destruct Ha|].
    inversion H as [|? ? Hl Hx]; subst. simpl in Ha, Hb.
    destruct Ha as [<-|Ha].
    + rewrite Forall_forall in Hx. apply Hx.
      rewrite <- (firstn_skipn n l). apply in_or_app. auto.
    + eauto.
Qed.

End ByKey.

End SortFacts.

(** ** The analytics engine *)

Module AnalyticsFacts.
Import JsString JsNumber JsDate DateFns Types Storage JsArray AnalyticsEngine.
Import BudgetFacts CalendarFacts SortFacts.
Local Open Scope Q_scope.

(** *** Trend series *)

Definition isZeroPoint (p : TrendData.t) : Prop :=
  TrendData.expenses p == 0 /\ TrendData.income p == 0 /\ TrendData.netSavings p == 0.

Lemma trendPoint_empty label : isZeroPoint (trendPoint label []).
Proof. repeat split. Qed.

Lemma daily_length now d days : length (getDailyTrends now d days) = S days.
Proof. unfold getDailyTrends. rewrite length_map. apply eachDay_back_length. Qed.

Lemma weekly_length now d weeks : length (getWeeklyTrends now d weeks) = S weeks.
Proof. unfold getWeeklyTrends. rewrite length_map. apply eachWeek_back_length. Qed.

Lemma monthly_length now d months : length (getMonthlyTrends now d months) = S months.
Proof. unfold getMonthlyTrends. rewrite length_map. apply eachMonth_back_length. Qed.

Lemma Forall_map_intro {A B : Type} (P : B -> Prop) (f : A -> B) (l : list A) :
  (forall x, P (f x)) -> Forall P (map f l).
Proof. intros H. induction l; simpl; constructor; auto. Qed.

(** C3, evaluated on the code: for every span each trend series has one
    point more than the span, not the span; with no transactions recorded
    every point is zero-filled.  Thirty days give thirty-one points. *)
Theorem C3_trends_have_span_plus_one_points
        (now : Date) (d : ClawhubData.t) (span : nat) :
  length (getDailyTrends now d span) = S span
  /\ length (getWeeklyTrends now d span) = S span
  /\ length (getMonthlyTrends now d span) = S span
  /\ length (getDailyTrends now d 30) = 31%nat
  /\ (ClawhubData.transactions d = [] ->
      Forall isZeroPoint (getDailyTrends now d span)
      /\ Forall isZeroPoint (getWeeklyTrends now d span)
      /\ Forall isZeroPoint (getMonthlyTrends now d span)).
Proof.
  split; [apply daily_length|]. split; [apply weekly_length|].
  split; [apply monthly_length|]. split; [apply daily_length|].
  intros E.
  unfold getDailyTrends, getWeeklyTrends, getMonthlyTrends, getTransactions.
  rewrite E. simpl filter.
  repeat split; apply Forall_map_intro; intros; apply trendPoint_empty.
Qed.

(** *** Month over month: the set of categories *)

Lemma setOf_In seen l x :
  In x (setOf seen l) <-> In x l /\ ~ In x seen.
Proof.
  revert seen. induction l as [|y l IH]; intros seen; simpl; [tauto|].
  destruct (existsb (String.eqb y) seen) eqn:E.
  - apply existsb_exists in E as (z & Hz & Ez). apply String.eqb_eq in Ez. subst z.
    rewrite IH. split.
    + intros [H1 H2]. auto.
    + intros [[<-|H1] H2]; [contradiction|auto].
  - assert (Hy : ~ In y seen).
    { intros Hin. assert (existsb (String.eqb y) seen = true).
      { apply existsb_exists. exists y. split; [assumption|apply String.eqb_refl]. }
      congruence. }
    simpl. rewrite IH. simpl. split.
    + intros [<-|[H1 H2]]; [auto|]. split; [auto|]. intros H. apply H2. auto.
    + intros [[<-|H1] H2]; [auto|].
      destruct (string_dec y x) as [->|Hne]; [auto|]. right. split; [auto|].
      intros [H|H]; [congruence|contradiction].
Qed.

Lemma setOf_NoDup seen l : NoDup (setOf seen l).
Proof.
  revert seen. induction l as [|y l IH]; intros seen; simpl; [constructor|].
  destruct (existsb (String.eqb y) seen); [apply IH|].
  constructor; [|apply IH].
  rewrite setOf_In. simpl. tauto.
Qed.

(** *** The category changes *)

Definition expenseCategories (s : SpendingSummary.t) : list string :=
  map CategoryTotal.category (SpendingSummary.expensesByCategory s).

(** Each category of either month appears once, with the change of its
    total from the last month to the current one. *)
Lemma categoryChanges_spec cur last :
  (forall c, In c (categoryChanges cur last) ->
             Change.change c
             = totalOf (SpendingSummary.expensesByCategory cur) (Change.category c)
               - totalOf (SpendingSummary.expensesByCategory last) (Change.category c))
  /\ (forall cat, In cat (map Change.category (categoryChanges cur last))
                  <-> In cat (expenseCategories cur) \/ In cat (expenseCategories last))
  /\ NoDup (map Change.category (categoryChanges cur last)).
Proof.
  unfold categoryChanges, expenseCategories.
  set (cats := setOf [] _).
  split; [|split].
  - intros c Hc. apply in_map_iff in Hc as (cat & <- & _). reflexivity.
  - intros cat. rewrite map_map. simpl. rewrite map_id.
    unfold cats. rewrite setOf_In, in_app_iff. simpl. tauto.
  - rewrite map_map. simpl. rewrite map_id. apply setOf_NoDup.
Qed.

(** *** What the two lists hold *)

Definition isIncrease (c : Change.t) : bool := Qltb 0 (Change.change c).
Definition isDecrease (c : Change.t) : bool := Qltb (Change.change c) 0.

Lemma top_of_sorted (p : Change.t -> bool) (changes : list Change.t) (c c' : Change.t) :
  let top := slice0 3 (filter p (sort byChangeDescending changes)) in
  In c top -> In c' changes -> p c' = true -> ~ In c' top ->
  Change.change c' <= Change.change c.
Proof.
  intros top Hc Hc' Hp Hn.
  set (l := filter p (sort byChangeDescending changes)) in *.
  assert (S : nonIncreasing Change.change l)
    by (apply filter_sorted, (sort_sorted Change.change)).
  apply (firstn_above_rest Change.change 3 l c c' S Hc).
  assert (Hl : In c' l).
  { apply filter_In. split; [|assumption].
    apply (Permutation_in _ (Permutation_sym (sort_perm Change.change changes))).
    assumption. }
  rewrite <- (firstn_skipn 3 l) in Hl. apply in_app_or in Hl as [H|H].
  - contradiction.
  - assumption.
Qed.

Definition monthChanges (now : Date) (d : ClawhubData.t) : list Change.t :=
  categoryChanges
    (getSpendingSummary now d (Some (getCurrentMonthRange now)))
    (getSpendingSummary now d (Some (getLastMonthRange now))).

(** The top increases are the largest increases; the top decreases are
    the decreases nearest to zero: every decrease left out is at least as
    large as every one listed. *)
Lemma top_lists now d :
  let r := compareToLastMonth now d in
  (forall c c', In c (Comparison.topIncreases r) -> In c' (monthChanges now d) ->
                0 < Change.change c' -> ~ In c' (Comparison.topIncreases r) ->
                Change.change c' <= Change.change c)
  /\ (forall c c', In c (Comparison.topDecreases r) -> In c' (monthChanges now d) ->
                   Change.change c' < 0 -> ~ In c' (Comparison.topDecreases r) ->
                   Change.change c' <= Change.change c).
Proof.
  cbv zeta. unfold compareToLastMonth. cbv zeta. simpl. split.
  - intros c c' Hc Hc' Hp Hn.
    apply (top_of_sorted isIncrease (monthChanges now d) c c' Hc Hc'); [|exact Hn].
    apply Qltb_lt. exact Hp.
  - intros c c' Hc Hc' Hp Hn.
    apply (top_of_sorted isDecrease (monthChanges now d) c c' Hc Hc'); [|exact Hn].
    apply Qltb_lt. exact Hp.
Qed.

Definition spend (amount : Q) (cat : string) (y m dd : Z) : Transaction.t :=
  Transaction.mk "tx" expense amount cat "spend" (daysFromCivil y m dd)
                 [] false None None 0%Z 0%Z.

(** Noon of 2 November 2026. *)
Definition novemberSecond : Date := (ofIso (daysFromCivil 2026 11 2) + 43200000)%Z.

(** Four categories, all spent on in October 2026 and not in November. *)
Definition octoberOnly : ClawhubData.t :=
  ClawhubData.mk
    [spend 10 "A" 2026 10 5; spend 20 "B" 2026 10 6;
     spend 30 "C" 2026 10 7; spend 40 "D" 2026 10 8] [] [].

(** C8, evaluated where the code departs from it.  The changes are sorted
    by descending signed change and both lists take the first three
    entries of their sign, so the top decreases are the decreases nearest
    to zero: every decrease left out is at least as large as every one
    listed.  Of the four decreases -10, -20, -30 and -40 the code returns
    the three smallest, and the largest, that of "D", is not among the top
    decreases. *)
Theorem C8_top_decreases_drop_largest :
  (forall now d c c',
      In c (Comparison.topDecreases (compareToLastMonth now d)) ->
      In c' (monthChanges now d) -> Change.change c' < 0 ->
      ~ In c' (Comparison.topDecreases (compareToLastMonth now d)) ->
      Change.change c' <= Change.change c)
  /\ monthChanges novemberSecond octoberOnly
     = [Change.mk "D" (-40); Change.mk "C" (-30);
        Change.mk "B" (-20); Change.mk "A" (-10)]
  /\ Comparison.topDecreases (compareToLastMonth novemberSecond octoberOnly)
     = [Change.mk "A" (-10); Change.mk "B" (-20); Change.mk "C" (-30)]
  /\ Comparison.topIncreases (compareToLastMonth novemberSecond octoberOnly) = [].
Proof.
  split; [intros now d; apply (top_lists now d)|].
  split; [vm_compute; reflexivity|]. split; vm_compute; reflexivity.
Qed.

(** With no transactions in either month every figure is zero and both
    lists are empty. *)
Lemma compare_empty now bs gs :
  compareToLastMonth now (ClawhubData.mk [] bs gs)
  = Comparison.mk 0 0 0 [] [].
Proof. reflexivity. Qed.

End AnalyticsFacts.

(** ** Arrays: search, replacement and removal *)

Module ArrayFacts.
Import JsArray JsArrayOps.

Section Search.

Context {A : Type}.
Variable p : A -> bool.

(** Where [findIndex] stops: the first element that satisfies the test. *)
Lemma findIndex_split (l : list A) (i : nat) :
  findIndex p l = Some i ->
  exists before x after,
    l = before ++ x :: after /\ length before = i /\ p x = true
    /\ forallb (fun y => negb (p y)) before = true.
Proof.
  revert i. induction l as [|y l IH]; intros i; simpl; [discriminate|].
  destruct (p y) eqn:Py.
  - intros [= <-]. exists [], y, l. auto.
  - destruct (findIndex p l) as [j|]; [|discriminate].
    intros [= <-]. destruct (IH j eq_refl) as (b & x & a & -> & L & Px & N).
    exists (y :: b), x, a. simpl. rewrite L, Py, N. auto.
Qed.

Lemma findIndex_none (l : list A) :
  findIndex p l = None <-> forallb (fun y => negb (p y)) l = true.
Proof.
  induction l as [|y l IH]; simpl; [tauto|].
  destruct (p y); simpl.
  - split; discriminate.
  - rewrite <- IH. destruct (findIndex p l); simpl; split; congruence.
Qed.

Lemma find_none_findIndex (l : list A) :
  find p l = None <-> findIndex p l = None.
Proof.
  induction l as [|y l IH]; simpl; [tauto|].
  destruct (p y); [split; discriminate|].
  rewrite IH. destruct (findIndex p l); simpl; split; congruence.
Qed.

Lemma find_skip (before : list A) (rest : list A) :
  forallb (fun y => negb (p y)) before = true ->
  find p (before ++ rest) = find p rest.
Proof.
  induction before as [|y b IH]; simpl; [reflexivity|].
  intros H. apply andb_true_iff in H as [H1 H2].
  apply negb_true_iff in H1. rewrite H1. auto.
Qed.

Lemma findIndex_skip (before : list A) (x : A) (after : list A) :
  forallb (fun y => negb (p y)) before = true -> p x = true ->
  findIndex p (before ++ x :: after) = Some (length before).
Proof.
  induction before as [|y b IH]; simpl; intros H Px.
  - rewrite Px. reflexivity.
  - apply andb_true_iff in H as [H1 H2].
    apply negb_true_iff in H1. rewrite H1, IH by assumption. reflexivity.
Qed.

End Search.

Lemma setAt_middle {A : Type} (before : list A) (x y : A) (after : list A) :
  setAt (length before) y (before ++ x :: after) = before ++ y :: after.
Proof. induction before as [|z b IH]; simpl; [reflexivity|]. rewrite IH. reflexivity. Qed.

Lemma removeAt_middle {A : Type} (before : list A) (x : A) (after : list A) :
  removeAt (length before) (before ++ x :: after) = before ++ after.
Proof. induction before as [|z b IH]; simpl; [reflexivity|]. rewrite IH. reflexivity. Qed.

Lemma nth_error_middle {A : Type} (before : list A) (x : A) (after : list A) :
  nth_error (before ++ x :: after) (length before) = Some x.
Proof. induction before as [|z b IH]; simpl; auto. Qed.

(** A search that agrees on every element but the one at the split. *)
Lemma find_other {A : Type} (q : A -> bool) (before after : list A) (x : A) :
  q x = false ->
  find q (before ++ x :: after) = find q (before ++ after).
Proof.
  intros Qx. induction before as [|z b IH]; simpl.
  - rewrite Qx. reflexivity.
  - destruct (q z); [reflexivity|exact IH].
Qed.

End ArrayFacts.

(** ** The storage manager *)

Module StorageFacts.
Import JsString JsNumber JsDate Types MoreTypes JsArray JsArrayOps Storage StorageManager.
Import ArrayFacts.

(** One collection of the document: its elements, how they are read from
    the document and written back, their identifier, and the three
    accessors that look an element up, replace it and remove it. *)
Section Collection.

Context {A U : Type}.
Variable items : ClawhubData.t -> list A.
Variable withItems : ClawhubData.t -> list A -> ClawhubData.t.
Variable idOf : A -> string.
Variable merged : Date -> A -> U -> A.

Definition named (id : string) (x : A) : bool := String.eqb (idOf x) id.

Definition lookup (d : ClawhubData.t) (id : string) : option A :=
  find (named id) (items d).

Definition replaced (now : Date) (d : ClawhubData.t) (id : string) (u : U)
  : ClawhubData.t * option A :=
  match findIndex (named id) (items d) with
  | None => (d, None)
  | Some index =>
      match nth_error (items d) index with
      | None => (d, None)
      | Some x =>
          (withItems d (setAt index (merged now x u) (items d)),
           Some (merged now x u))
      end
  end.

Definition removed (d : ClawhubData.t) (id : string) : ClawhubData.t * bool :=
  match findIndex (named id) (items d) with
  | None => (d, false)
  | Some index => (withItems d (removeAt index (items d)), true)
  end.

Hypothesis items_with : forall d l, items (withItems d l) = l.

(** The shape of a document in which [id] is found: the first element so
    named, after elements named otherwise. *)
Definition firstNamed (d : ClawhubData.t) (id : string)
           (before : list A) (x : A) (after : list A) : Prop :=
  items d = before ++ x :: after /\ idOf x = id
  /\ Forall (fun y => idOf y <> id) before.

Lemma named_before id before :
  forallb (fun y => negb (named id y)) before = true
  <-> Forall (fun y => idOf y <> id) before.
Proof.
  rewrite forallb_forall, Forall_forall. unfold named.
  split; intros H y Hy; specialize (H y Hy).
  - apply negb_true_iff, String.eqb_neq in H. exact H.
  - apply negb_true_iff, String.eqb_neq. exact H.
Qed.

Lemma lookup_found d id x :
  lookup d id = Some x -> exists before after, firstNamed d id before x after.
Proof.
  unfold lookup. intros H.
  destruct (findIndex (named id) (items d)) as [i|] eqn:E.
  - destruct (findIndex_split _ _ _ E) as (b & y & a & L & _ & Py & N).
    rewrite L, (find_skip _ _ _ N) in H. simpl in H. rewrite Py in H.
    injection H as <-. exists b, a. split; [exact L|].
    split; [apply String.eqb_eq; exact Py|apply named_before; exact N].
  - apply find_none_findIndex in E. congruence.
Qed.

Lemma lookup_missing d id :
  lookup d id = None <-> Forall (fun y => idOf y <> id) (items d).
Proof.
  unfold lookup. rewrite find_none_findIndex, findIndex_none. apply named_before.
Qed.

Lemma firstNamed_index d id before x after :
  firstNamed d id before x after ->
  findIndex (named id) (items d) = Some (length before)
  /\ nth_error (items d) (length before) = Some x.
Proof.
  intros (L & I & N). rewrite L. split; [|apply nth_error_middle].
  apply findIndex_skip; [apply named_before; exact N|].
  apply String.eqb_eq. exact I.
Qed.

Lemma removed_missing d id : lookup d id = None -> removed d id = (d, false).
Proof.
  unfold lookup, removed. rewrite find_none_findIndex. intros ->. reflexivity.
Qed.

Lemma removed_found d id before x after :
  firstNamed d id before x after ->
  removed d id = (withItems d (before ++ after), true).
Proof.
  intros H. destruct (firstNamed_index _ _ _ _ _ H) as [E _].
  unfold removed. rewrite E. destruct H as (-> & _). rewrite removeAt_middle.
  reflexivity.
Qed.

Lemma removed_others d id id' :
  id' <> id -> lookup (fst (removed d id)) id' = lookup d id'.
Proof.
  intros Hne. destruct (lookup d id) as [x|] eqn:E.
  - destruct (lookup_found _ _ _ E) as (b & a & H).
    rewrite (removed_found _ _ _ _ _ H). destruct H as (L & I & _).
    unfold lookup. simpl. rewrite items_with, L. symmetry. apply find_other.
    unfold named. apply String.eqb_neq. congruence.
  - rewrite (removed_missing _ _ E). reflexivity.
Qed.

Lemma removed_unique d id :
  NoDup (map idOf (items d)) -> lookup (fst (removed d id)) id = None.
Proof.
  intros ND. destruct (lookup d id) as [x|] eqn:E.
  - destruct (lookup_found _ _ _ E) as (b & a & H).
    rewrite (removed_found _ _ _ _ _ H). destruct H as (L & I & N).
    simpl. apply lookup_missing. rewrite items_with.
    rewrite L, map_app in ND. simpl in ND. apply NoDup_remove in ND as [_ ND].
    apply Forall_app. split; [exact N|].
    apply Forall_forall. intros y Hy E'. apply ND.
    apply in_or_app. right. rewrite I, <- E'. apply in_map. exact Hy.
  - rewrite (removed_missing _ _ E). exact E.
Qed.

Lemma replaced_missing now d id u :
  lookup d id = None -> replaced now d id u = (d, None).
Proof.
  unfold lookup, replaced. rewrite find_none_findIndex. intros ->. reflexivity.
Qed.

Lemma replaced_found now d id u before x after :
  firstNamed d id before x after ->
  replaced now d id u
  = (withItems d (before ++ merged now x u :: after), Some (merged now x u)).
Proof.
  intros H. destruct (firstNamed_index _ _ _ _ _ H) as [E N].
  unfold replaced. rewrite E, N. destruct H as (-> & _). rewrite setAt_middle.
  reflexivity.
Qed.

End Collection.

End StorageFacts.

(** ** Goals, categories: removal, replacement, names *)

Module StoreTheorems.
Import JsString JsNumber JsDate Types MoreTypes JsArray JsArrayOps Storage StorageManager.
Import ArrayFacts StorageFacts TransactionService.

Lemma goals_withGoals d l : ClawhubData.goals (withGoals d l) = l.
Proof. reflexivity. Qed.

(** X1: Deleting a goal: an unknown identifier fails and changes nothing; a
    known one removes the first goal so named and nothing else, leaves the
    lookup of every other identifier as it was, and, the identifiers being
    distinct, leaves no goal of that identifier. *)
Theorem deleteGoal_removes_first_match (d : ClawhubData.t) (id : string) :
  let d' := fst (GoalsQueries.deleteGoal d id) in
  let r := snd (GoalsQueries.deleteGoal d id) in
  (getGoalById d id = None ->
   d' = d /\ ActionResult.success r = false
   /\ ActionResult.error r = Some "Goal not found")
  /\ (forall g, getGoalById d id = Some g ->
        ActionResult.success r = true
        /\ exists before after,
             ClawhubData.goals d = before ++ g :: after
             /\ Forall (fun y => SavingsGoal.id y <> id) before
             /\ d' = withGoals d (before ++ after))
  /\ (forall id', id' <> id -> getGoalById d' id' = getGoalById d id')
  /\ (NoDup (map SavingsGoal.id (ClawhubData.goals d)) -> getGoalById d' id = None).
Proof.
  cbv zeta. unfold GoalsQueries.deleteGoal.
  change (StorageManager.deleteGoal d id)
    with (removed ClawhubData.goals withGoals SavingsGoal.id d id).
  change getGoalById with (lookup ClawhubData.goals SavingsGoal.id).
  split; [|split; [|split]].
  - intros E. rewrite (removed_missing _ _ _ _ _ E). simpl. auto.
  - intros g E. destruct (lookup_found _ _ _ _ _ E) as (b & a & H).
    rewrite (removed_found _ _ _ _ _ _ _ _ H). simpl. split; [reflexivity|].
    exists b, a. destruct H as (L & _ & N). auto.
  - intros id' Hne.
    rewrite <- (removed_others ClawhubData.goals withGoals SavingsGoal.id
                  goals_withGoals d id id' Hne).
    destruct (removed _ _ _ d id) as [d1 [|]]; reflexivity.
  - intros ND.
    rewrite <- (removed_unique ClawhubData.goals withGoals SavingsGoal.id
                  goals_withGoals d id ND) at 1.
    destruct (removed _ _ _ d id) as [d1 [|]]; reflexivity.
Qed.

(** X2: Updating a goal: an unknown identifier fails and changes nothing; a
    known one replaces the first goal so named by its merge with the
    updates, stamped with the current instant whatever the updates say,
    and, when the updates leave the identifier alone, the goal is then
    found under it. *)
Theorem updateGoal_replaces_first_match
        (now : Date) (d : ClawhubData.t) (id : string) (u : GoalUpdates.t) :
  (getGoalById d id = None ->
   GoalsQueries.updateGoal now d id u
   = (d, GoalsService.failure "Goal not found" ("No goal with ID: " ++ id)))
  /\ (forall g, getGoalById d id = Some g ->
        exists before after,
          ClawhubData.goals d = before ++ g :: after
          /\ Forall (fun y => SavingsGoal.id y <> id) before
          /\ GoalsQueries.updateGoal now d id u
             = (withGoals d (before ++ merge now g u :: after),
                ActionResult.mk true (Some (merge now g u))
                                "Goal updated successfully" None)
          /\ SavingsGoal.updatedAt (merge now g u) = now
          /\ (GoalUpdates.id u = None ->
              getGoalById (fst (GoalsQueries.updateGoal now d id u)) id
              = Some (merge now g u))).
Proof.
  unfold GoalsQueries.updateGoal. split.
  - intros E. rewrite E. reflexivity.
  - intros g E. rewrite E.
    change (Storage.updateGoal now d id u)
      with (replaced ClawhubData.goals withGoals SavingsGoal.id merge now d id u).
    change getGoalById with (lookup ClawhubData.goals SavingsGoal.id) in *.
    destruct (lookup_found _ _ _ _ _ E) as (b & a & H).
    rewrite (replaced_found _ _ _ _ _ _ _ _ _ _ _ H).
    destruct H as (L & I & N). exists b, a.
    split; [exact L|]. split; [exact N|]. split; [reflexivity|].
    split; [reflexivity|].
    intros Hid. unfold lookup. simpl.
    rewrite find_skip by (apply named_before; exact N).
    simpl. unfold named at 1. simpl. rewrite Hid. simpl. rewrite I, String.eqb_refl.
    reflexivity.
Qed.

(** X3: A default category is never deleted: the default categories are the
    same before and after, a deletion fails exactly when every category of
    that identifier is a default one, and a deletion that succeeds removes
    one category of that identifier that is not. *)
Theorem deleteCategory_keeps_defaults (categories : list Category.t) (id : string) :
  let categories' := fst (deleteCategory categories id) in
  let ok := snd (deleteCategory categories id) in
  filter Category.isDefault categories' = filter Category.isDefault categories
  /\ (ok = false <->
      forall c, In c categories -> Category.id c = id -> Category.isDefault c = true)
  /\ (ok = false -> categories' = categories)
  /\ (ok = true ->
      exists before c after,
        categories = before ++ c :: after /\ categories' = before ++ after
        /\ Category.id c = id /\ Category.isDefault c = false).
Proof.
  cbv zeta. unfold deleteCategory.
  set (p := fun c => (Category.id c =? id)%string && negb (Category.isDefault c)).
  destruct (findIndex p categories) as [i|] eqn:E; simpl.
  - destruct (findIndex_split _ _ _ E) as (b & c & a & -> & <- & Pc & N).
    rewrite removeAt_middle.
    unfold p in Pc. apply andb_true_iff in Pc as [Pi Pd].
    apply String.eqb_eq in Pi. apply negb_true_iff in Pd.
    split; [|split; [|split]].
    + rewrite !filter_app. simpl. rewrite Pd. reflexivity.
    + split; [discriminate|]. intros H.
      assert (Category.isDefault c = true)
        by (apply H; [apply in_or_app; right; left; reflexivity|exact Pi]).
      congruence.
    + discriminate.
    + intros _. exists b, c, a. auto.
  - split; [reflexivity|]. split; [|split; [reflexivity|discriminate]].
    split; [|reflexivity]. intros _ c Hc Hi.
    apply findIndex_none in E. rewrite forallb_forall in E.
    specialize (E c Hc). unfold p in E.
    apply String.eqb_eq in Hi. rewrite Hi in E. simpl in E.
    rewrite negb_involutive in E. exact E.
Qed.

(** X4: The stored spelling of a category: the name a transaction is stored
    under differs from the one given in letter case at most, normalising
    twice changes nothing more, and a name that no category bears is
    kept. *)
Theorem normalizeCategory_same_name (categories : list Category.t) (c : string) :
  toLowerCase (normalizeCategory categories c) = toLowerCase c
  /\ normalizeCategory categories (normalizeCategory categories c)
     = normalizeCategory categories c
  /\ (getCategoryByName categories c = None -> normalizeCategory categories c = c).
Proof.
  unfold normalizeCategory.
  destruct (getCategoryByName categories c) as [e|] eqn:E.
  - assert (L : toLowerCase (Category.name e) = toLowerCase c).
    { unfold getCategoryByName in E. apply find_some in E as [_ E].
      apply String.eqb_eq in E. exact E. }
    destruct (isEmpty (Category.name e)) eqn:Em.
    + rewrite E, Em. split; [reflexivity|]. split; [reflexivity|discriminate].
    + assert (E' : getCategoryByName categories (Category.name e) = Some e).
      { unfold getCategoryByName in *. rewrite L. exact E. }
      rewrite E', Em. split; [exact L|]. split; [reflexivity|discriminate].
  - rewrite E. auto.
Qed.

End StoreTheorems.

(** ** The parser: what its stages decide *)

Module ParserMore.
Import JsString Regex JsNumber JsDate Types MoreTypes LlmParser CalendarFacts ParserFacts.
Import StorageManager TransactionService.

(** *** Texts *)

Lemma startsWith_app s a b : startsWith s (a ++ b) = true -> startsWith s a = true.
Proof.
  revert s. induction a as [|c a IH]; intros s; simpl; [destruct s; reflexivity|].
  destruct s as [|c' s]; [discriminate|].
  intros H. apply andb_true_iff in H as [H1 H2].
  simpl. rewrite H1. simpl. auto.
Qed.

Lemma includes_app s a b : includes s (a ++ b) = true -> includes s a = true.
Proof.
  induction s as [|c s IH]; cbn -[startsWith].
  - rewrite !orb_false_r. apply startsWith_app.
  - intros H. apply orb_true_iff in H as [H|H].
    + rewrite (startsWith_app _ _ _ H). reflexivity.
    + rewrite (IH H). apply orb_true_r.
Qed.

Lemma toLowerChar_twice c : toLowerChar (toLowerChar c) = toLowerChar c.
Proof. destruct c as [[] [] [] [] [] [] [] []]; reflexivity. Qed.

Lemma isSpace_lower c : isSpace (toLowerChar c) = isSpace c.
Proof. destruct c as [[] [] [] [] [] [] [] []]; reflexivity. Qed.

Lemma toLowerCase_twice s : toLowerCase (toLowerCase s) = toLowerCase s.
Proof. induction s as [|c s IH]; simpl; [reflexivity|]. rewrite toLowerChar_twice, IH. reflexivity. Qed.

Lemma trimStart_lower s : trimStart (toLowerCase s) = toLowerCase (trimStart s).
Proof.
  induction s as [|c s IH]; simpl; [reflexivity|].
  rewrite isSpace_lower. destruct (isSpace c); [exact IH|reflexivity].
Qed.

Lemma trimEnd_lower s : trimEnd (toLowerCase s) = toLowerCase (trimEnd s).
Proof.
  induction s as [|c s IH]; simpl; [reflexivity|].
  rewrite IH, isSpace_lower.
  destruct (trimEnd s); simpl; [destruct (isSpace c)|]; reflexivity.
Qed.

Lemma trimEnd_twice s : trimEnd (trimEnd s) = trimEnd s.
Proof.
  induction s as [|c s IH]; simpl; [reflexivity|].
  destruct (trimEnd s) as [|c' t] eqn:E.
  - destruct (isSpace c) eqn:Sp; simpl; [reflexivity|]. rewrite Sp. reflexivity.
  - simpl in *. rewrite IH. reflexivity.
Qed.

(** A text that does not begin with white space. *)
Definition startsClean (s : string) : bool :=
  match s with
  | EmptyString => true
  | String c _ => negb (isSpace c)
  end.

Lemma trimStart_clean s : startsClean (trimStart s) = true.
Proof.
  induction s as [|c s IH]; simpl; [reflexivity|].
  destruct (isSpace c) eqn:Sp; [exact IH|]. simpl. rewrite Sp. reflexivity.
Qed.

Lemma trimStart_of_clean s : startsClean s = true -> trimStart s = s.
Proof.
  destruct s as [|c s]; simpl; [reflexivity|].
  intros H. apply negb_true_iff in H. rewrite H. reflexivity.
Qed.

Lemma trimEnd_clean s : startsClean s = true -> startsClean (trimEnd s) = true.
Proof.
  destruct s as [|c s]; simpl; [reflexivity|].
  intros H. destruct (trimEnd s); simpl; [|exact H].
  apply negb_true_iff in H. rewrite H. simpl. rewrite H. reflexivity.
Qed.

Lemma trim_twice s : trim (trim s) = trim s.
Proof.
  unfold trim.
  rewrite (trimStart_of_clean (trimEnd (trimStart s)))
    by (apply trimEnd_clean, trimStart_clean).
  apply trimEnd_twice.
Qed.

Lemma trim_lower s : trim (toLowerCase s) = toLowerCase (trim s).
Proof. unfold trim. rewrite trimStart_lower, trimEnd_lower. reflexivity. Qed.

Lemma normalize_twice s : normalize (normalize s) = normalize s.
Proof.
  unfold normalize. rewrite !trim_lower, toLowerCase_twice, trim_twice. reflexivity.
Qed.

(** *** The type *)

Lemma expense_keyword_wins s kw :
  In kw EXPENSE_KEYWORDS -> includes s kw = true ->
  determineTransactionType s = Some expense.
Proof.
  intros Hin Hk. unfold determineTransactionType.
  assert (E : existsb (includes s) EXPENSE_KEYWORDS = true)
    by (apply existsb_exists; eauto).
  rewrite E. destruct (existsb (includes s) INCOME_KEYWORDS); reflexivity.
Qed.

(** X5: An expense keyword decides the type, whatever else the text holds.
    One of the income keywords, "payment from", begins with the expense
    keyword "payment": a text that holds it is an expense. *)
Theorem expense_keyword_decides_type
        (zone : TimeZone.t) (now : Date) (input : string) (r : ParsedTransaction) :
  parseNaturalLanguage zone now input = Some r ->
  (forall kw, In kw EXPENSE_KEYWORDS -> includes (normalize input) kw = true ->
              type r = expense)
  /\ (includes (normalize input) "payment from" = true -> type r = expense)
  /\ In "payment from" INCOME_KEYWORDS.
Proof.
  intros H. apply parse_some in H as (Ht & _).
  assert (G : forall kw, In kw EXPENSE_KEYWORDS ->
                         includes (normalize input) kw = true -> type r = expense).
  { intros kw Hin Hk. rewrite (expense_keyword_wins _ _ Hin Hk) in Ht. congruence. }
  split; [exact G|]. split.
  - intros Hk. apply (G "payment"); [simpl; tauto|].
    apply (includes_app _ "payment" " from"). exact Hk.
  - simpl. tauto.
Qed.

Lemma expense_keyword_witness :
  exists r, parseNaturalLanguage TimeZone.utc 0 "Payment from client 500" = Some r
            /\ type r = expense.
Proof.
  eexists. split; [vm_compute; reflexivity|].
  apply (expense_keyword_decides_type TimeZone.utc 0 "Payment from client 500");
    vm_compute; reflexivity.
Defined.

(** *** The category and the description *)

Lemma firstCategory_in s table cat :
  firstCategory s table = Some cat -> In cat (map fst table).
Proof.
  induction table as [|[c kws] table IH]; simpl; [discriminate|].
  destruct (existsb (includes s) kws); [intros [= <-]; auto|auto].
Qed.

Lemma extractCategory_in s :
  In (extractCategory s) (map fst CATEGORY_KEYWORDS ++ ["Other Expenses"]).
Proof.
  unfold extractCategory.
  destruct (firstCategory s CATEGORY_KEYWORDS) as [cat|] eqn:E.
  - apply in_or_app. left. exact (firstCategory_in _ _ _ E).
  - apply in_or_app. right. left. reflexivity.
Qed.

Lemma capitalize_empty s : isEmpty (capitalize s) = isEmpty s.
Proof. destruct s; reflexivity. Qed.

Lemma extractDescription_filled s category :
  isEmpty category = false -> isEmpty (extractDescription s category) = false.
Proof.
  intros H. unfold extractDescription.
  set (desc := trim _).
  destruct (isEmpty desc) eqn:E.
  - rewrite E. exact H.
  - rewrite capitalize_empty, E. rewrite capitalize_empty. exact E.
Qed.

(** X6: Every result of the parser is filed under one of the parser's eleven
    categories or under "Other Expenses", each of which is the name of a
    default category and so is stored as it is; its description is never
    empty; and an income that names no category is filed under "Other
    Expenses". *)
Theorem parsed_category_is_a_default_one
        (zone : TimeZone.t) (now : Date) (input : string) (r : ParsedTransaction) :
  parseNaturalLanguage zone now input = Some r ->
  In (category r) (map fst CATEGORY_KEYWORDS ++ ["Other Expenses"])
  /\ In (category r) (map Category.name (getDefaultCategories now))
  /\ normalizeCategory (getDefaultCategories now) (category r) = category r
  /\ isEmpty (description r) = false
  /\ (noCategoryKeyword (normalize input) = true -> category r = "Other Expenses").
Proof.
  intros H. pose proof H as H0. apply parse_some in H as (_ & _ & Hc & _ & _).
  assert (I : In (category r) (map fst CATEGORY_KEYWORDS ++ ["Other Expenses"]))
    by (rewrite Hc; apply extractCategory_in).
  split; [exact I|].
  assert (K : In (category r) (map Category.name (getDefaultCategories now))
              /\ normalizeCategory (getDefaultCategories now) (category r) = category r
              /\ isEmpty (category r) = false).
  { simpl in I.
    repeat (destruct I as [<-|I]; [split; [simpl; tauto|split; reflexivity]|]).
    destruct I. }
  destruct K as (K1 & K2 & K3).
  split; [exact K1|]. split; [exact K2|]. split.
  - unfold parseNaturalLanguage in H0.
    destruct (determineTransactionType (normalize input)); [|discriminate].
    destruct (extractAmount (normalize input)); [|discriminate].
    injection H0 as <-. simpl. apply extractDescription_filled.
    rewrite <- Hc. exact K3.
  - intros N. rewrite Hc. apply extractCategory_default. exact N.
Qed.

Lemma parsed_category_witness :
  exists r, parseNaturalLanguage TimeZone.utc 0 "received 100 from bob" = Some r
            /\ type r = income /\ category r = "Other Expenses"
            /\ isEmpty (description r) = false.
Proof.
  eexists. split; [vm_compute; reflexivity|].
  split; [reflexivity|].
  pose proof (parsed_category_is_a_default_one TimeZone.utc 0 "received 100 from bob" _
                ltac:(vm_compute; reflexivity)) as (_ & _ & _ & D & C).
  split; [apply C; vm_compute; reflexivity|exact D].
Defined.

(** *** Letter case and padding *)

(** X7: The parse of a text depends on its lower-case, trimmed form only: the
    text and that form give the same fields, the raw input apart, or both
    give nothing. *)
Theorem parse_ignores_case_and_padding
        (zone : TimeZone.t) (now : Date) (input : string) :
  match parseNaturalLanguage zone now input,
        parseNaturalLanguage zone now (normalize input) with
  | Some r, Some r' =>
      type r = type r' /\ amount r = amount r' /\ category r = category r'
      /\ description r = description r' /\ date r = date r'
      /\ confidence r = confidence r'
      /\ rawInput r = input /\ rawInput r' = normalize input
  | None, None => True
  | _, _ => False
  end.
Proof.
  unfold parseNaturalLanguage. rewrite normalize_twice.
  destruct (determineTransactionType (normalize input)); [|exact I].
  destruct (extractAmount (normalize input)); [|exact I].
  simpl. repeat split.
Qed.

(** *** Relative dates *)

(** The instant whose local time value is that of [now] less [n] days. *)
Definition daysBack (zone : TimeZone.t) (now : Date) (n : Z) : Date :=
  TimeZone.utcOf zone (TimeZone.localTime zone now - n * msPerDay).

(** X8: "today" gives the current date and wins over the other two words;
    "yesterday" gives the date of the instant one day back in local time,
    and "last week" that of the instant seven days back, across the ends
    of months and years; where the offset of the host from UTC is the same
    at both instants, these are the dates one day and seven days before
    the current one. *)
Theorem relative_dates_count_days_back (zone : TimeZone.t) (now : Date) (s : string) :
  (includes s "today" = true -> extractDate zone now s = toIsoDate now)
  /\ (includes s "today" = false -> includes s "yesterday" = true ->
      extractDate zone now s = toIsoDate (daysBack zone now 1))
  /\ (includes s "today" = false -> includes s "yesterday" = false ->
      includes s "last week" = true ->
      extractDate zone now s = toIsoDate (daysBack zone now 7))
  /\ (forall n,
        TimeZone.offsetOfLocal zone (TimeZone.localTime zone now - n * msPerDay)
        = TimeZone.offsetAt zone now ->
        toIsoDate (daysBack zone now n) = toIsoDate now - n).
Proof.
  unfold extractDate, formatDateISO, daysBack.
  split; [|split; [|split]].
  - intros ->. reflexivity.
  - intros -> ->. rewrite local_setDate_back. reflexivity.
  - intros -> -> ->. rewrite local_setDate_back. reflexivity.
  - intros n H. unfold TimeZone.utcOf. rewrite H.
    unfold TimeZone.localTime, toIsoDate.
    replace (now + TimeZone.offsetAt zone now - n * msPerDay - TimeZone.offsetAt zone now)
      with (now - n * msPerDay) by ring.
    apply dayOf_back.
Qed.

(** *** The confidence *)

(** X9: The confidence of a result takes one of four values, chosen by whether
    the category is the fallback and whether the date is the current day;
    the largest is the double just below 1, so the cap at 1 is never what
    is returned. *)
Theorem confidence_is_one_of_four
        (zone : TimeZone.t) (now : Date) (input : string) (r : ParsedTransaction) :
  parseNaturalLanguage zone now input = Some r ->
  confidence r
  = (if String.eqb (category r) "Other Expenses"
     then if (date r =? toIsoDate now)%Z then 0x1.6666666666666p-1%float
          else 0x1.9999999999999p-1%float
     else if (date r =? toIsoDate now)%Z then 0x1.cccccccccccccp-1%float
          else 0x1.fffffffffffffp-1%float)
  /\ PrimFloat.ltb (confidence r) 1 = true.
Proof.
  intros H. apply parse_some in H as (_ & Ha & _ & _ & Hc).
  apply extractAmount_accepted in Ha. rewrite accepted_gt0 in Ha.
  rewrite Hc. unfold calculateConfidence, formatDateISO. simpl someGt0. rewrite Ha.
  destruct (String.eqb (category r) "Other Expenses"),
           (date r =? toIsoDate now)%Z; split; vm_compute; reflexivity.
Qed.

Lemma confidence_witness :
  exists r, parseNaturalLanguage TimeZone.utc 0 "spent 12 on lunch today" = Some r
            /\ confidence r = 0x1.cccccccccccccp-1%float.
Proof.
  eexists. split; [vm_compute; reflexivity|].
  exact (proj1 (confidence_is_one_of_four TimeZone.utc 0 "spent 12 on lunch today" _
                  ltac:(vm_compute; reflexivity))).
Defined.

(** *** Dates given by month and day *)

Lemma newDate_day year monthIndex day :
  exists n, newDate year monthIndex day = (n * msPerDay)%Z.
Proof. unfold newDate, atMidnight. eexists. reflexivity. Qed.

(** X14: [new Date(year, monthIndex, day)] is a local midnight, and
    [formatDateISO] reads it in UTC: on a host that keeps an offset east
    of Greenwich the date returned is the day before the one meant; at
    Greenwich and west of it, that day.  An hour east of Greenwich,
    "march 5" in a text read in 2026 gives the fourth of March. *)
Theorem month_and_day_read_a_day_early_east_of_greenwich :
  (forall offset year monthIndex day,
      (0 < offset <= msPerDay)%Z ->
      formatDateISO (LocalTime.newDate (TimeZone.fixed offset) year monthIndex day)
      = (dayOf (newDate year monthIndex day) - 1)%Z)
  /\ (forall offset year monthIndex day,
        (- msPerDay < offset <= 0)%Z ->
        formatDateISO (LocalTime.newDate (TimeZone.fixed offset) year monthIndex day)
        = dayOf (newDate year monthIndex day))
  /\ (exists r,
        parseNaturalLanguage (TimeZone.fixed TimeZone.msPerHour)
                             BudgetFacts.novemberNoon "lunch on march 5 cost $20"
        = Some r
        /\ type r = expense /\ amount r = Fin 20
        /\ date r = daysFromCivil 2026 3 4)
  /\ (exists r,
        parseNaturalLanguage TimeZone.utc
                             BudgetFacts.novemberNoon "lunch on march 5 cost $20"
        = Some r
        /\ date r = daysFromCivil 2026 3 5).
Proof.
  split; [|split; [|split]].
  - intros offset year monthIndex day H.
    unfold formatDateISO, toIsoDate, LocalTime.newDate, TimeZone.utcOf. simpl.
    destruct (newDate_day year monthIndex day) as (n & ->).
    rewrite dayOf_mul.
    replace (n * msPerDay - offset)%Z
      with ((n - 1) * msPerDay + (msPerDay - offset))%Z by ring.
    apply dayOf_mul_add. lia.
  - intros offset year monthIndex day H.
    unfold formatDateISO, toIsoDate, LocalTime.newDate, TimeZone.utcOf. simpl.
    destruct (newDate_day year monthIndex day) as (n & ->).
    rewrite dayOf_mul.
    replace (n * msPerDay - offset)%Z with (n * msPerDay + (- offset))%Z by ring.
    apply dayOf_mul_add. lia.
  - eexists. split; [vm_compute; reflexivity|].
    split; [reflexivity|]. split; [reflexivity|]. vm_compute. reflexivity.
  - eexists. split; [vm_compute; reflexivity|]. vm_compute. reflexivity.
Qed.

End ParserMore.

(** ** Sanitising *)

Module TextFacts.
Import JsString Sanitizer.

Fixpoint hasChar (p : ascii -> bool) (s : string) : bool :=
  match s with
  | EmptyString => false
  | String c s' => p c || hasChar p s'
  end.

Lemma removeChars_clean p s : hasChar p (removeChars p s) = false.
Proof.
  induction s as [|c s IH]; simpl; [reflexivity|].
  destruct (p c) eqn:E; simpl; [exact IH|]. rewrite E, IH. reflexivity.
Qed.

Lemma removeChars_same p s : hasChar p s = false -> removeChars p s = s.
Proof.
  induction s as [|c s IH]; simpl; [reflexivity|].
  intros H. apply orb_false_iff in H as [H1 H2]. rewrite H1, IH by exact H2. reflexivity.
Qed.

Lemma includes_char p c s :
  p c = true -> hasChar p s = false -> includes s (String c EmptyString) = false.
Proof.
  intros Pc. induction s as [|c' s IH]; simpl; [reflexivity|].
  intros H. apply orb_false_iff in H as [H1 H2].
  rewrite (IH H2), orb_false_r.
  destruct (Ascii.eqb_spec c c') as [->|N]; [congruence|reflexivity].
Qed.

Lemma hasChar_trimStart p s : hasChar p s = false -> hasChar p (trimStart s) = false.
Proof.
  induction s as [|c s IH]; simpl; [reflexivity|].
  intros H. destruct (isSpace c); [|exact H].
  apply orb_false_iff in H as [_ H]. auto.
Qed.

Lemma hasChar_trimEnd p s : hasChar p s = false -> hasChar p (trimEnd s) = false.
Proof.
  induction s as [|c s IH]; simpl; [reflexivity|].
  intros H. apply orb_false_iff in H as [H1 H2]. specialize (IH H2).
  destruct (trimEnd s); simpl in *.
  - destruct (isSpace c); simpl; [reflexivity|]. rewrite H1. reflexivity.
  - rewrite H1. exact IH.
Qed.

(** X10: A sanitised text holds neither [<] nor [>]; a text that held none is
    trimmed and nothing more; sanitising again only trims again, which can
    still change the text: what stood behind a removed bracket is not
    trimmed the first time. *)
Theorem sanitizeString_removes_angle_brackets (str : string) :
  includes (sanitizeString str) "<" = false
  /\ includes (sanitizeString str) ">" = false
  /\ (hasChar isAngle str = false -> sanitizeString str = trim str)
  /\ sanitizeString (sanitizeString str) = trim (sanitizeString str)
  /\ sanitizeString "< a" = " a".
Proof.
  unfold sanitizeString.
  pose proof (removeChars_clean isAngle (trim str)) as C.
  split; [apply (includes_char isAngle); [reflexivity|exact C]|].
  split; [apply (includes_char isAngle); [reflexivity|exact C]|].
  split.
  - intros H. apply removeChars_same. unfold trim.
    apply hasChar_trimEnd, hasChar_trimStart, H.
  - split; [|reflexivity]. apply removeChars_same. unfold trim.
    apply hasChar_trimEnd, hasChar_trimStart, C.
Qed.

End TextFacts.

(** ** The transaction queries *)

Module TransactionFacts.
Import JsString JsNumber JsDate Types MoreTypes JsArray JsArrayOps.
Import Storage StorageManager TransactionService.
Import BudgetFacts SortFacts.
Local Open Scope Q_scope.

(** *** Sorting *)

(** The order of a sort depends on the comparator through the sign of its
    values only. *)
Lemma insertSorted_ext {A : Type} (f g : A -> A -> Q) (x : A) (l : list A) :
  (forall a b, Qltb 0 (f a b) = Qltb 0 (g a b)) ->
  insertSorted f x l = insertSorted g x l.
Proof.
  intros H. induction l as [|y l IH]; simpl; [reflexivity|].
  rewrite H, IH. reflexivity.
Qed.

Lemma sort_ext {A : Type} (f g : A -> A -> Q) (l : list A) :
  (forall a b, Qltb 0 (f a b) = Qltb 0 (g a b)) -> sort f l = sort g l.
Proof.
  intros H. induction l as [|x l IH]; simpl; [reflexivity|].
  rewrite IH. apply insertSorted_ext, H.
Qed.

Lemma Qltb_ext (a b : Q) : a == b -> Qltb 0 a = Qltb 0 b.
Proof.
  intros E. unfold Qltb. f_equal.
  destruct (Qle_bool a 0) eqn:A, (Qle_bool b 0) eqn:B; try reflexivity.
  - apply Qle_bool_iff in A. rewrite E in A. apply Qle_bool_iff in A. congruence.
  - apply Qle_bool_iff in B. rewrite <- E in B. apply Qle_bool_iff in B. congruence.
Qed.

(** The test of one optional filter: passed when the option is absent. *)
Definition passes {A B : Type} (cond : option B) (p : B -> A -> bool) (x : A) : bool :=
  match cond with
  | Some c => p c x
  | None => true
  end.

(** The transactions that [getTransactions] keeps under the options [o]. *)
Definition keeps (o : Options.t) (t : Transaction.t) : bool :=
  passes (Options.type o) (fun ty t => TransactionType_eqb (Transaction.type t) ty) t
  && passes (nonEmpty (Options.category o))
            (fun c t => String.eqb (toLowerCase (Transaction.category t)) (toLowerCase c)) t
  && passes (Options.startDate o) (fun s t => (s <=? Transaction.date t)%Z) t
  && passes (Options.endDate o) (fun e t => (Transaction.date t <=? e)%Z) t
  && passes (Options.minAmount o) (fun m t => Qle_bool m (Transaction.amount t)) t
  && passes (Options.maxAmount o) (fun m t => Qle_bool (Transaction.amount t) m) t
  && passes (nonEmptyList (Options.tags o)) hasTagOf t
  && passes (nonEmpty (Options.search o)) matchesSearch t.

Definition given {B : Type} (o : option B) : bool :=
  match o with Some _ => true | None => false end.

(** Whether the options [o] make [getTransactions] filter at all. *)
Definition filtering (o : Options.t) : bool :=
  given (Options.type o) || given (nonEmpty (Options.category o))
  || given (Options.startDate o) || given (Options.endDate o)
  || given (Options.minAmount o) || given (Options.maxAmount o)
  || given (nonEmptyList (Options.tags o)) || given (nonEmpty (Options.search o)).

Lemma filter_true {A : Type} (l : list A) : filter (fun _ => true) l = l.
Proof. induction l as [|x l IH]; simpl; [|rewrite IH]; reflexivity. Qed.

Lemma filter_filter {A : Type} (p q : A -> bool) (l : list A) :
  filter q (filter p l) = filter (fun x => p x && q x) l.
Proof.
  induction l as [|x l IH]; simpl; [reflexivity|].
  destruct (p x); simpl; [destruct (q x); rewrite IH|rewrite IH]; reflexivity.
Qed.

Lemma filterIf_spec {A B : Type} (cond : option B) (p : B -> A -> bool)
      (q : A -> bool) (l : list A) (held : Held A) (b : bool) :
  held = (filter q l, b) ->
  filterIf cond p held
  = (filter (fun x => q x && passes cond p x) l, b && negb (given cond)).
Proof.
  intros ->. unfold filterIf, passes, given. destruct cond as [c|]; cbn [fst snd].
  - rewrite filter_filter, andb_false_r. reflexivity.
  - rewrite andb_true_r. f_equal. apply filter_ext. intros x. rewrite andb_true_r.
    reflexivity.
Qed.

Definition byDate (t : Transaction.t) : Q := inject_Z (ofIso (Transaction.date t)).

Lemma sort_byDate l : sort byDateDescending l = sort (descending byDate) l.
Proof.
  apply sort_ext. intros a b. apply Qltb_ext.
  unfold byDateDescending, descending, byDate.
  unfold Z.sub. rewrite inject_Z_plus, inject_Z_opp. reflexivity.
Qed.

(** The array that is sorted, and whether it is the stored one. *)
Lemma getTransactions_chain d o :
  getTransactions d (Some o)
  = let sorted := sort byDateDescending (filter (keeps o) (ClawhubData.transactions d)) in
    (if negb (filtering o) then withTransactions d sorted else d,
     match nonZero (Options.limit o) with
     | Some n => sliceTo n sorted
     | None => sorted
     end).
Proof.
  unfold getTransactions. cbv zeta. cbn [orElse].
  unfold Storage.getTransactions.
  set (l := ClawhubData.transactions d).
  assert (S0 : (l, true) = (filter (fun _ => true) l, true)) by (rewrite filter_true; reflexivity).
  rewrite S0.
  rewrite (filterIf_spec (Options.type o) _ _ l _ _ eq_refl).
  rewrite (filterIf_spec (nonEmpty (Options.category o)) _ _ l _ _ eq_refl).
  rewrite (filterIf_spec (Options.startDate o) _ _ l _ _ eq_refl).
  rewrite (filterIf_spec (Options.endDate o) _ _ l _ _ eq_refl).
  rewrite (filterIf_spec (Options.minAmount o) _ _ l _ _ eq_refl).
  rewrite (filterIf_spec (Options.maxAmount o) _ _ l _ _ eq_refl).
  rewrite (filterIf_spec (nonEmptyList (Options.tags o)) _ _ l _ _ eq_refl).
  rewrite (filterIf_spec (nonEmpty (Options.search o)) _ _ l _ _ eq_refl).
  cbn [fst snd].
  replace (true && negb (given (Options.type o))
           && negb (given (nonEmpty (Options.category o)))
           && negb (given (Options.startDate o)) && negb (given (Options.endDate o))
           && negb (given (Options.minAmount o)) && negb (given (Options.maxAmount o))
           && negb (given (nonEmptyList (Options.tags o)))
           && negb (given (nonEmpty (Options.search o))))
    with (negb (filtering o))
    by (unfold filtering; rewrite !negb_orb; reflexivity).
  rewrite (filter_ext _ (keeps o)) by (intros t; reflexivity).
  reflexivity.
Qed.

(** What is returned was stored and passes every filter given. *)
Lemma getTransactions_kept d o t :
  In t (snd (getTransactions d (Some o))) ->
  In t (ClawhubData.transactions d) /\ keeps o t = true.
Proof.
  rewrite getTransactions_chain. cbv zeta. cbn [snd]. intros H.
  assert (S : In t (sort byDateDescending (filter (keeps o) (ClawhubData.transactions d)))).
  { destruct (nonZero (Options.limit o)) as [n|]; [|exact H].
    unfold sliceTo in H.
    destruct (n <? 0)%Z;
      match type of H with
      | In _ (firstn ?k ?l) =>
          rewrite <- (firstn_skipn k l); apply in_or_app; left; exact H
      end. }
  rewrite sort_byDate in S.
  apply (Permutation_in _ (sort_perm byDate _)), filter_In in S. exact S.
Qed.

(** X11: What [getTransactions] returns: only stored transactions that pass
    every filter given, the most recent first; without a limit, or with a
    limit of zero, each of them once; with a positive limit, the first
    that many of that list. *)
Theorem getTransactions_result (d : ClawhubData.t) (o : Options.t) :
  let result := snd (getTransactions d (Some o)) in
  let matching := filter (keeps o) (ClawhubData.transactions d) in
  (forall t, In t result -> In t (ClawhubData.transactions d) /\ keeps o t = true)
  /\ nonIncreasing byDate result
  /\ (nonZero (Options.limit o) = None -> Permutation result matching)
  /\ (forall n, Options.limit o = Some n -> (0 < n)%Z ->
        (Z.of_nat (length result) <= n)%Z
        /\ exists rest,
             Permutation (result ++ rest) matching
             /\ forall t t', In t result -> In t' rest -> byDate t' <= byDate t).
Proof.
  cbv zeta. rewrite getTransactions_chain. cbv zeta. cbn [snd].
  set (matching := filter (keeps o) (ClawhubData.transactions d)).
  rewrite sort_byDate.
  pose proof (sort_perm byDate matching) as P.
  pose proof (sort_sorted byDate matching) as S.
  set (sorted := sort (descending byDate) matching) in *.
  assert (F : forall k, nonIncreasing byDate (firstn k sorted)).
  { intros k. clearbody sorted. clear P. revert k.
    induction S as [|x l Hs IH Hx]; intros [|k]; simpl; try constructor.
    - apply IH.
    - apply Forall_forall. intros y Hy. rewrite Forall_forall in Hx. apply Hx.
      rewrite <- (firstn_skipn k l). apply in_or_app. left. exact Hy. }
  assert (R : exists k, match nonZero (Options.limit o) with
                        | Some n => sliceTo n sorted
                        | None => sorted
                        end = firstn k sorted
                        /\ (nonZero (Options.limit o) = None -> k = length sorted)
                        /\ (forall n, Options.limit o = Some n -> (0 < n)%Z ->
                                      k = Z.to_nat n)).
  { destruct (Options.limit o) as [n|]; cbn [nonZero].
    - destruct n as [|n|n]; cbn [nonZero].
      + exists (length sorted). rewrite firstn_all. split; [reflexivity|].
        split; [reflexivity|]. intros n [= <-]. lia.
      + exists (Z.to_nat (Z.pos n)). split; [reflexivity|].
        split; [discriminate|]. intros n' [= <-] _. reflexivity.
      + eexists. split; [unfold sliceTo; reflexivity|].
        split; [discriminate|]. intros n' [= <-]. lia.
    - exists (length sorted). rewrite firstn_all. split; [reflexivity|].
      split; [reflexivity|discriminate]. }
  destruct R as (k & -> & Knone & Ksome).
  split; [|split; [|split]].
  - intros t H.
    assert (In t sorted)
      by (rewrite <- (firstn_skipn k sorted); apply in_or_app; left; exact H).
    apply (Permutation_in _ P), filter_In in H0. exact H0.
  - apply F.
  - intros N. rewrite (Knone N), firstn_all. exact P.
  - intros n Hn Hpos. rewrite (Ksome n Hn Hpos). split.
    + pose proof (firstn_le_length (Z.to_nat n) sorted). lia.
    + exists (skipn (Z.to_nat n) sorted). split.
      * rewrite firstn_skipn. exact P.
      * intros t t' Ht Ht'.
        exact (firstn_above_rest byDate (Z.to_nat n) sorted t t' S Ht Ht').
Qed.

(** X12: [sort] sorts the stored array itself when no filter has made a new
    one: a call without any filter, among them every call for the recent
    transactions, leaves the stored transactions in the order of their
    dates, the most recent first; a call with a filter, among them every
    call for the expenses or for the income, leaves the document as it
    was.  The expenses asked for are expenses whatever type the options
    name, and a count of zero recent transactions gives them all. *)
Theorem getTransactions_sorts_the_stored_array (d : ClawhubData.t) :
  let sorted := sort byDateDescending (ClawhubData.transactions d) in
  (forall o, filtering o = false ->
             fst (getTransactions d (Some o)) = withTransactions d sorted)
  /\ (forall o, filtering o = true -> fst (getTransactions d (Some o)) = d)
  /\ fst (getTransactions d None) = withTransactions d sorted
  /\ (forall count, fst (getRecentTransactions d count) = withTransactions d sorted)
  /\ snd (getRecentTransactions d 0) = sorted
  /\ Permutation sorted (ClawhubData.transactions d)
  /\ nonIncreasing byDate sorted
  /\ (forall options, fst (getExpenses d options) = d
                      /\ fst (getIncome d options) = d)
  /\ (forall options t, In t (snd (getExpenses d options)) ->
                        Transaction.type t = expense).
Proof.
  cbv zeta.
  assert (K : forall o, filtering o = false ->
                filter (keeps o) (ClawhubData.transactions d) = ClawhubData.transactions d).
  { intros o H. unfold filtering in H. repeat (apply orb_false_iff in H as [H ?]).
    rewrite <- (filter_true (ClawhubData.transactions d)) at 2.
    apply filter_ext. intros t. unfold keeps, passes.
    destruct (Options.type o); [discriminate|].
    destruct (nonEmpty (Options.category o)); [discriminate|].
    destruct (Options.startDate o); [discriminate|].
    destruct (Options.endDate o); [discriminate|].
    destruct (Options.minAmount o); [discriminate|].
    destruct (Options.maxAmount o); [discriminate|].
    destruct (nonEmptyList (Options.tags o)); [discriminate|].
    destruct (nonEmpty (Options.search o)); [discriminate|]. reflexivity. }
  assert (N : forall o, filtering o = false ->
                getTransactions d (Some o)
                = (withTransactions d (sort byDateDescending (ClawhubData.transactions d)),
                   match nonZero (Options.limit o) with
                   | Some n => sliceTo n (sort byDateDescending (ClawhubData.transactions d))
                   | None => sort byDateDescending (ClawhubData.transactions d)
                   end)).
  { intros o H. rewrite getTransactions_chain. cbv zeta. rewrite H, (K o H). reflexivity. }
  split; [intros o H; rewrite (N o H); reflexivity|].
  split; [intros o H; rewrite getTransactions_chain; cbv zeta; rewrite H; reflexivity|].
  split; [exact (f_equal fst (N Options.none eq_refl))|].
  split; [intros count; unfold getRecentTransactions; rewrite N; reflexivity|].
  split; [unfold getRecentTransactions; rewrite N; reflexivity|].
  split; [rewrite sort_byDate; apply sort_perm|].
  split; [rewrite sort_byDate; apply sort_sorted|].
  split.
  - intros options. unfold getExpenses, getIncome.
    rewrite !getTransactions_chain. cbv zeta. split; reflexivity.
  - intros options t H. unfold getExpenses in H.
    apply getTransactions_kept in H as [_ H].
    unfold keeps in H. repeat (apply andb_true_iff in H as [H _]).
    cbn [withType Options.type passes] in H.
    destruct (Transaction.type t); [reflexivity|discriminate].
Qed.

End TransactionFacts.

(** ** The alerts *)

Module BudgetMore.
Import JsString JsNumber JsDate Types JsArray JsArrayOps.
Import Storage StorageManager BudgetEngine TransactionService BudgetOperations.
Local Open Scope Q_scope.

Section Host.

Variable zone : TimeZone.t.

Variable show : Q -> string.
Variable fixed : Q -> string.

Definition alerting (now : Date) (d : ClawhubData.t) (b : Budget.t) : bool :=
  match BudgetStatus.status (calculateBudgetStatus zone now d b) with
  | under => false
  | _ => true
  end.

Lemma alertFor_budget now d b :
  map Alert.budget (alertFor zone show fixed now d b)
  = if alerting now d b then [b] else [].
Proof.
  unfold alertFor, alerting.
  destruct (BudgetStatus.status (calculateBudgetStatus zone now d b)); reflexivity.
Qed.

Lemma alerts_fold now d (budgets : list Budget.t) : forall alerts,
  fold_left (fun alerts budget => alerts ++ alertFor zone show fixed now d budget)
            budgets alerts
  = alerts ++ flat_map (alertFor zone show fixed now d) budgets.
Proof.
  induction budgets as [|b budgets IH]; intros alerts; simpl.
  - rewrite app_nil_r. reflexivity.
  - rewrite IH, app_assoc. reflexivity.
Qed.

Lemma flat_map_budgets now d (budgets : list Budget.t) :
  map Alert.budget (flat_map (alertFor zone show fixed now d) budgets)
  = filter (alerting now d) budgets.
Proof.
  induction budgets as [|b budgets IH]; simpl; [reflexivity|].
  rewrite map_app, alertFor_budget, IH.
  destruct (alerting now d b); reflexivity.
Qed.

(** X13: The alerts are for the active budgets whose status is not [under],
    one for each, in the order of the budgets; each carries the status of
    its budget; an inactive budget raises none. *)
Theorem alerts_are_for_active_budgets_over_threshold
        (now : Date) (d : ClawhubData.t) :
  let alerts := checkBudgetAlerts zone show fixed now d in
  map Alert.budget alerts
  = filter (fun b => Budget.isActive b && alerting now d b) (ClawhubData.budgets d)
  /\ (forall a, In a alerts ->
        Alert.status a = calculateBudgetStatus zone now d (Alert.budget a)
        /\ BudgetStatus.status (Alert.status a) <> under
        /\ Budget.isActive (Alert.budget a) = true).
Proof.
  cbv zeta. unfold checkBudgetAlerts. rewrite alerts_fold. cbn [app].
  unfold getBudgets. split.
  - rewrite flat_map_budgets.
    induction (ClawhubData.budgets d) as [|b l IH]; simpl; [reflexivity|].
    destruct (Budget.isActive b); simpl; [|exact IH].
    rewrite IH. reflexivity.
  - intros a H. apply in_flat_map in H as (b & Hb & Ha).
    apply filter_In in Hb as [_ Act].
    unfold alertFor in Ha.
    destruct (BudgetStatus.status (calculateBudgetStatus zone now d b)) eqn:E;
      [destruct Ha|destruct Ha as [<-|[]]|destruct Ha as [<-|[]]];
      cbn [Alert.status Alert.budget]; rewrite E;
      (split; [reflexivity|]); (split; [discriminate|exact Act]).
Qed.

End Host.

End BudgetMore.
